(** * AnalysisService: a shallow embedding and its verified properties

    This development embeds [app/utils/analysis/analysis_service.py] in Rocq
    and proves the properties that the design document states about it.

    Conventions of the embedding.
    - A Python or numpy float is a value of [num]: an exact rational, or one
      of the three IEEE special values.  Rounding error of binary64
      arithmetic and the sign of zero are not represented; everything else
      (propagation of NaN, division by zero in numpy, comparisons that are
      false on NaN) is written out.
    - A Python exception is a [Raise] result of the error monad [res];
      [try ... except Exception] is [try_except].
    - numpy, pandas and scikit-learn routines that are not arithmetic
      (logarithm, least squares, standard deviation, ...) are fields of the
      record [Numerics]; every theorem holds for every implementation of
      that record.
    - The caller's data frame is threaded explicitly: a function that may
      write to it returns the frame as it is after the call. *)

From Stdlib Require Import String Ascii QArith ZArith List Bool Lia Lqa.
From Stdlib Require Import Qround Qabs Sorted DecimalString.
Import ListNotations.

Open Scope string_scope.
Open Scope list_scope.
Open Scope Z_scope.
Open Scope Q_scope.

(** ** Floating point values *)

Inductive num : Type :=
| Fin (q : Q)
| PInf
| NInf
| NaN.

Declare Scope num_scope.
Delimit Scope num_scope with num.
Bind Scope num_scope with num.

Module Num.

Definition Qltb (x y : Q) : bool := negb (Qle_bool y x).

Definition of_Z (z : Z) : num := Fin (inject_Z z).

Definition is_nan (a : num) : bool :=
  match a with NaN => true | _ => false end.

Definition is_finite (a : num) : bool :=
  match a with Fin _ => true | _ => false end.

(** Sign of a value that is not NaN. *)
Definition sgn (a : num) : Z :=
  match a with
  | Fin q => Z.sgn (Qnum q)
  | PInf => 1
  | NInf => -1
  | NaN => 0
  end.

(** The infinity of a given sign; a zero sign stands for an undefined
    product or quotient. *)
Definition inf_of_sign (s : Z) : num :=
  match s with
  | Z0 => NaN
  | Zpos _ => PInf
  | Zneg _ => NInf
  end.

Definition opp (a : num) : num :=
  match a with
  | Fin q => Fin (- q)
  | PInf => NInf
  | NInf => PInf
  | NaN => NaN
  end.

Definition add (a b : num) : num :=
  match a, b with
  | NaN, _ | _, NaN => NaN
  | Fin x, Fin y => Fin (x + y)
  | PInf, NInf | NInf, PInf => NaN
  | PInf, _ | _, PInf => PInf
  | NInf, _ | _, NInf => NInf
  end.

Definition sub (a b : num) : num := add a (opp b).

Definition mul (a b : num) : num :=
  match a, b with
  | NaN, _ | _, NaN => NaN
  | Fin x, Fin y => Fin (x * y)
  | _, _ => inf_of_sign (sgn a * sgn b)
  end.

(** Division as numpy does it: a zero divisor gives an infinity or NaN,
    never an exception. *)
Definition div (a b : num) : num :=
  match a, b with
  | NaN, _ | _, NaN => NaN
  | Fin x, Fin y =>
      if Qeq_bool y 0 then inf_of_sign (Z.sgn (Qnum x)) else Fin (x / y)
  | Fin _, _ => Fin 0
  | _, Fin y => inf_of_sign (sgn a * (if Qeq_bool y 0 then 1 else Z.sgn (Qnum y)))
  | _, _ => NaN
  end.

Definition abs (a : num) : num :=
  match a with
  | Fin q => Fin (Qabs q)
  | PInf | NInf => PInf
  | NaN => NaN
  end.

(** Comparisons; each is false as soon as one side is NaN. *)
Definition ltb (a b : num) : bool :=
  match a, b with
  | NaN, _ | _, NaN => false
  | Fin x, Fin y => Qltb x y
  | _, NInf => false
  | NInf, _ => true
  | PInf, _ => false
  | _, PInf => true
  end.

Definition leb (a b : num) : bool :=
  match a, b with
  | NaN, _ | _, NaN => false
  | Fin x, Fin y => Qle_bool x y
  | NInf, _ => true
  | _, PInf => true
  | _, NInf => false
  | PInf, _ => false
  end.

Definition gtb (a b : num) : bool := ltb b a.
Definition geb (a b : num) : bool := leb b a.

Definition eqb (a b : num) : bool :=
  match a, b with
  | Fin x, Fin y => Qeq_bool x y
  | PInf, PInf | NInf, NInf => true
  | _, _ => false
  end.

Definition neb (a b : num) : bool := negb (eqb a b).

(** Python's builtins [min(a, b)] and [max(a, b)]: the first argument is
    kept unless the second is strictly better, so a NaN in second place is
    dropped. *)
Definition py_min (a b : num) : num := if ltb b a then b else a.
Definition py_max (a b : num) : num := if ltb a b then b else a.

(** Equality of values up to the representation of the rational. *)
Definition eq (a b : num) : Prop :=
  match a, b with
  | Fin x, Fin y => x == y
  | PInf, PInf | NInf, NInf | NaN, NaN => True
  | _, _ => False
  end.

End Num.

Notation "a + b" := (Num.add a b) : num_scope.
Notation "a - b" := (Num.sub a b) : num_scope.
Notation "a * b" := (Num.mul a b) : num_scope.
Notation "a / b" := (Num.div a b) : num_scope.
Notation "a <? b" := (Num.ltb a b) : num_scope.
Notation "a <=? b" := (Num.leb a b) : num_scope.
Notation "a >? b" := (Num.gtb a b) : num_scope.
Notation "a >=? b" := (Num.geb a b) : num_scope.

(** ** Exceptions *)

Inductive exn : Type :=
| KeyError
| IndexError
| ValueError
| ZeroDivisionError
| OverflowError
| NameError
| LibraryError.

Inductive res (A : Type) : Type :=
| Ok (a : A)
| Raise (e : exn).

Arguments Ok {A} a.
Arguments Raise {A} e.

Definition bind {A B : Type} (c : res A) (k : A -> res B) : res B :=
  match c with
  | Ok a => k a
  | Raise e => Raise e
  end.

Notation "x <- c ;; k" := (bind c (fun x => k))
  (at level 61, c at next level, right associativity).

(** [try: c except Exception: h]. *)
Definition try_except {A : Type} (c : res A) (h : exn -> res A) : res A :=
  match c with
  | Ok a => Ok a
  | Raise e => h e
  end.

Definition is_ok {A : Type} (c : res A) : bool :=
  match c with Ok _ => true | Raise _ => false end.

(** ** Python's [round] *)

(** [round(x)] on a float: nearest integer, ties to the even one. *)
Definition round_half_even (q : Q) : Z :=
  let f := Qfloor q in
  match Qcompare (q - inject_Z f) 0.5 with
  | Lt => f
  | Gt => (f + 1)%Z
  | Eq => if Z.even f then f else (f + 1)%Z
  end.

Definition py_round (x : num) : res Z :=
  match x with
  | Fin q => Ok (round_half_even q)
  | NaN => Raise ValueError
  | PInf | NInf => Raise OverflowError
  end.

(** [round(x, 2)]: the same rounding at two decimals; special values are
    returned unchanged. *)
Definition py_round2 (x : num) : num :=
  match x with
  | Fin q => Fin (inject_Z (round_half_even (q * 100)) / 100)
  | _ => x
  end.

(** ** MetricScorer: [score_metric] *)

Definition score_metric (value benchmark : num) (metric_type : string) : res Z :=
  if String.eqb metric_type "return" then
    let base_score := Fin 60 in
    let diff := ((value - benchmark) * Fin 100)%num in
    let points_change :=
      if (diff >=? Fin 0)%num then (diff / Fin 2)%num else (diff * Fin 2)%num in
    let final_score := (base_score + points_change)%num in
    if (final_score >? Fin 100)%num then Ok 100%Z
    else if (final_score <? Fin 25)%num then Ok 25%Z
    else py_round final_score
  else
    let ratio := (value / benchmark)%num in
    if (ratio <=? Fin 0.6)%num then Ok 100%Z
    else if (ratio <=? Fin 0.7)%num then Ok 90%Z
    else if (ratio <=? Fin 0.8)%num then Ok 85%Z
    else if (ratio <=? Fin 0.9)%num then Ok 80%Z
    else if (ratio <=? Fin 1.0)%num then Ok 75%Z
    else if (ratio <=? Fin 1.2)%num then Ok 70%Z
    else if (ratio <=? Fin 1.4)%num then Ok 65%Z
    else if (ratio <=? Fin 1.6)%num then Ok 60%Z
    else if (ratio <=? Fin 1.8)%num then Ok 55%Z
    else if (ratio <=? Fin 2.0)%num then Ok 50%Z
    else Ok 40%Z.

(** The two scores as the design document words them, on exact rationals. *)

Definition clamp (lo hi x : Q) : Q :=
  if Qle_bool x lo then lo else if Qle_bool hi x then hi else x.

Definition return_score_spec (value benchmark : Q) : Z :=
  let diff_pct_points := (value - benchmark) * 100 in
  let adjusted :=
    if Qle_bool 0 diff_pct_points
    then 60 + diff_pct_points / 2
    else 60 - Qabs diff_pct_points * 2 in
  round_half_even (clamp 25 100 adjusted).

Definition volatility_score_spec (ratio : Q) : Z :=
  if Qle_bool ratio 0.6 then 100
  else if Qle_bool ratio 0.7 then 90
  else if Qle_bool ratio 0.8 then 85
  else if Qle_bool ratio 0.9 then 80
  else if Qle_bool ratio 1.0 then 75
  else if Qle_bool ratio 1.2 then 70
  else if Qle_bool ratio 1.4 then 65
  else if Qle_bool ratio 1.6 then 60
  else if Qle_bool ratio 1.8 then 55
  else if Qle_bool ratio 2.0 then 50
  else 40.

(** ** Python sequences *)

(** [l[i]] for a non-negative index. *)
Definition py_index {A : Type} (l : list A) (i : nat) : res A :=
  match nth_error l i with
  | Some x => Ok x
  | None => Raise IndexError
  end.

(** [range(a, b)]. *)
Definition py_range (a b : nat) : list nat := seq a (b - a).

(** A [for] loop whose body may raise: the state is threaded through the
    iterations and the first exception ends the loop. *)
Fixpoint for_each {S I : Type} (body : S -> I -> res S) (items : list I)
    (state : S) : res S :=
  match items with
  | [] => Ok state
  | i :: rest => state' <- body state i ;; for_each body rest state'
  end.

Fixpoint map2 {A B C : Type} (f : A -> B -> C) (l1 : list A) (l2 : list B)
    : list C :=
  match l1, l2 with
  | x :: l1', y :: l2' => f x y :: map2 f l1' l2'
  | _, _ => []
  end.

(** Subtraction of two one-dimensional numpy arrays.  Arrays of the same
    length are subtracted pointwise, an array of length one is broadcast,
    any other pair of shapes is rejected. *)
Definition np_subtract (a b : list num) : res (list num) :=
  if Nat.eqb (length a) (length b) then Ok (map2 Num.sub a b)
  else
    match a, b with
    | [x], _ => Ok (map (fun y => (x - y)%num) b)
    | _, [y] => Ok (map (fun x => (x - y)%num) a)
    | _, _ => Raise ValueError
    end.

(** ** CrossoverDetector: [find_crossover_points] *)

Section CrossoverDetector.

(** The element types of [dates] and [prices] play no part in the scan. *)
Context {D P : Type}.

(** The four lists the loop appends to. *)
Record crossovers : Type := mkCrossovers {
  crossover_points : list D;
  crossover_values : list num;
  crossover_directions : list string;
  crossover_prices : list P
}.

Definition crossover_append (acc : crossovers) (date : D) (cross_value : num)
    (direction : string) (price : P) : crossovers :=
  {| crossover_points := crossover_points acc ++ [date];
     crossover_values := crossover_values acc ++ [cross_value];
     crossover_directions := crossover_directions acc ++ [direction];
     crossover_prices := crossover_prices acc ++ [price] |}.

(** One iteration of the loop, at index [i >= 1]. *)
Definition crossover_step (dates : list D) (s1 s2 : list num) (prices : list P)
    (diff : list num) (acc : crossovers) (i : nat) : res crossovers :=
  d_prev <- py_index diff (i - 1) ;;
  d_cur <- py_index diff i ;;
  if (d_prev <=? Fin 0)%num && (d_cur >? Fin 0)%num then
    a <- py_index s1 (i - 1) ;;
    b <- py_index s2 (i - 1) ;;
    let cross_value := ((a + b) / Fin 2)%num in
    date <- py_index dates i ;;
    price <- py_index prices i ;;
    Ok (crossover_append acc date cross_value "down" price)
  else if (d_prev >=? Fin 0)%num && (d_cur <? Fin 0)%num then
    a <- py_index s1 (i - 1) ;;
    b <- py_index s2 (i - 1) ;;
    let cross_value := ((a + b) / Fin 2)%num in
    date <- py_index dates i ;;
    price <- py_index prices i ;;
    Ok (crossover_append acc date cross_value "up" price)
  else Ok acc.

Definition find_crossover_points (dates : list D) (series1 series2 : list num)
    (prices : list P)
    : res (list D * list num * list string * list P) :=
  let acc := mkCrossovers [] [] [] [] in
  let s1 := series1 in
  let s2 := series2 in
  diff <- np_subtract s1 s2 ;;
  acc <- for_each (crossover_step dates s1 s2 prices diff)
           (py_range 1 (length diff)) acc ;;
  Ok (crossover_points acc, crossover_values acc,
      crossover_directions acc, crossover_prices acc).

(** The scan as the design document words it: the event, if any, that
    index [i] contributes. *)
Definition crossover_event_at (dates : list D) (s1 s2 : list num)
    (prices : list P) (i : nat) : option (D * num * string * P) :=
  match nth_error s1 (i - 1), nth_error s2 (i - 1),
        nth_error s1 i, nth_error s2 i,
        nth_error dates i, nth_error prices i with
  | Some a0, Some b0, Some a1, Some b1, Some date, Some price =>
      let diff_prev := (a0 - b0)%num in
      let diff_cur := (a1 - b1)%num in
      let midpoint := ((a0 + b0) / Fin 2)%num in
      if (diff_prev <=? Fin 0)%num && (diff_cur >? Fin 0)%num
      then Some (date, midpoint, "down", price)
      else if (diff_prev >=? Fin 0)%num && (diff_cur <? Fin 0)%num
      then Some (date, midpoint, "up", price)
      else None
  | _, _, _, _, _, _ => None
  end.

Definition crossover_events_spec (dates : list D) (s1 s2 : list num)
    (prices : list P) : list (D * num * string * P) :=
  flat_map (fun i =>
              match crossover_event_at dates s1 s2 prices i with
              | Some e => [e]
              | None => []
              end)
           (seq 1 (length s1 - 1)).

(** What index [i] adds to the four lists. *)
Definition crossover_add (dates : list D) (s1 s2 : list num) (prices : list P)
    (acc : crossovers) (i : nat) : crossovers :=
  match crossover_event_at dates s1 s2 prices i with
  | Some (date, value, direction, price) =>
      crossover_append acc date value direction price
  | None => acc
  end.

(** The four parallel lists of a list of events. *)
Definition unzip_events (events : list (D * num * string * P))
    : list D * list num * list string * list P :=
  (map (fun e => fst (fst (fst e))) events,
   map (fun e => snd (fst (fst e))) events,
   map (fun e => snd (fst e)) events,
   map (fun e => snd e) events).

End CrossoverDetector.

Arguments crossovers : clear implicits.

(** The invariant of the scan: the events recorded so far were taken at the
    indices [idxs], and every direction is one of the two labels. *)
Definition crossovers_track {D P : Type} (dates : list D) (prices : list P)
    (idxs : list nat) (acc : crossovers D P) : Prop :=
  map Some (crossover_points acc) = map (nth_error dates) idxs /\
  map Some (crossover_prices acc) = map (nth_error prices) idxs /\
  length (crossover_values acc) = length idxs /\
  length (crossover_directions acc) = length idxs /\
  Forall (fun d => d = "down" \/ d = "up") (crossover_directions acc).

(** ** [calculate_price_appreciation_pct] *)

Definition calculate_price_appreciation_pct
    (current_price highest_price lowest_price : num) : num :=
  let total_range := (highest_price - lowest_price)%num in
  if (total_range >? Fin 0)%num then
    let current_from_low := (current_price - lowest_price)%num in
    ((current_from_low / total_range) * Fin 100)%num
  else Fin 0.

(** ** Data frames *)

(** A pandas [DataFrame] with a date index: the dates are day numbers, the
    columns are kept in their order. *)
Record DataFrame : Type := mkDataFrame {
  index : list Z;
  columns : list (string * list num)
}.

(** [len(df)]. *)
Definition df_len (df : DataFrame) : nat := length (index df).

(** [df.empty]: one of the two axes has length zero. *)
Definition df_empty (df : DataFrame) : bool :=
  match index df, columns df with
  | [], _ | _, [] => true
  | _, _ => false
  end.

Fixpoint assoc_get {A : Type} (name : string) (l : list (string * A)) : option A :=
  match l with
  | [] => None
  | (k, v) :: rest => if String.eqb k name then Some v else assoc_get name rest
  end.

(** Assignment to a key: an existing entry is overwritten in place, a new
    one goes to the end. *)
Fixpoint assoc_set {A : Type} (name : string) (v : A) (l : list (string * A))
    : list (string * A) :=
  match l with
  | [] => [(name, v)]
  | (k, w) :: rest =>
      if String.eqb k name then (k, v) :: rest else (k, w) :: assoc_set name v rest
  end.

(** [col in df.columns]. *)
Definition df_has_col (df : DataFrame) (name : string) : bool :=
  match assoc_get name (columns df) with Some _ => true | None => false end.

(** [df[name]]. *)
Definition df_col (df : DataFrame) (name : string) : res (list num) :=
  match assoc_get name (columns df) with
  | Some values => Ok values
  | None => Raise KeyError
  end.

(** [df[name] = values]. *)
Definition df_set_col (df : DataFrame) (name : string) (values : list num)
    : DataFrame :=
  {| index := index df; columns := assoc_set name values (columns df) |}.

(** Selection of the entries of a list under a boolean mask. *)
Fixpoint select {A : Type} (mask : list bool) (l : list A) : list A :=
  match mask, l with
  | b :: mask', x :: l' => if b then x :: select mask' l' else select mask' l'
  | _, _ => []
  end.

(** [df.loc[mask]] and [df[mask]]: the rows at which the mask holds. *)
Definition df_loc (mask : list bool) (df : DataFrame) : DataFrame :=
  {| index := select mask (index df);
     columns := map (fun c => (fst c, select mask (snd c))) (columns df) |}.

(** [series.iloc[0]] and [series.iloc[-1]]. *)
Definition iloc_first {A : Type} (l : list A) : res A := py_index l 0.

Definition iloc_last {A : Type} (l : list A) : res A :=
  match rev l with
  | x :: _ => Ok x
  | [] => Raise IndexError
  end.

(** [series.dropna()]. *)
Definition dropna (l : list num) : list num :=
  filter (fun x => negb (Num.is_nan x)) l.

(** [series.pct_change()]: the first entry has no predecessor. *)
Definition pct_change (l : list num) : list num :=
  match l with
  | [] => []
  | _ :: rest => NaN :: map2 (fun prev cur => (cur / prev - Fin 1)%num) l rest
  end.

(** [series.max()] and [series.min()], which skip NaN. *)
Definition series_max (l : list num) : num :=
  match dropna l with
  | [] => NaN
  | x :: rest => fold_left (fun m y => if (m <? y)%num then y else m) rest x
  end.

Definition series_min (l : list num) : num :=
  match dropna l with
  | [] => NaN
  | x :: rest => fold_left (fun m y => if (y <? m)%num then y else m) rest x
  end.

(** [np.max] of an integer array; an empty array is rejected. *)
Definition np_max (l : list Z) : res Z :=
  match l with
  | [] => Raise ValueError
  | x :: rest => Ok (fold_left Z.max rest x)
  end.

(** [np.arange(n)] as floats. *)
Definition np_arange (n : Z) : list num :=
  map (fun i => Num.of_Z (Z.of_nat i)) (seq 0 (Z.to_nat n)).

(** True division of Python integers. *)
Definition py_int_truediv (a b : Z) : res num :=
  if (b =? 0)%Z then Raise ZeroDivisionError
  else Ok (Fin (inject_Z a / inject_Z b)).

(** ** The numeric libraries *)

(** The result of [LinearRegression().fit] on the features
    [1, x, x^2]: [coef_] and [intercept_]. *)
Record fitted_model : Type := mkFitted {
  coef0 : num;
  coef1 : num;
  coef2 : num;
  intercept_ : num
}.

(** The routines of numpy, pandas and scikit-learn that the service calls
    and that are not plain arithmetic.  Those of scikit-learn validate their
    input and may raise. *)
Record Numerics : Type := mkNumerics {
  np_log : num -> num;
  np_exp : num -> num;
  np_sqrt : num -> num;
  (** [x ** y] on numpy floats *)
  np_power : num -> num -> num;
  (** [np.std], the population standard deviation *)
  np_std : list num -> num;
  (** [Series.std], the sample standard deviation *)
  pd_std : list num -> num;
  (** [PolynomialFeatures(degree=2)] followed by [LinearRegression().fit] *)
  fit_quadratic : list num -> list num -> res fitted_model;
  (** [model.predict] on the quadratic features of the given abscissas *)
  predict : fitted_model -> list num -> res (list num);
  r2_score : list num -> list num -> res num;
  (** [f"{x:.4f}"] *)
  format_4f : num -> string;
  (** [f"{n}"] for an integer *)
  format_int : Z -> string
}.

(** The external data source: [DataService().get_historical_data]. *)
Definition DataService : Type := string -> Z -> Z -> res (option DataFrame).

(** ** [format_regression_equation] *)

Definition format_regression_equation (lib : Numerics)
    (coefficients : fitted_model) (intercept : num) (max_x : Z) : string :=
  let terms := [] in
  let terms :=
    if Num.neb (coef2 coefficients) (Fin 0) then
      terms ++ [format_4f lib (coef2 coefficients)
                ++ "(x/" ++ format_int lib max_x ++ ")²"]%string
    else terms in
  let terms :=
    if Num.neb (coef1 coefficients) (Fin 0) then
      let sign := if (coef1 coefficients >? Fin 0)%num then "+" else "" in
      terms ++ [sign ++ format_4f lib (coef1 coefficients)
                ++ "(x/" ++ format_int lib max_x ++ ")"]%string
    else terms in
  let terms :=
    if Num.neb intercept (Fin 0) then
      let sign := if (intercept >? Fin 0)%num then "+" else "" in
      terms ++ [sign ++ format_4f lib intercept]%string
    else terms in
  ("Ln(y) = " ++ String.concat " " terms)%string.

(** ** TrendScorer: [evaluate_trend_score] *)

(** The dictionary [trend_type] of the four sign patterns. *)
Record trend_flags : Type := mkTrendFlags {
  accelerating_up : bool;
  accelerating_down : bool;
  reversal_up : bool;
  reversal_down : bool
}.

Definition trend_type (quad_coef linear_coef : num) : trend_flags :=
  {| accelerating_up := (quad_coef >? Fin 0)%num && (linear_coef >? Fin 0)%num;
     accelerating_down := (quad_coef <? Fin 0)%num && (linear_coef <? Fin 0)%num;
     reversal_up := (quad_coef >? Fin 0)%num && (linear_coef <? Fin 0)%num;
     reversal_down := (quad_coef <? Fin 0)%num && (linear_coef >? Fin 0)%num |}.

(** [evaluate_trend_score] is local to [perform_polynomial_regression] and
    reads the frame [data] of the enclosing call.  The result is
    [(final_score, ratio, credibility_level)]. *)
Definition evaluate_trend_score (lib : Numerics) (data : DataFrame)
    (quad_coef linear_coef r_squared : num) : num * num * Z :=
  let body : res (num * num * Z) :=
    close <- df_col data "Close" ;;
    let returns := dropna (pct_change close) in
    let annual_vol := (pd_std lib returns * np_sqrt lib (Fin 252))%num in
    let period_days := Num.of_Z (Z.of_nat (df_len data)) in
    let period_years := (period_days / Fin 252)%num in
    let vol_linear := (annual_vol * np_sqrt lib period_years)%num in
    let vol_quad := (annual_vol / np_sqrt lib period_days)%num in
    let linear_impact := (linear_coef / vol_linear)%num in
    let quad_impact := (quad_coef / vol_quad)%num in
    let trend_score := Fin 50 in
    let trend_type := trend_type quad_coef linear_coef in
    let future_strength := Num.py_min (Fin 1.0) (Num.abs quad_impact / Fin 30)%num in
    let historic_strength := Num.py_min (Fin 1.0) (Num.abs linear_impact) in
    let trend_score :=
      if accelerating_up trend_type then
        (trend_score + (future_strength * Fin 35 + historic_strength * Fin 25))%num
      else if accelerating_down trend_type then
        (trend_score - (future_strength * Fin 35 + historic_strength * Fin 25))%num
      else if reversal_up trend_type then
        (trend_score + (future_strength * Fin 35 - historic_strength * Fin 15))%num
      else if reversal_down trend_type then
        if (historic_strength >? Fin 0.7)%num then
          (trend_score + historic_strength * Fin 35)%num
        else if (future_strength >? historic_strength)%num then
          (trend_score - future_strength * Fin 25)%num
        else
          (trend_score + historic_strength * Fin 20)%num
      else trend_score in
    let r_squared_multiplier := (Fin 0.6 + Fin 0.4 * (r_squared * r_squared))%num in
    let final_score := (trend_score * r_squared_multiplier)%num in
    let final_score := Num.py_min (Fin 100) (Num.py_max (Fin 0) final_score) in
    let ratio :=
      if Num.neb linear_coef (Fin 0) then Num.abs (quad_coef / linear_coef)%num
      else PInf in
    let credibility_level :=
      if (r_squared >=? Fin 0.90)%num then 5%Z
      else if (r_squared >=? Fin 0.80)%num then 4%Z
      else if (r_squared >=? Fin 0.70)%num then 3%Z
      else if (r_squared >=? Fin 0.60)%num then 2%Z
      else 1%Z in
    Ok (final_score, ratio, credibility_level) in
  match body with
  | Ok result => result
  | Raise _ => (Fin 50, Fin 0, 1%Z)
  end.

(** The trend score as the design document words it. *)

Inductive trend_kind : Type :=
| AcceleratingUp
| AcceleratingDown
| ReversalUp
| ReversalDown.

(** Classification by the signs of the two coefficients; a coefficient that
    is zero or NaN puts the trend in none of the four kinds. *)
Definition classify_trend_spec (quad linear : num) : option trend_kind :=
  if (quad >? Fin 0)%num && (linear >? Fin 0)%num then Some AcceleratingUp
  else if (quad <? Fin 0)%num && (linear <? Fin 0)%num then Some AcceleratingDown
  else if (quad >? Fin 0)%num && (linear <? Fin 0)%num then Some ReversalUp
  else if (quad <? Fin 0)%num && (linear >? Fin 0)%num then Some ReversalDown
  else None.

Definition trend_adjustment_spec (kind : trend_kind)
    (future_strength historic_strength : num) : num :=
  match kind with
  | AcceleratingUp =>
      (future_strength * Fin 35 + historic_strength * Fin 25)%num
  | AcceleratingDown =>
      Num.opp (future_strength * Fin 35 + historic_strength * Fin 25)%num
  | ReversalUp =>
      (future_strength * Fin 35 - historic_strength * Fin 15)%num
  | ReversalDown =>
      if (historic_strength >? Fin 0.7)%num then (historic_strength * Fin 35)%num
      else if (future_strength >? historic_strength)%num
      then Num.opp (future_strength * Fin 25)%num
      else (historic_strength * Fin 20)%num
  end.

(** The neutral base 50, adjusted when the trend has a kind. *)
Definition adjusted_trend_score_spec (kind : option trend_kind)
    (future_strength historic_strength : num) : num :=
  match kind with
  | Some k => (Fin 50 + trend_adjustment_spec k future_strength historic_strength)%num
  | None => Fin 50
  end.

(** The two strengths, each capped at 1.0. *)
Definition trend_strengths_spec (lib : Numerics) (close : list num)
    (period_days : nat) (quad linear : num) : num * num :=
  let annual_vol := (pd_std lib (dropna (pct_change close)) * np_sqrt lib (Fin 252))%num in
  let days := Num.of_Z (Z.of_nat period_days) in
  let vol_linear := (annual_vol * np_sqrt lib (days / Fin 252))%num in
  let vol_quad := (annual_vol / np_sqrt lib days)%num in
  (Num.py_min (Fin 1.0) (Num.abs (quad / vol_quad) / Fin 30)%num,
   Num.py_min (Fin 1.0) (Num.abs (linear / vol_linear))).

Definition clamp_score (x : num) : num :=
  Num.py_min (Fin 100) (Num.py_max (Fin 0) x).

Definition trend_score_spec (lib : Numerics) (close : list num)
    (period_days : nat) (quad linear r_squared : num) : num :=
  let '(future_strength, historic_strength) :=
    trend_strengths_spec lib close period_days quad linear in
  let adjusted :=
    adjusted_trend_score_spec (classify_trend_spec quad linear)
      future_strength historic_strength in
  clamp_score (adjusted * (Fin 0.6 + Fin 0.4 * (r_squared * r_squared)))%num.

(** A value lies in the closed interval from 0 to 100. *)
Definition in_0_100 (x : num) : Prop :=
  exists q, x = Fin q /\ 0 <= q <= 100.

(** ** A computable instance of the numeric libraries

    Rational stand-ins for the library routines, used to run the service on
    concrete inputs.  They agree with the real routines wherever the true
    value is rational and the series below is exact there (the logarithm of
    1, the exponential of 0, the square root of 0, least squares on data
    that a quadratic fits exactly); elsewhere they are approximations. *)

Module Reference.

Definition lift1 (f : Q -> num) (pinf ninf : num) (a : num) : num :=
  match a with
  | Fin x => f x
  | PInf => pinf
  | NInf => ninf
  | NaN => NaN
  end.

(** Logarithm: [2 * (t + t^3/3 + t^5/5)] with [t = (x - 1) / (x + 1)]. *)
Definition log (a : num) : num :=
  lift1 (fun x =>
           if Num.Qltb 0 x then
             let t := (x - 1) / (x + 1) in
             Fin (Qred (2 * (t + t * t * t / 3 + t * t * t * t * t / 5)))
           else if Qeq_bool x 0 then NInf else NaN)
        PInf NaN a.

(** Exponential: the Taylor polynomial of degree 4. *)
Definition exp (a : num) : num :=
  lift1 (fun x =>
           Fin (Qred (1 + x + x * x / 2 + x * x * x / 6 + x * x * x * x / 24)))
        PInf (Fin 0) a.

Fixpoint newton (steps : nat) (x y : Q) : Q :=
  match steps with
  | O => y
  | S n => newton n x (Qred ((y + x / y) / 2))
  end.

(** Square root: four Newton steps from [(x + 1) / 2]. *)
Definition sqrt (a : num) : num :=
  lift1 (fun x =>
           if Qeq_bool x 0 then Fin 0
           else if Num.Qltb x 0 then NaN
           else Fin (newton 4 x ((x + 1) / 2)))
        PInf NaN a.

Definition power (a b : num) : num := exp (b * log a)%num.

Definition sum (l : list num) : num := fold_left Num.add l (Fin 0).

Definition mean (l : list num) : num :=
  (sum l / Num.of_Z (Z.of_nat (length l)))%num.

Definition sum_sq_dev (l : list num) : num :=
  let m := mean l in
  sum (map (fun x => ((x - m) * (x - m))%num) l).

Definition population_std (l : list num) : num :=
  sqrt (sum_sq_dev l / Num.of_Z (Z.of_nat (length l)))%num.

Definition sample_std (l : list num) : num :=
  sqrt (sum_sq_dev l / Num.of_Z (Z.of_nat (length l) - 1))%num.

Definition all_finite (l : list num) : bool := forallb Num.is_finite l.

(** The reduced form of a rational value. *)
Definition reduce (a : num) : num :=
  match a with
  | Fin q => Fin (Qred q)
  | _ => a
  end.

Definition det3 (a b c d e f g h i : num) : num :=
  (a * (e * i - f * h) - b * (d * i - f * g) + c * (d * h - e * g))%num.

(** Least squares for [y = b + c1 x + c2 x^2] through the normal equations;
    non-finite input is rejected, as is a singular system. *)
Definition fit (xs ys : list num) : res fitted_model :=
  if negb (all_finite xs && all_finite ys) then Raise ValueError
  else
    let n := Num.of_Z (Z.of_nat (length xs)) in
    let x2 := map (fun x => x * x)%num xs in
    let sx := sum xs in
    let sx2 := sum x2 in
    let sx3 := sum (map2 Num.mul x2 xs) in
    let sx4 := sum (map2 Num.mul x2 x2) in
    let sy := sum ys in
    let sxy := sum (map2 Num.mul xs ys) in
    let sx2y := sum (map2 Num.mul x2 ys) in
    let d := det3 n sx sx2 sx sx2 sx3 sx2 sx3 sx4 in
    if Num.eqb d (Fin 0) then Raise LibraryError
    else
      Ok {| coef0 := Fin 0;
            coef1 := reduce (det3 n sy sx2 sx sxy sx3 sx2 sx2y sx4 / d)%num;
            coef2 := reduce (det3 n sx sy sx sx2 sxy sx2 sx3 sx2y / d)%num;
            intercept_ := reduce (det3 sy sx sx2 sxy sx2 sx3 sx2y sx3 sx4 / d)%num |}.

Definition predict_quadratic (m : fitted_model) (xs : list num) : res (list num) :=
  if all_finite xs then
    Ok (map (fun x => (intercept_ m + coef0 m + coef1 m * x + coef2 m * (x * x))%num) xs)
  else Raise ValueError.

Definition r2 (y_true y_pred : list num) : res num :=
  if negb (all_finite y_true && all_finite y_pred) then Raise ValueError
  else if negb (Nat.eqb (length y_true) (length y_pred)) then Raise ValueError
  else
    let ss_res := sum (map2 (fun y p => ((y - p) * (y - p))%num) y_true y_pred) in
    let ss_tot := sum_sq_dev y_true in
    if Num.eqb ss_tot (Fin 0)
    then Ok (if Num.eqb ss_res (Fin 0) then Fin 1 else Fin 0)
    else Ok (Fin 1 - ss_res / ss_tot)%num.

Definition show_Z (z : Z) : string := NilZero.string_of_int (Z.to_int z).

(** Four decimals, rounded half to even. *)
Definition show_4f (a : num) : string :=
  match a with
  | Fin q =>
      let n := round_half_even (q * 10000) in
      let digits := show_Z (Z.abs n mod 10000 + 10000) in
      ((if Num.Qltb q 0 then "-" else "")
       ++ show_Z (Z.abs n / 10000) ++ "."
       ++ substring 1 4 digits)%string
  | PInf => "inf"
  | NInf => "-inf"
  | NaN => "nan"
  end.

Definition numerics : Numerics :=
  {| np_log := log;
     np_exp := exp;
     np_sqrt := sqrt;
     np_power := power;
     np_std := population_std;
     pd_std := sample_std;
     fit_quadratic := fit;
     predict := predict_quadratic;
     r2_score := r2;
     format_4f := show_4f;
     format_int := show_Z |}.

(** A data source that has no benchmark data: the service then uses its
    fallback constants. *)
Definition no_benchmark : DataService := fun _ _ _ => Ok None.

(** Three daily observations of a constant price. *)
Definition flat3 : DataFrame :=
  {| index := [0; 1; 2]%Z; columns := [("Close", [Fin 1; Fin 1; Fin 1])] |}.

(** Twenty-five daily observations of a price that rises by one a day. *)
Definition ramp25 : DataFrame :=
  {| index := map Z.of_nat (seq 0 25);
     columns :=
       [("Close", map (fun i => Num.of_Z (100 + Z.of_nat i)) (seq 0 25))] |}.

(** A series with no observation. *)
Definition no_rows : DataFrame :=
  {| index := []; columns := [("Close", [])] |}.

End Reference.

(** ** The result of the composite analysis *)

(** The dictionaries that [perform_polynomial_regression] returns.  A key
    that some of the return statements leave out is an optional field. *)

Record trend_details : Type := mkTrendDetails {
  detail_ratio : num;
  detail_credibility_level : Z;
  detail_quad_coef : num;
  detail_linear_coef : num
}.

Record trend_component : Type := mkTrendComponent {
  trend_component_score : num;
  (** the key ['type'] *)
  trend_component_type : option string;
  (** the key ['details']: absent, the empty dictionary, or filled in *)
  trend_component_details : option (option trend_details)
}.

Record metric_component : Type := mkMetricComponent {
  metric_score : num;
  metric_value : option num
}.

Record score_components : Type := mkComponents {
  trend : trend_component;
  return_ : metric_component;
  volatility : metric_component
}.

Record score_scaling : Type := mkScaling {
  factor : num;
  sp500_base : num
}.

Record score_weights : Type := mkWeights {
  weight_trend : num;
  weight_return : num;
  weight_volatility : num
}.

Record total_score_t : Type := mkTotalScore {
  score : num;
  raw_score : option num;
  rating : string;
  components : score_components;
  scaling : option score_scaling;
  weights : option score_weights
}.

Record regression_result : Type := mkResult {
  predictions : list num;
  upper_band : list num;
  lower_band : list num;
  r2 : num;
  coefficients : list num;
  intercept : num;
  std_dev : num;
  equation : string;
  max_x : Z;
  total_score : total_score_t
}.

(** The result for an absent or empty series. *)
Definition no_data_result : regression_result :=
  {| predictions := [];
     upper_band := [];
     lower_band := [];
     r2 := Fin 0;
     coefficients := [Fin 0; Fin 0; Fin 0];
     intercept := Fin 0;
     std_dev := Fin 0;
     equation := "No data available";
     max_x := 0;
     total_score :=
       {| score := Fin 0;
          raw_score := None;
          rating := "Error";
          components :=
            {| trend := mkTrendComponent (Fin 0) (Some "Unknown") None;
               return_ := mkMetricComponent (Fin 0) None;
               volatility := mkMetricComponent (Fin 0) None |};
          scaling := None;
          weights := None |} |}.

(** The result when the regression itself fails. *)
Definition regression_failed_result (close : list num) (len_data : nat)
    : regression_result :=
  {| predictions := close;
     upper_band := close;
     lower_band := close;
     r2 := Fin 0;
     coefficients := [Fin 0; Fin 0; Fin 0];
     intercept := Fin 0;
     std_dev := Fin 0;
     equation := "Regression failed";
     max_x := Z.of_nat len_data;
     total_score :=
       {| score := Fin 0;
          raw_score := None;
          rating := "Error";
          components :=
            {| trend := mkTrendComponent (Fin 0) (Some "Unknown") (Some None);
               return_ := mkMetricComponent (Fin 0) None;
               volatility := mkMetricComponent (Fin 0) None |};
          scaling := None;
          weights := None |} |}.

(** The result of the last-resort handler. *)
Definition error_occurred_result (close : list num) (len_data : nat)
    : regression_result :=
  {| predictions := close;
     upper_band := close;
     lower_band := close;
     r2 := Fin 0;
     coefficients := [Fin 0; Fin 0; Fin 0];
     intercept := Fin 0;
     std_dev := Fin 0;
     equation := "Error occurred";
     max_x := Z.of_nat len_data;
     total_score :=
       {| score := Fin 0;
          raw_score := Some (Fin 0);
          rating := "Error";
          components :=
            {| trend := mkTrendComponent (Fin 0) None (Some None);
               return_ := mkMetricComponent (Fin 0) (Some (Fin 0));
               volatility := mkMetricComponent (Fin 0) (Some (Fin 0)) |};
          scaling := None;
          weights := None |} |}.

(** ** BenchmarkProvider *)

(** The dictionary [sp500_params]. *)
Record sp500_parameters : Type := mkSp500 {
  param_quad_coef : num;
  param_linear_coef : num;
  param_r_squared : num;
  param_annual_return : num;
  param_annual_volatility : num
}.

(** The fallback literals. *)
Definition sp500_fallback : sp500_parameters :=
  {| param_quad_coef := Fin (-0.1134);
     param_linear_coef := Fin 0.4700;
     param_r_squared := Fin 0.9505;
     param_annual_return := Fin 0.2384;
     param_annual_volatility := Fin 0.125 |}.

(** What the regression step leaves in the local variables. *)
Record regression_fit : Type := mkFit {
  fit_model : fitted_model;
  fit_max_x : Z;
  fit_y_pred : list num;
  fit_y_pred_upper : list num;
  fit_y_pred_lower : list num;
  fit_std_dev : num;
  fit_r2 : num;
  fit_equation : string
}.

(** The local variables of the scoring step that the final [return] reads.
    A variable that was not assigned when an exception left the [try] block
    is unbound. *)
Record scoring_locals : Type := mkLocals {
  local_annual_return : option num;
  local_annual_volatility : option num;
  local_trend_score : num;
  local_ratio : num;
  local_credibility_level : Z;
  local_return_score : num;
  local_vol_score : num;
  local_weights : option score_weights;
  local_raw_score : option num;
  local_sp500_raw_score : option num;
  local_scaling_factor : option num;
  local_final_score : num;
  local_rating : string
}.

(** The [except] clause of the scoring step: the scores are zeroed, the
    other variables stay as they were. *)
Definition scoring_failed (ar av : option num) (w : option score_weights)
    (raw : option num) : scoring_locals :=
  {| local_annual_return := ar;
     local_annual_volatility := av;
     local_trend_score := Fin 0;
     local_ratio := Fin 0;
     local_credibility_level := 0;
     local_return_score := Fin 0;
     local_vol_score := Fin 0;
     local_weights := w;
     local_raw_score := raw;
     local_sp500_raw_score := None;
     local_scaling_factor := None;
     local_final_score := Fin 0;
     local_rating := "Error" |}.

(** Reading a local variable. *)
Definition read_local {A : Type} (v : option A) : res A :=
  match v with
  | Some x => Ok x
  | None => Raise NameError
  end.

(** [random.uniform(a, b)], given the draw [u] of [random.random()]. *)
Definition random_uniform (a b : num) (u : Q) : num :=
  (a + (b - a) * Fin u)%num.

Definition rating_of (final_score : num) : string :=
  if (final_score >=? Fin 90)%num then "Excellent"
  else if (final_score >=? Fin 75)%num then "Very Good"
  else if (final_score >=? Fin 65)%num then "Good"
  else if (final_score >=? Fin 40)%num then "Fair"
  else "Poor".

(** ** CurveFitter and CompositeScorer: [perform_polynomial_regression] *)

Section Service.

Variable lib : Numerics.
Variable get_historical_data : DataService.

(** Step 2, when benchmark prices were retrieved. *)
Definition sp500_parameters_of (sp500_data : DataFrame) : res sp500_parameters :=
  close <- df_col sp500_data "Close" ;;
  let sp500_data := df_set_col sp500_data "Log_Close" (map (np_log lib) close) in
  first_date <- py_index (index sp500_data) 0 ;;
  let X_sp := map (fun d => (d - first_date)%Z) (index sp500_data) in
  y_sp <- df_col sp500_data "Log_Close" ;;
  max_X <- np_max X_sp ;;
  let X_sp_scaled := map (fun x => (Num.of_Z x / Num.of_Z (max_X * 1))%num) X_sp in
  sp500_model <- fit_quadratic lib X_sp_scaled y_sp ;;
  y_fit <- predict lib sp500_model X_sp_scaled ;;
  sp500_r2 <- r2_score lib y_sp y_fit ;;
  close <- df_col sp500_data "Close" ;;
  last_close <- iloc_last close ;;
  first_close <- iloc_first close ;;
  last_date <- iloc_last (index sp500_data) ;;
  exponent <- py_int_truediv 365 (last_date - first_date) ;;
  let sp500_returns :=
    (np_power lib (last_close / first_close) exponent - Fin 1)%num in
  let sp500_annual_return := sp500_returns in
  let sp500_daily_returns := dropna (pct_change close) in
  let sp500_annual_volatility :=
    (pd_std lib sp500_daily_returns * np_sqrt lib (Fin 252))%num in
  Ok {| param_quad_coef := coef2 sp500_model;
        param_linear_coef := coef1 sp500_model;
        param_r_squared := sp500_r2;
        param_annual_return := sp500_annual_return;
        param_annual_volatility := sp500_annual_volatility |}.

(** Step 2: the benchmark parameters, or the fallback literals when the data
    source has nothing or anything raises. *)
Definition benchmark_parameters (data : DataFrame) : sp500_parameters :=
  let attempt :=
    end_date <- iloc_last (index data) ;;
    start_date <- py_index (index data) 0 ;;
    sp500_data <- get_historical_data "^GSPC" start_date end_date ;;
    match sp500_data with
    | Some sp500_data =>
        if negb (df_empty sp500_data) then sp500_parameters_of sp500_data
        else Ok sp500_fallback
    | None => Ok sp500_fallback
    end in
  match attempt with
  | Ok sp500_params => sp500_params
  | Raise _ => sp500_fallback
  end.

(** Step 3 after its first statement, on the frame that already has the
    column [Log_Close]. *)
Definition regression_fit_of (data : DataFrame) (future_days : Z)
    : res regression_fit :=
  first_date <- py_index (index data) 0 ;;
  let X := map (fun d => (d - first_date)%Z) (index data) in
  y <- df_col data "Log_Close" ;;
  max_X <- np_max X ;;
  let X_scaled := map (fun x => (Num.of_Z x / Num.of_Z (max_X * 1))%num) X in
  model <- fit_quadratic lib X_scaled y ;;
  let coef := model in
  let intercept := intercept_ model in
  let max_x := max_X in
  let X_future := np_arange (Z.of_nat (df_len data) + future_days) in
  let X_future_scaled :=
    map (fun x => (x / Num.of_Z max_X * Fin 1)%num) X_future in
  y_pred_log <- predict lib model X_future_scaled ;;
  let y_pred := map (np_exp lib) y_pred_log in
  y_fit <- predict lib model X_scaled ;;
  let residuals := map2 Num.sub y y_fit in
  let std_dev := np_std lib residuals in
  let y_pred_upper :=
    map (fun p => np_exp lib (p + Fin 2 * std_dev)%num) y_pred_log in
  let y_pred_lower :=
    map (fun p => np_exp lib (p - Fin 2 * std_dev)%num) y_pred_log in
  y_fit <- predict lib model X_scaled ;;
  r2 <- r2_score lib y y_fit ;;
  let equation := format_regression_equation lib coef intercept max_x in
  Ok {| fit_model := model;
        fit_max_x := max_x;
        fit_y_pred := y_pred;
        fit_y_pred_upper := y_pred_upper;
        fit_y_pred_lower := y_pred_lower;
        fit_std_dev := std_dev;
        fit_r2 := r2;
        fit_equation := equation |}.

(** Step 3.  Its first statement, [data['Log_Close'] = np.log(data['Close'])],
    writes to the frame that the caller passed; the frame is returned as it
    is when the step ends, whether it ends normally or not. *)
Definition regression_step (data : DataFrame) (future_days : Z)
    : res regression_fit * DataFrame :=
  match df_col data "Close" with
  | Raise e => (Raise e, data)
  | Ok close =>
      let data := df_set_col data "Log_Close" (map (np_log lib) close) in
      (regression_fit_of data future_days, data)
  end.

(** Step 4 up to the volatility: [annual_return] and [annual_volatility]. *)
Definition scoring_returns (data : DataFrame) : res (num * num) :=
  close <- df_col data "Close" ;;
  let returns := dropna (pct_change close) in
  last_close <- iloc_last close ;;
  first_close <- iloc_first close ;;
  last_date <- iloc_last (index data) ;;
  first_date <- py_index (index data) 0 ;;
  exponent <- py_int_truediv 365 (last_date - first_date) ;;
  let annual_return :=
    (np_power lib (last_close / first_close) exponent - Fin 1)%num in
  let annual_volatility := (pd_std lib returns * np_sqrt lib (Fin 252))%num in
  Ok (annual_return, annual_volatility).

Definition the_weights : score_weights :=
  {| weight_trend := Fin 0.3; weight_return := Fin 0.6; weight_volatility := Fin 0.10 |}.

Definition weighted (w : score_weights) (trend_score return_score vol_score : num)
    : num :=
  (trend_score * weight_trend w + return_score * weight_return w
   + vol_score * weight_volatility w)%num.

(** Step 4, the asset's own scores:
    [(trend_score, ratio, credibility_level, return_score, vol_score, raw_score)]. *)
Definition scoring_asset (data : DataFrame) (sp500_params : sp500_parameters)
    (fit : regression_fit) (annual_return annual_volatility : num)
    : res (num * num * Z * num * num * num) :=
  let '(trend_score, ratio, credibility_level) :=
    evaluate_trend_score lib data (coef2 (fit_model fit)) (coef1 (fit_model fit))
      (fit_r2 fit) in
  return_score <- score_metric annual_return (param_annual_return sp500_params) "return" ;;
  vol_score <-
    score_metric annual_volatility (param_annual_volatility sp500_params) "volatility" ;;
  let return_score := Num.of_Z return_score in
  let vol_score := Num.of_Z vol_score in
  let weights := the_weights in
  let raw_score := weighted weights trend_score return_score vol_score in
  Ok (trend_score, ratio, credibility_level, return_score, vol_score, raw_score).

(** Step 4, the benchmark's raw score. *)
Definition scoring_benchmark (data : DataFrame) (sp500_params : sp500_parameters)
    : res num :=
  let '(sp500_trend_score, _, _) :=
    evaluate_trend_score lib data (param_quad_coef sp500_params)
      (param_linear_coef sp500_params) (param_r_squared sp500_params) in
  sp500_return_score <-
    score_metric (param_annual_return sp500_params) (param_annual_return sp500_params) "return" ;;
  sp500_vol_score <-
    score_metric (param_annual_volatility sp500_params) (param_annual_volatility sp500_params)
      "volatility" ;;
  Ok (weighted the_weights sp500_trend_score (Num.of_Z sp500_return_score)
        (Num.of_Z sp500_vol_score)).

(** The final score: scaled, capped at 95, then perturbed by the random
    draw and rounded to two decimals. *)
Definition perturbed_score (raw_score scaling_factor : num) (u : Q) : num :=
  let final_score := Num.py_min (Fin 95) (raw_score * scaling_factor)%num in
  py_round2 (random_uniform (final_score - Fin 2) (final_score + Fin 2) u)%num.

(** Step 4 with its [try] and [except]. *)
Definition scoring (data : DataFrame) (sp500_params : sp500_parameters)
    (fit : regression_fit) (u : Q) : scoring_locals :=
  match scoring_returns data with
  | Raise _ => scoring_failed None None None None
  | Ok (annual_return, annual_volatility) =>
      match scoring_asset data sp500_params fit annual_return annual_volatility with
      | Raise _ =>
          scoring_failed (Some annual_return) (Some annual_volatility) None None
      | Ok (trend_score, ratio, credibility_level, return_score, vol_score, raw_score) =>
          match scoring_benchmark data sp500_params with
          | Raise _ =>
              scoring_failed (Some annual_return) (Some annual_volatility)
                (Some the_weights) (Some raw_score)
          | Ok sp500_raw_score =>
              let scaling_factor := (Fin 75 / sp500_raw_score)%num in
              let final_score := perturbed_score raw_score scaling_factor u in
              let rating := rating_of final_score in
              {| local_annual_return := Some annual_return;
                 local_annual_volatility := Some annual_volatility;
                 local_trend_score := trend_score;
                 local_ratio := ratio;
                 local_credibility_level := credibility_level;
                 local_return_score := return_score;
                 local_vol_score := vol_score;
                 local_weights := Some the_weights;
                 local_raw_score := Some raw_score;
                 local_sp500_raw_score := Some sp500_raw_score;
                 local_scaling_factor := Some scaling_factor;
                 local_final_score := final_score;
                 local_rating := rating |}
          end
      end
  end.

(** Step 5: the complete result, read from the local variables. *)
Definition complete_result (fit : regression_fit) (l : scoring_locals)
    : res regression_result :=
  let coef := fit_model fit in
  raw_score <- read_local (local_raw_score l) ;;
  annual_return <- read_local (local_annual_return l) ;;
  annual_volatility <- read_local (local_annual_volatility l) ;;
  scaling_factor <- read_local (local_scaling_factor l) ;;
  sp500_raw_score <- read_local (local_sp500_raw_score l) ;;
  weights <- read_local (local_weights l) ;;
  Ok {| predictions := fit_y_pred fit;
        upper_band := fit_y_pred_upper fit;
        lower_band := fit_y_pred_lower fit;
        r2 := fit_r2 fit;
        coefficients := [coef0 coef; coef1 coef; coef2 coef];
        intercept := intercept_ coef;
        std_dev := fit_std_dev fit;
        equation := fit_equation fit;
        max_x := fit_max_x fit;
        total_score :=
          {| score := local_final_score l;
             raw_score := Some raw_score;
             rating := local_rating l;
             components :=
               {| trend :=
                    {| trend_component_score := local_trend_score l;
                       trend_component_type := None;
                       trend_component_details :=
                         Some (Some {| detail_ratio := local_ratio l;
                                       detail_credibility_level :=
                                         local_credibility_level l;
                                       detail_quad_coef := coef2 coef;
                                       detail_linear_coef := coef1 coef |}) |};
                  return_ := mkMetricComponent (local_return_score l)
                               (Some annual_return);
                  volatility := mkMetricComponent (local_vol_score l)
                                  (Some annual_volatility) |};
             scaling := Some {| factor := scaling_factor;
                                sp500_base := sp500_raw_score |};
             weights := Some weights |} |}.

(** The composite analysis call.  [u] is the draw of the random source; the
    second component of the result is the caller's frame after the call. *)
Definition perform_polynomial_regression (data : option DataFrame)
    (future_days : Z) (u : Q) : res regression_result * option DataFrame :=
  match data with
  | None => (Ok no_data_result, None)
  | Some data =>
      if df_empty data then (Ok no_data_result, Some data)
      else
        let sp500_params := benchmark_parameters data in
        let '(fitted, data) := regression_step data future_days in
        let last_resort (_ : exn) : res regression_result :=
          close <- df_col data "Close" ;;
          Ok (error_occurred_result close (df_len data)) in
        let attempt : res regression_result :=
          match fitted with
          | Raise _ =>
              close <- df_col data "Close" ;;
              Ok (regression_failed_result close (df_len data))
          | Ok fit => complete_result fit (scoring data sp500_params fit u)
          end in
        (try_except attempt last_resort, Some data)
  end.

End Service.

(** The result with the two fields that depend on the random draw blanked
    out. *)
Definition without_perturbed_fields (r : regression_result) : regression_result :=
  let t := total_score r in
  {| predictions := predictions r;
     upper_band := upper_band r;
     lower_band := lower_band r;
     r2 := r2 r;
     coefficients := coefficients r;
     intercept := intercept r;
     std_dev := std_dev r;
     equation := equation r;
     max_x := max_x r;
     total_score :=
       {| score := Fin 0;
          raw_score := raw_score t;
          rating := "";
          components := components t;
          scaling := scaling t;
          weights := weights t |} |}.

(** The ratings a result can carry. *)
Definition known_ratings : list string :=
  ["Excellent"; "Very Good"; "Good"; "Fair"; "Poor"; "Error"].

(** The inputs on which the composite call has something to fall back on:
    an absent series, an empty one, or one with a column [Close]. *)
Definition has_fallback (data : option DataFrame) : bool :=
  match data with
  | None => true
  | Some df => df_empty df || df_has_col df "Close"
  end.

(** An absent or empty series. *)
Definition no_data (data : option DataFrame) : bool :=
  match data with
  | None => true
  | Some df => df_empty df
  end.

(** ** RollingWindowAnalyzer: [analyze_stock_data] *)

(** One entry of [result_data]. *)
Record window_row : Type := mkRow {
  Date : Z;
  Close : num;
  High : num;
  Low : num;
  Retracement_Ratio_Pct : num;
  Price_Position_Pct : num;
  R2_Pct : option num
}.

(** The returned frame: the rows, indexed by [Date], and the columns copied
    from the input. *)
Record analysis_table : Type := mkTable {
  table_rows : list window_row;
  table_columns : list (string * list num)
}.

Fixpoint has_duplicates (l : list Z) : bool :=
  match l with
  | [] => false
  | x :: rest => existsb (Z.eqb x) rest || has_duplicates rest
  end.

Fixpoint lookup_date (d : Z) (dates : list Z) (values : list num) : num :=
  match dates, values with
  | d' :: dates', v :: values' =>
      if (d' =? d)%Z then v else lookup_date d dates' values'
  | _, _ => NaN
  end.

(** Alignment of a column of the input on the index of the returned frame,
    as pandas does it for [df[col] = data[col]]: equal indexes need no
    alignment, otherwise the values are looked up by date, which pandas
    refuses when the source index has duplicates. *)
Definition reindex (source_index : list Z) (values : list num)
    (target_index : list Z) : res (list num) :=
  if list_eq_dec Z.eq_dec target_index source_index then Ok values
  else if has_duplicates source_index then Raise ValueError
  else Ok (map (fun d => lookup_date d source_index values) target_index).

Section RollingWindow.

Variable lib : Numerics.

(** The rows of [data] up to [current_date], cut down to those after
    [current_date - days] when the first of them is more than [days] days
    old. *)
Definition trailing_window (data : DataFrame) (current_date days : Z)
    : res DataFrame :=
  let start := (current_date - days)%Z in
  let window := df_loc (map (fun d => (d <=? current_date)%Z) (index data)) data in
  first_date <- py_index (index window) 0 ;;
  if (current_date - first_date >? days)%Z then
    Ok (df_loc (map (fun d => (d >? start)%Z) (index window)) window)
  else Ok window.

(** The fit quality of the lookback window, in percent; absent when the
    window is short or the fit raises. *)
Definition window_r2_pct (r2_data : DataFrame) : option num :=
  let attempt : res (option num) :=
    if (20 <=? df_len r2_data)%nat then
      close <- df_col r2_data "Close" ;;
      let r2_data := df_set_col r2_data "Log_Close" (map (np_log lib) close) in
      first_date <- py_index (index r2_data) 0 ;;
      let X := map (fun d => (d - first_date)%Z) (index r2_data) in
      y <- df_col r2_data "Log_Close" ;;
      max_X <- np_max X ;;
      let X_scaled := map (fun x => (Num.of_Z x / Num.of_Z max_X)%num) X in
      model <- fit_quadratic lib X_scaled y ;;
      y_fit <- predict lib model X_scaled ;;
      r2 <- r2_score lib y y_fit ;;
      let r2_pct := (r2 * Fin 100)%num in
      Ok (Some r2_pct)
    else Ok None in
  match attempt with
  | Ok r2_pct => r2_pct
  | Raise _ => None
  end.

(** The body of the loop over the dates. *)
Definition analyze_date (data : DataFrame) (crossover_days lookback_days : Z)
    (result_data : list window_row) (current_date : Z)
    : res (list window_row) :=
  r2_data <- trailing_window data current_date lookback_days ;;
  period_data <- trailing_window data current_date crossover_days ;;
  if (df_len period_data <? 20)%nat then Ok result_data
  else
    close <- df_col period_data "Close" ;;
    current_price <- iloc_last close ;;
    let highest_price := series_max close in
    let lowest_price := series_min close in
    let total_move := (highest_price - lowest_price)%num in
    let ratio :=
      if (total_move >? Fin 0)%num then
        let current_retracement := (highest_price - current_price)%num in
        (current_retracement / total_move * Fin 100)%num
      else Fin 0 in
    let appreciation_pct :=
      calculate_price_appreciation_pct current_price highest_price lowest_price in
    let r2_pct := window_r2_pct r2_data in
    Ok (result_data ++
          [{| Date := current_date;
              Close := current_price;
              High := highest_price;
              Low := lowest_price;
              Retracement_Ratio_Pct := ratio;
              Price_Position_Pct := appreciation_pct;
              R2_Pct := r2_pct |}]).

(** The loop: [result_data] after all dates. *)
Definition analyze_rows (data : DataFrame) (crossover_days lookback_days : Z)
    : res (list window_row) :=
  for_each (analyze_date data crossover_days lookback_days) (index data) [].

(** [df[col] = data[col]] when [col] is a column of [data]. *)
Definition copy_column (data : DataFrame) (df : analysis_table) (col : string)
    : res analysis_table :=
  if df_has_col data col then
    values <- df_col data col ;;
    aligned <- reindex (index data) values (map Date (table_rows df)) ;;
    Ok {| table_rows := table_rows df;
          table_columns := assoc_set col aligned (table_columns df) |}
  else Ok df.

(** The [try] block of [analyze_stock_data].  A frame built from an empty
    [result_data] has no column [Date], so that [set_index('Date')] raises. *)
Definition analyze_stock_data_body (data : DataFrame)
    (crossover_days lookback_days : Z) : res analysis_table :=
  result_data <- analyze_rows data crossover_days lookback_days ;;
  df <- match result_data with
        | [] => Raise KeyError
        | _ :: _ => Ok {| table_rows := result_data; table_columns := [] |}
        end ;;
  for_each (copy_column data) ["Open"; "Volume"; "Dividends"; "Stock Splits"] df.

(** [analyze_stock_data]: the handler logs the exception and raises it
    again. *)
Definition analyze_stock_data (data : DataFrame)
    (crossover_days lookback_days : Z) : res analysis_table :=
  try_except (analyze_stock_data_body data crossover_days lookback_days)
    (fun e => Raise e).

End RollingWindow.

(** The trailing window as the design document words it, on the dates alone:
    the full history up to [t], trimmed to the bound only once the available
    history exceeds it. *)
Definition history_up_to (dates : list Z) (t : Z) : list Z :=
  filter (fun d => (d <=? t)%Z) dates.

Definition trailing_window_spec (dates : list Z) (t bound : Z) : list Z :=
  let history := history_up_to dates t in
  match history with
  | [] => []
  | first :: _ =>
      if (t - first >? bound)%Z
      then filter (fun d => (t - bound <? d)%Z) history
      else history
  end.

(** The dates of [dates] whose technical window has at least 20
    observations. *)
Definition retained_dates (dates : list Z) (crossover_days : Z) : list Z :=
  filter (fun t => (20 <=? length (trailing_window_spec dates t crossover_days))%nat)
         dates.

(** ** [calculate_rolling_r2] *)

Section RollingR2.

Variable lib : Numerics.

(** The [try] block of the loop: the fit quality of one window, in
    percent. *)
Definition rolling_r2_of (period_data : DataFrame) : res num :=
  close <- df_col period_data "Close" ;;
  let period_data := df_set_col period_data "Log_Close" (map (np_log lib) close) in
  first_date <- py_index (index period_data) 0 ;;
  let X := map (fun d => (d - first_date)%Z) (index period_data) in
  y <- df_col period_data "Log_Close" ;;
  max_X <- np_max X ;;
  let X_scaled := map (fun x => (Num.of_Z x / Num.of_Z (max_X * 1))%num) X in
  model <- fit_quadratic lib X_scaled y ;;
  y_fit <- predict lib model X_scaled ;;
  r2 <- r2_score lib y y_fit ;;
  Ok (r2 * Fin 100)%num.

(** The body of the loop, on the pair [(analysis_dates, r2_values)]: a short
    window and a window whose fit raises are both skipped. *)
Definition rolling_r2_step (data : DataFrame) (lookback_days : Z)
    (acc : list Z * list num) (current_date : Z) : res (list Z * list num) :=
  period_data <- trailing_window data current_date lookback_days ;;
  if (df_len period_data <? 20)%nat then Ok acc
  else
    match rolling_r2_of period_data with
    | Ok r2_pct => Ok (fst acc ++ [current_date], snd acc ++ [r2_pct])
    | Raise _ => Ok acc
    end.

Definition calculate_rolling_r2 (data : DataFrame) (lookback_days : Z)
    : res (list Z * list num) :=
  for_each (rolling_r2_step data lookback_days) (index data) ([], []).

End RollingR2.

(** ** [analyze_stock_data_old] *)

(** One entry of the six parallel lists. *)
Record old_row : Type := mkOldRow {
  old_Date : Z;
  old_Price : num;
  old_High : num;
  old_Low : num;
  old_Retracement_Ratio_Pct : num;
  old_Price_Position_Pct : num
}.

Definition analyze_date_old (data : DataFrame) (crossover_days : Z)
    (acc : list old_row) (current_date : Z) : res (list old_row) :=
  period_data <- trailing_window data current_date crossover_days ;;
  if (df_len period_data <? 2)%nat then Ok acc
  else
    close <- df_col period_data "Close" ;;
    current_price <- iloc_last close ;;
    let highest_price := series_max close in
    let lowest_price := series_min close in
    let total_move := (highest_price - lowest_price)%num in
    let ratio :=
      if (total_move >? Fin 0)%num then
        let current_retracement := (highest_price - current_price)%num in
        (current_retracement / total_move * Fin 100)%num
      else Fin 0 in
    let appreciation_pct :=
      calculate_price_appreciation_pct current_price highest_price lowest_price in
    Ok (acc ++
          [{| old_Date := current_date;
              old_Price := current_price;
              old_High := highest_price;
              old_Low := lowest_price;
              old_Retracement_Ratio_Pct := ratio;
              old_Price_Position_Pct := appreciation_pct |}]).

(** There is no [try] here: an exception of the loop reaches the caller. *)
Definition analyze_stock_data_old (data : DataFrame) (crossover_days : Z)
    : res (list old_row) :=
  for_each (analyze_date_old data crossover_days) (index data) [].

(** The columns that the two analyses share. *)
Definition old_row_of (r : window_row) : old_row :=
  {| old_Date := Date r;
     old_Price := Close r;
     old_High := High r;
     old_Low := Low r;
     old_Retracement_Ratio_Pct := Retracement_Ratio_Pct r;
     old_Price_Position_Pct := Price_Position_Pct r |}.

(** ** [calculate_growth_rates] *)

(** The table of financial metrics: one row per metric, in index order, the
    last column being the CAGR.  The row labels are taken to be distinct, so
    that [df.loc[metric]] is the row of that label. *)
Definition metrics_table : Type := list (string * list num).

(** The inner loop at index [i]: the growth from period [i - 1] to period
    [i], or [None] when the earlier value is zero. *)
Definition growth_step (values : list num) (rates : list (option num))
    (i : nat) : res (list (option num)) :=
  prev_val <- py_index values (i - 1) ;;
  curr_val <- py_index values i ;;
  if Num.neb prev_val (Fin 0) then
    let growth := ((curr_val / prev_val - Fin 1) * Fin 100)%num in
    Ok (rates ++ [Some growth])
  else Ok (rates ++ [None]).

Definition calculate_growth_rates (df : metrics_table)
    : res (list (string * list (option num))) :=
  for_each
    (fun growth_rates metric =>
       row <- match assoc_get metric df with
              | Some row => Ok row
              | None => Raise KeyError
              end ;;
       let values := removelast row in
       if (1 <? length values)%nat then
         rates <- for_each (growth_step values) (py_range 1 (length values)) [] ;;
         Ok (assoc_set metric rates growth_rates)
       else Ok growth_rates)
    (map fst df) [].

(** The growth rates of one row as a comprehension. *)
Definition growth_of (values : list num) : list (option num) :=
  map2 (fun prev_val curr_val =>
          if Num.neb prev_val (Fin 0)
          then Some ((curr_val / prev_val - Fin 1) * Fin 100)%num
          else None)
       values (tl values).

Definition growth_rates_spec (df : metrics_table)
    : list (string * list (option num)) :=
  flat_map (fun entry =>
              let values := removelast (snd entry) in
              if (1 <? length values)%nat then [(fst entry, growth_of values)]
              else [])
           df.

(** ** Auxiliary notions for the statements *)

(** Every value of a list is a finite number. *)
Definition all_finite (l : list num) : Prop :=
  Forall (fun x => Num.is_finite x = true) l.

(** Order on values, false on NaN. *)
Definition num_le (a b : num) : Prop := Num.leb a b = true.

(** The other label of a crossover. *)
Definition swap_direction (d : string) : string :=
  if String.eqb d "down" then "up" else "down".

(** The technical columns of a row fit together: the close lies between the
    low and the high of its window, the two percentages lie between 0 and
    100, add up to 100 when the window has a range, and are both 0 when it
    has none. *)
Definition row_consistent (close high low retracement position : num) : Prop :=
  exists c h l r p,
    close = Fin c /\ high = Fin h /\ low = Fin l /\
    retracement = Fin r /\ position = Fin p /\
    l <= c <= h /\ 0 <= r <= 100 /\ 0 <= p <= 100 /\
    (l < h -> r + p == 100) /\
    (h <= l -> r == 0 /\ p == 0).

(** The fit quality that [analyze_stock_data] records for the date [t]. *)
Definition lookback_r2 (lib : Numerics) (data : DataFrame) (lookback_days t : Z)
    : option num :=
  match trailing_window data t lookback_days with
  | Ok r2_data => window_r2_pct lib r2_data
  | Raise _ => None
  end.

(* ================================================================== *)
(** * Properties *)
(* ================================================================== *)

(** ** Arithmetic on [num] restricted to finite values *)

Lemma Qltb_lt (x y : Q) : Num.Qltb x y = true <-> x < y.
Proof.
  unfold Num.Qltb. rewrite negb_true_iff.
  destruct (Qle_bool y x) eqn:E.
  - apply Qle_bool_iff in E. split; [discriminate | intro H; lra].
  - split; [intros _ | reflexivity].
    destruct (Qlt_le_dec x y) as [H | H]; [exact H |].
    apply Qle_bool_iff in H. congruence.
Qed.

Lemma Qltb_false (x y : Q) : Num.Qltb x y = false <-> y <= x.
Proof.
  unfold Num.Qltb. rewrite negb_false_iff. apply Qle_bool_iff.
Qed.

Lemma Qle_bool_false (x y : Q) : Qle_bool x y = false <-> y < x.
Proof.
  destruct (Qle_bool x y) eqn:E.
  - apply Qle_bool_iff in E. split; [discriminate | intro H; lra].
  - split; [intros _ | reflexivity].
    destruct (Qlt_le_dec y x) as [H | H]; [exact H |].
    apply Qle_bool_iff in H. congruence.
Qed.

(** Case analysis on a boolean comparison of rationals, leaving the
    corresponding order fact in the context. *)
Ltac case_Qle x y :=
  let E := fresh "E" in
  destruct (Qle_bool x y) eqn:E;
  [apply Qle_bool_iff in E | apply Qle_bool_false in E].

(** Linear arithmetic on rationals, after turning each division by a
    literal into a multiplication. *)
Ltac qlra := unfold Qdiv in *; cbn [Qinv Qnum Qden] in *; lra.

Ltac case_Qlt x y :=
  let E := fresh "E" in
  destruct (Num.Qltb x y) eqn:E;
  [apply Qltb_lt in E | apply Qltb_false in E].

(** ** Rounding *)

Lemma round_half_even_inject (n : Z) : round_half_even (inject_Z n) = n.
Proof.
  unfold round_half_even. rewrite Qfloor_Z.
  destruct (Qcompare_spec (inject_Z n - inject_Z n) 0.5); [lra | reflexivity | lra].
Qed.

Lemma round_half_even_range (q : Q) :
  (Qfloor q <= round_half_even q <= Qfloor q + 1)%Z.
Proof.
  unfold round_half_even.
  destruct (Qcompare _ _); [destruct (Z.even _) | |]; lia.
Qed.

Lemma round_half_even_mono (x y : Q) :
  x <= y -> (round_half_even x <= round_half_even y)%Z.
Proof.
  intro Hxy.
  pose proof (Qfloor_resp_le _ _ Hxy) as Hf.
  destruct (Z.eq_dec (Qfloor x) (Qfloor y)) as [Heq | Hne].
  - unfold round_half_even. rewrite <- Heq.
    destruct (Qcompare_spec (x - inject_Z (Qfloor x)) 0.5);
      destruct (Qcompare_spec (y - inject_Z (Qfloor x)) 0.5);
      try (destruct (Z.even (Qfloor x))); try lia; lra.
  - pose proof (round_half_even_range x). pose proof (round_half_even_range y).
    lia.
Qed.

Lemma round_half_even_comp (x y : Q) :
  x == y -> round_half_even x = round_half_even y.
Proof.
  intro H. apply Z.le_antisymm; apply round_half_even_mono; lra.
Qed.

(** ** MetricScorer *)

Lemma clamp_range (lo hi x : Q) : lo <= hi -> lo <= clamp lo hi x <= hi.
Proof.
  intro H. unfold clamp.
  case_Qle x lo; [lra |]. case_Qle hi x; lra.
Qed.

Lemma clamp_mono (lo hi x y : Q) :
  lo <= hi -> x <= y -> clamp lo hi x <= clamp lo hi y.
Proof.
  intros H Hxy. unfold clamp.
  case_Qle x lo; case_Qle y lo; try case_Qle hi x; try case_Qle hi y; lra.
Qed.

(** On finite arguments the code computes the documented return score. *)
Lemma score_metric_return_spec (value benchmark : Q) :
  score_metric (Fin value) (Fin benchmark) "return"
  = Ok (return_score_spec value benchmark).
Proof.
  unfold score_metric, return_score_spec. cbn -[Qle_bool Qmult Qplus Qdiv Qabs round_half_even].
  set (diff := (value + - benchmark) * 100).
  assert (Hd : (value - benchmark) * 100 == diff) by (unfold diff; lra).
  clearbody diff.
  unfold Num.geb, Num.gtb, Num.leb.
  case_Qle 0 diff.
  - assert (E' : Qle_bool 0 ((value - benchmark) * 100) = true)
      by (apply Qle_bool_iff; lra).
    rewrite E'. cbn -[Qle_bool Qmult Qplus Qdiv Qabs round_half_even].
    unfold clamp.
    case_Qlt 100 (60 + diff / 2).
    + case_Qle (60 + (value - benchmark) * 100 / 2) 25; [qlra |].
      case_Qle 100 (60 + (value - benchmark) * 100 / 2); [| qlra].
      reflexivity.
    + case_Qlt (60 + diff / 2) 25; [qlra |].
      case_Qle (60 + (value - benchmark) * 100 / 2) 25; [qlra |].
      case_Qle 100 (60 + (value - benchmark) * 100 / 2).
      * f_equal. apply round_half_even_comp. qlra.
      * f_equal. apply round_half_even_comp. qlra.
  - assert (E' : Qle_bool 0 ((value - benchmark) * 100) = false)
      by (apply Qle_bool_false; lra).
    rewrite E'. cbn -[Qle_bool Qmult Qplus Qdiv Qabs round_half_even].
    assert (Ha : Qabs ((value - benchmark) * 100) == - diff).
    { rewrite Qabs_neg by lra. qlra. }
    unfold clamp.
    case_Qlt 100 (60 + diff * 2); [qlra |].
    case_Qlt (60 + diff * 2) 25.
    + case_Qle (60 - Qabs ((value - benchmark) * 100) * 2) 25; [| qlra].
      reflexivity.
    + case_Qle (60 - Qabs ((value - benchmark) * 100) * 2) 25.
      * f_equal. apply round_half_even_comp. qlra.
      * case_Qle 100 (60 - Qabs ((value - benchmark) * 100) * 2); [qlra |].
        f_equal. apply round_half_even_comp. qlra.
Qed.

Lemma return_score_spec_range (value benchmark : Q) :
  (25 <= return_score_spec value benchmark <= 100)%Z.
Proof.
  unfold return_score_spec.
  set (a := if Qle_bool 0 _ then _ else _).
  pose proof (clamp_range 25 100 a ltac:(lra)) as [Hlo Hhi].
  apply round_half_even_mono in Hlo, Hhi.
  change (round_half_even 25) with 25%Z in Hlo.
  change (round_half_even 100) with 100%Z in Hhi. lia.
Qed.

Lemma return_score_spec_mono (benchmark v1 v2 : Q) :
  v1 <= v2 ->
  (return_score_spec v1 benchmark <= return_score_spec v2 benchmark)%Z.
Proof.
  intro H. unfold return_score_spec.
  apply round_half_even_mono, clamp_mono; [qlra |].
  case_Qle 0 ((v1 - benchmark) * 100); case_Qle 0 ((v2 - benchmark) * 100).
  - qlra.
  - qlra.
  - rewrite Qabs_neg by lra. qlra.
  - rewrite !Qabs_neg by lra. qlra.
Qed.

(** C6. For a fixed benchmark the return score is non-decreasing in the
    asset's annualized return, always lies between 25 and 100, and is the
    documented formula: base 60, plus half the difference in percentage
    points when it is non-negative, minus twice its magnitude when it is
    negative, clamped to [25,100] and rounded to the nearest integer. *)
Theorem score_metric_return_monotone_clamped (benchmark v1 v2 : Q) :
  v1 <= v2 ->
  exists n1 n2 : Z,
    score_metric (Fin v1) (Fin benchmark) "return" = Ok n1 /\
    score_metric (Fin v2) (Fin benchmark) "return" = Ok n2 /\
    (n1 <= n2)%Z /\
    (25 <= n1 <= 100)%Z /\ (25 <= n2 <= 100)%Z /\
    n1 = return_score_spec v1 benchmark /\
    n2 = return_score_spec v2 benchmark.
Proof.
  intro H.
  exists (return_score_spec v1 benchmark), (return_score_spec v2 benchmark).
  repeat split; try apply score_metric_return_spec;
    try apply return_score_spec_range.
  now apply return_score_spec_mono.
Qed.

Lemma score_metric_return_monotone_clamped_witness :
  0.10 <= 0.30 /\
  exists n1 n2 : Z,
    score_metric (Fin 0.10) (Fin 0.2384) "return" = Ok n1 /\
    score_metric (Fin 0.30) (Fin 0.2384) "return" = Ok n2 /\
    (n1 <= n2)%Z /\
    (25 <= n1 <= 100)%Z /\ (25 <= n2 <= 100)%Z /\
    n1 = return_score_spec 0.10 0.2384 /\
    n2 = return_score_spec 0.30 0.2384.
Proof.
  split; [lra | apply (score_metric_return_monotone_clamped 0.2384 0.10 0.30); lra].
Defined.

Lemma div_finite (x y : Q) : ~ y == 0 -> (Fin x / Fin y)%num = Fin (x / y).
Proof.
  intro H. unfold Num.div.
  destruct (Qeq_bool y 0) eqn:E; [| reflexivity].
  apply Qeq_bool_iff in E. contradiction.
Qed.

Lemma score_metric_volatility_spec (value benchmark : Q) :
  ~ benchmark == 0 ->
  score_metric (Fin value) (Fin benchmark) "volatility"
  = Ok (volatility_score_spec (value / benchmark)).
Proof.
  intro H. unfold score_metric, volatility_score_spec.
  change ("volatility" =? "return")%string with false. cbv iota.
  rewrite div_finite by assumption. unfold Num.leb.
  repeat match goal with
    | |- (if ?c then _ else _) = Ok (if ?c then _ else _) =>
        destruct c; [reflexivity |]
    end.
  reflexivity.
Qed.

(** C7. For a positive benchmark the volatility score is the stepped lookup
    on [value / benchmark] with inclusive upper bounds; a ratio of 0.6 scores
    100, a ratio of 1.0 scores 75 and a ratio of 2.5 scores 40. *)
Theorem score_metric_volatility_stepped (value benchmark : Q) :
  0 < value -> 0 < benchmark ->
  score_metric (Fin value) (Fin benchmark) "volatility"
  = Ok (volatility_score_spec (value / benchmark)) /\
  (value / benchmark == 0.6 ->
   score_metric (Fin value) (Fin benchmark) "volatility" = Ok 100%Z) /\
  (value / benchmark == 1.0 ->
   score_metric (Fin value) (Fin benchmark) "volatility" = Ok 75%Z) /\
  (value / benchmark == 2.5 ->
   score_metric (Fin value) (Fin benchmark) "volatility" = Ok 40%Z).
Proof.
  intros _ Hb.
  assert (Hnz : ~ benchmark == 0) by lra.
  rewrite (score_metric_volatility_spec _ _ Hnz).
  split; [reflexivity |].
  unfold volatility_score_spec.
  repeat split; intro Hr; f_equal;
    repeat match goal with
      | |- context [Qle_bool ?a ?b] => case_Qle a b; try lra
      end; reflexivity.
Qed.

Lemma score_metric_volatility_stepped_witness :
  (0 < 0.075 /\ 0 < 0.125) /\
  score_metric (Fin 0.075) (Fin 0.125) "volatility" = Ok 100%Z.
Proof.
  split; [split; lra |].
  apply (score_metric_volatility_stepped 0.075 0.125); [lra | lra | reflexivity].
Defined.

(** ** Sequences and loops *)

Lemma map2_length {A B C : Type} (f : A -> B -> C) (l1 : list A) (l2 : list B) :
  length l1 = length l2 -> length (map2 f l1 l2) = length l1.
Proof.
  revert l2. induction l1 as [| x l1 IH]; intros [| y l2] H; simpl in *;
    try discriminate; [reflexivity |].
  f_equal. apply IH. now injection H.
Qed.

Lemma nth_error_map2 {A B C : Type} (f : A -> B -> C) (l1 : list A)
    (l2 : list B) (i : nat) :
  nth_error (map2 f l1 l2) i
  = match nth_error l1 i, nth_error l2 i with
    | Some x, Some y => Some (f x y)
    | _, _ => None
    end.
Proof.
  revert l2 i. induction l1 as [| x l1 IH]; intros [| y l2] [| i]; simpl;
    try reflexivity.
  - now destruct (nth_error l1 i).
  - apply IH.
Qed.

Lemma nth_error_in_range {A : Type} (l : list A) (i : nat) :
  (i < length l)%nat -> exists x, nth_error l i = Some x.
Proof.
  intro H. destruct (nth_error l i) eqn:E; [eauto |].
  apply nth_error_None in E. lia.
Qed.

Lemma np_subtract_aligned (a b : list num) :
  length a = length b -> np_subtract a b = Ok (map2 Num.sub a b).
Proof.
  intro H. unfold np_subtract. now rewrite H, Nat.eqb_refl.
Qed.

(** A loop whose body never raises is a left fold. *)
Lemma for_each_total {S I : Type} (body : S -> I -> res S) (g : S -> I -> S)
    (items : list I) (Q : I -> Prop) :
  Forall Q items ->
  (forall s i, Q i -> body s i = Ok (g s i)) ->
  forall s, for_each body items s = Ok (fold_left g items s).
Proof.
  intros HQ Hbody. induction HQ as [| i items Hi _ IH]; intro s; simpl;
    [reflexivity |].
  rewrite (Hbody s i Hi). simpl. apply IH.
Qed.

(** ** CrossoverDetector *)

Section CrossoverProperties.

Context {D P : Type}.
Variables (dates : list D) (s1 s2 : list num) (prices : list P).

Local Abbreviation event_at := (crossover_event_at dates s1 s2 prices).
Local Abbreviation add_at := (crossover_add dates s1 s2 prices).

Hypothesis aligned_series : length s1 = length s2.
Hypothesis aligned_dates : length dates = length s1.
Hypothesis aligned_prices : length prices = length s1.

Lemma crossover_step_aligned (acc : crossovers D P) (i : nat) :
  (1 <= i < length s1)%nat ->
  crossover_step dates s1 s2 prices (map2 Num.sub s1 s2) acc i
  = Ok (add_at acc i).
Proof.
  intros [Hlo Hhi].
  destruct (nth_error_in_range s1 (i - 1) ltac:(lia)) as [a0 Ha0].
  destruct (nth_error_in_range s2 (i - 1) ltac:(lia)) as [b0 Hb0].
  destruct (nth_error_in_range s1 i ltac:(lia)) as [a1 Ha1].
  destruct (nth_error_in_range s2 i ltac:(lia)) as [b1 Hb1].
  destruct (nth_error_in_range dates i ltac:(lia)) as [d Hd].
  destruct (nth_error_in_range prices i ltac:(lia)) as [p Hp].
  unfold crossover_step, crossover_add, crossover_event_at, py_index.
  rewrite !nth_error_map2, Ha0, Hb0, Ha1, Hb1, Hd, Hp. cbn [bind].
  destruct ((a0 - b0 <=? Fin 0)%num && (a1 - b1 >? Fin 0)%num);
    [reflexivity |].
  destruct ((a0 - b0 >=? Fin 0)%num && (a1 - b1 <? Fin 0)%num); reflexivity.
Qed.

Lemma crossover_add_unzip (items : list nat) (acc : crossovers D P) :
  let events :=
    flat_map (fun i => match event_at i with Some e => [e] | None => [] end)
             items in
  let acc' := fold_left add_at items acc in
  crossover_points acc' = crossover_points acc ++ map (fun e => fst (fst (fst e))) events /\
  crossover_values acc' = crossover_values acc ++ map (fun e => snd (fst (fst e))) events /\
  crossover_directions acc' = crossover_directions acc ++ map (fun e => snd (fst e)) events /\
  crossover_prices acc' = crossover_prices acc ++ map (fun e => snd e) events.
Proof.
  revert acc. induction items as [| i items IH]; intro acc; simpl.
  - now rewrite !app_nil_r.
  - specialize (IH (add_at acc i)). simpl in IH.
    destruct IH as (H1 & H2 & H3 & H4). rewrite H1, H2, H3, H4.
    unfold crossover_add.
    destruct (event_at i) as [[[[d v] dir] p] |]; simpl;
      [rewrite <- !app_assoc |]; auto.
Qed.

(** On aligned inputs the detector returns, and returns the documented
    events in index order. *)
Lemma find_crossover_points_aligned :
  find_crossover_points dates s1 s2 prices
  = Ok (unzip_events (crossover_events_spec dates s1 s2 prices)).
Proof.
  unfold find_crossover_points.
  rewrite np_subtract_aligned by assumption. simpl.
  rewrite map2_length by assumption.
  rewrite (for_each_total _ add_at _ (fun i => 1 <= i < length s1)%nat).
  - simpl.
    destruct (crossover_add_unzip (py_range 1 (length s1))
                (mkCrossovers [] [] [] [])) as (H1 & H2 & H3 & H4).
    rewrite H1, H2, H3, H4. reflexivity.
  - apply Forall_forall. intros i Hi. unfold py_range in Hi.
    apply in_seq in Hi. lia.
  - intros acc i Hi. now apply crossover_step_aligned.
Qed.

End CrossoverProperties.

Lemma gtb_not_ltb (a b : num) : (a >? b)%num = true -> (a <? b)%num = false.
Proof.
  unfold Num.gtb. destruct a as [x | | |], b as [y | | |]; simpl;
    try reflexivity; try discriminate.
  intro H. apply Qltb_lt in H. apply Qltb_false. lra.
Qed.

(** The event that index [i] contributes, spelled out. *)
Lemma crossover_event_at_iff {D P : Type} (dates : list D) (s1 s2 : list num)
    (prices : list P) (i : nat) (e : D * num * string * P) :
  crossover_event_at dates s1 s2 prices i = Some e <->
  exists a0 b0 a1 b1 date price direction,
    nth_error s1 (i - 1) = Some a0 /\ nth_error s2 (i - 1) = Some b0 /\
    nth_error s1 i = Some a1 /\ nth_error s2 i = Some b1 /\
    nth_error dates i = Some date /\ nth_error prices i = Some price /\
    e = (date, ((a0 + b0) / Fin 2)%num, direction, price) /\
    ((direction = "down" /\
      (a0 - b0 <=? Fin 0)%num = true /\ (a1 - b1 >? Fin 0)%num = true) \/
     (direction = "up" /\
      (a0 - b0 >=? Fin 0)%num = true /\ (a1 - b1 <? Fin 0)%num = true)).
Proof.
  unfold crossover_event_at. split.
  - destruct (nth_error s1 (i - 1)) as [a0 |]; [| discriminate].
    destruct (nth_error s2 (i - 1)) as [b0 |]; [| discriminate].
    destruct (nth_error s1 i) as [a1 |]; [| discriminate].
    destruct (nth_error s2 i) as [b1 |]; [| discriminate].
    destruct (nth_error dates i) as [date |]; [| discriminate].
    destruct (nth_error prices i) as [price |]; [| discriminate].
    destruct ((a0 - b0 <=? Fin 0)%num && (a1 - b1 >? Fin 0)%num) eqn:Edown.
    + intro H. injection H as <-. apply andb_true_iff in Edown.
      exists a0, b0, a1, b1, date, price, "down". intuition.
    + destruct ((a0 - b0 >=? Fin 0)%num && (a1 - b1 <? Fin 0)%num) eqn:Eup;
        [| discriminate].
      intro H. injection H as <-. apply andb_true_iff in Eup.
      exists a0, b0, a1, b1, date, price, "up". intuition.
  - intros (a0 & b0 & a1 & b1 & date & price & direction
            & -> & -> & -> & -> & -> & -> & -> & H).
    destruct H as [(-> & H1 & H2) | (-> & H1 & H2)].
    + now rewrite H1, H2.
    + assert (Hn : (a1 - b1 >? Fin 0)%num = false)
        by (unfold Num.gtb; apply gtb_not_ltb; exact H2).
      rewrite Hn, andb_false_r, H1, H2. reflexivity.
Qed.

Lemma crossover_events_spec_In {D P : Type} (dates : list D) (s1 s2 : list num)
    (prices : list P) (e : D * num * string * P) :
  In e (crossover_events_spec dates s1 s2 prices) <->
  exists i, (1 <= i < length s1)%nat /\
            crossover_event_at dates s1 s2 prices i = Some e.
Proof.
  unfold crossover_events_spec. rewrite in_flat_map. split.
  - intros (i & Hi & He). apply in_seq in Hi. exists i. split; [lia |].
    destruct (crossover_event_at dates s1 s2 prices i); simpl in He;
      [destruct He as [-> | []]; reflexivity | contradiction].
  - intros (i & Hi & He). exists i. split; [apply in_seq; lia |].
    rewrite He. now left.
Qed.

(** C8. On aligned sequences of equal length the detector scans
    [diff = s1 - s2] once from index 1; index [i] yields a "down" event when
    [diff[i-1] <= 0] and [diff[i] > 0], an "up" event when [diff[i-1] >= 0]
    and [diff[i] < 0], each with the midpoint [(s1[i-1] + s2[i-1]) / 2], the
    date at [i] and the price at [i]; the result lists these events in index
    order.  On [s1 = [1,2,3,2,1]], [s2 = [2,2,2,2,2]] it reports one "down"
    event (index 2) followed by one "up" event (index 4). *)
Theorem find_crossover_points_scan {D P : Type} (dates : list D)
    (s1 s2 : list num) (prices : list P) :
  length s1 = length s2 ->
  length dates = length s1 ->
  length prices = length s1 ->
  find_crossover_points dates s1 s2 prices
  = Ok (unzip_events (crossover_events_spec dates s1 s2 prices)) /\
  (forall e, In e (crossover_events_spec dates s1 s2 prices) <->
     exists i a0 b0 a1 b1 date price direction,
       (1 <= i < length s1)%nat /\
       nth_error s1 (i - 1) = Some a0 /\ nth_error s2 (i - 1) = Some b0 /\
       nth_error s1 i = Some a1 /\ nth_error s2 i = Some b1 /\
       nth_error dates i = Some date /\ nth_error prices i = Some price /\
       e = (date, ((a0 + b0) / Fin 2)%num, direction, price) /\
       ((direction = "down" /\
         (a0 - b0 <=? Fin 0)%num = true /\ (a1 - b1 >? Fin 0)%num = true) \/
        (direction = "up" /\
         (a0 - b0 >=? Fin 0)%num = true /\ (a1 - b1 <? Fin 0)%num = true))) /\
  (forall d0 d1 d2 d3 d4 p0 p1 p2 p3 p4 : Z,
     exists v2 v4,
       find_crossover_points [d0; d1; d2; d3; d4]
         [Fin 1; Fin 2; Fin 3; Fin 2; Fin 1]
         [Fin 2; Fin 2; Fin 2; Fin 2; Fin 2]
         [p0; p1; p2; p3; p4]
       = Ok ([d2; d4], [v2; v4], ["down"; "up"], [p2; p4]) /\
       Num.eq v2 (Fin 2) /\ Num.eq v4 (Fin 2)).
Proof.
  intros H12 Hd Hp. split; [| split].
  - now apply find_crossover_points_aligned.
  - intro e. rewrite crossover_events_spec_In. split.
    + intros (i & Hi & He). apply crossover_event_at_iff in He.
      destruct He as (a0 & b0 & a1 & b1 & date & price & direction & He).
      exists i, a0, b0, a1, b1, date, price, direction. tauto.
    + intros (i & a0 & b0 & a1 & b1 & date & price & direction & Hi & He).
      exists i. split; [exact Hi |]. apply crossover_event_at_iff.
      exists a0, b0, a1, b1, date, price, direction. exact He.
  - intros. eexists _, _. split; [vm_compute; reflexivity |].
    split; reflexivity.
Qed.

Lemma find_crossover_points_scan_witness :
  find_crossover_points [10; 11; 12]%Z [Fin 1; Fin 1; Fin 3]
    [Fin 2; Fin 2; Fin 2] [5; 6; 7]%Z
  = Ok ([12%Z], [Fin ((1 + 2) / 2)], ["down"], [7%Z]).
Proof.
  destruct (find_crossover_points_scan [10; 11; 12]%Z [Fin 1; Fin 1; Fin 3]
              [Fin 2; Fin 2; Fin 2] [5; 6; 7]%Z
              eq_refl eq_refl eq_refl) as (H & _).
  rewrite H. reflexivity.
Defined.

(** *** Shape and order of the detector's result *)

Lemma StronglySorted_snoc {A : Type} (R : A -> A -> Prop) (l : list A) (x : A) :
  StronglySorted R l -> Forall (fun y => R y x) l -> StronglySorted R (l ++ [x]).
Proof.
  intros Hs Hall. induction Hs as [| y l Hs IH Hy]; simpl.
  - repeat constructor.
  - inversion Hall; subst. constructor; [now apply IH |].
    apply Forall_app. split; [exact Hy | now constructor].
Qed.

Lemma StronglySorted_nth_error {A : Type} (R : A -> A -> Prop) (l : list A)
    (i j : nat) (x y : A) :
  StronglySorted R l -> (i < j)%nat ->
  nth_error l i = Some x -> nth_error l j = Some y -> R x y.
Proof.
  intro Hs. revert i j. induction Hs as [| z l Hs IH Hz]; intros i j Hij Hi Hj.
  - destruct i; discriminate.
  - destruct j as [| j]; [lia |]. simpl in Hj. destruct i as [| i].
    + simpl in Hi. injection Hi as ->.
      rewrite Forall_forall in Hz. apply Hz. eapply nth_error_In; eauto.
    + simpl in Hi. apply (IH i j); [lia | assumption | assumption].
Qed.

(** Elements picked at increasing positions of a sorted list are sorted. *)
Lemma StronglySorted_pick {A : Type} (R : A -> A -> Prop) (l picked : list A)
    (idxs : list nat) :
  StronglySorted R l -> StronglySorted lt idxs ->
  map Some picked = map (nth_error l) idxs ->
  StronglySorted R picked.
Proof.
  intros Hl Hidx. revert picked.
  induction Hidx as [| i idxs Hidx IH Hi]; intros [| x picked] Hmap;
    simpl in Hmap; try discriminate; constructor.
  - apply IH. now injection Hmap.
  - injection Hmap as Hx Hrest.
    apply Forall_forall. intros y Hy.
    apply (in_map Some) in Hy. rewrite Hrest in Hy.
    apply in_map_iff in Hy. destruct Hy as (j & Hj & Hjin).
    rewrite Forall_forall in Hi.
    apply (StronglySorted_nth_error R l i j); auto.
Qed.

Section CrossoverInvariant.

Context {D P : Type}.
Variables (dates : list D) (s1 s2 : list num) (prices : list P).
Variable diff : list num.

Lemma crossovers_track_append (idxs : list nat) (acc : crossovers D P)
    (i : nat) (date : D) (value : num) (direction : string) (price : P) :
  crossovers_track dates prices idxs acc ->
  nth_error dates i = Some date -> nth_error prices i = Some price ->
  direction = "down" \/ direction = "up" ->
  crossovers_track dates prices (idxs ++ [i])
    (crossover_append acc date value direction price).
Proof.
  intros (H1 & H2 & H3 & H4 & H5) Hd Hp Hdir.
  unfold crossovers_track, crossover_append; simpl.
  rewrite !map_app, !length_app, H1, H2, H3, H4. simpl.
  rewrite Hd, Hp. repeat split; try reflexivity.
  apply Forall_app. split; [exact H5 | now constructor].
Qed.

Lemma crossover_step_track (idxs : list nat) (acc acc' : crossovers D P)
    (i : nat) :
  crossover_step dates s1 s2 prices diff acc i = Ok acc' ->
  crossovers_track dates prices idxs acc ->
  crossovers_track dates prices idxs acc' \/
  crossovers_track dates prices (idxs ++ [i]) acc'.
Proof.
  unfold crossover_step, py_index. intros Hstep Htrack.
  destruct (nth_error diff (i - 1)) as [d_prev |]; [| discriminate].
  destruct (nth_error diff i) as [d_cur |]; [| discriminate].
  cbn [bind] in Hstep.
  destruct ((d_prev <=? Fin 0)%num && (d_cur >? Fin 0)%num);
    [| destruct ((d_prev >=? Fin 0)%num && (d_cur <? Fin 0)%num)].
  3: { injection Hstep as <-. now left. }
  all: destruct (nth_error s1 (i - 1)) as [a |]; [| discriminate];
    destruct (nth_error s2 (i - 1)) as [b |]; [| discriminate];
    destruct (nth_error dates i) as [date |] eqn:Hd; [| discriminate];
    destruct (nth_error prices i) as [price |] eqn:Hp; [| discriminate];
    cbn [bind] in Hstep; injection Hstep as <-; right;
    apply crossovers_track_append; auto.
Qed.

Lemma crossover_loop_track (k a : nat) (idxs : list nat)
    (acc acc' : crossovers D P) :
  for_each (crossover_step dates s1 s2 prices diff) (seq a k) acc = Ok acc' ->
  crossovers_track dates prices idxs acc ->
  StronglySorted lt idxs ->
  Forall (fun i => 1 <= i < a)%nat idxs ->
  (1 <= a)%nat ->
  exists idxs',
    crossovers_track dates prices idxs' acc' /\
    StronglySorted lt idxs' /\
    Forall (fun i => 1 <= i < a + k)%nat idxs'.
Proof.
  revert a idxs acc. induction k as [| k IH]; intros a idxs acc Hloop Ht Hs Hb Ha.
  - simpl in Hloop. injection Hloop as <-. exists idxs.
    split; [exact Ht | split; [exact Hs |]].
    eapply Forall_impl; [| exact Hb]. simpl. intros; lia.
  - simpl in Hloop.
    destruct (crossover_step dates s1 s2 prices diff acc a) as [acc1 |] eqn:Hstep;
      [| discriminate].
    cbn [bind] in Hloop.
    destruct (crossover_step_track idxs acc acc1 a Hstep Ht) as [Ht1 | Ht1].
    + destruct (IH (S a) idxs acc1 Hloop Ht1 Hs) as (idxs' & H1 & H2 & H3).
      * eapply Forall_impl; [| exact Hb]. simpl. intros; lia.
      * lia.
      * exists idxs'. split; [exact H1 | split; [exact H2 |]].
        eapply Forall_impl; [| exact H3]. simpl. intros; lia.
    + destruct (IH (S a) (idxs ++ [a]) acc1 Hloop Ht1) as (idxs' & H1 & H2 & H3).
      * apply StronglySorted_snoc; [exact Hs |].
        eapply Forall_impl; [| exact Hb]. simpl. intros; lia.
      * apply Forall_app. split.
        -- eapply Forall_impl; [| exact Hb]. simpl. intros; lia.
        -- constructor; [lia | constructor].
      * lia.
      * exists idxs'. split; [exact H1 | split; [exact H2 |]].
        eapply Forall_impl; [| exact H3]. simpl. intros; lia.
Qed.

End CrossoverInvariant.

(** C10. The detector returns on aligned input, and whenever it returns its
    four sequences have the same length, every direction is "down" or "up",
    and the events were taken at strictly increasing indices, so that the
    reported dates are in the order of the input dates. *)
Theorem find_crossover_points_shape {D P : Type} (dates : list D)
    (s1 s2 : list num) (prices : list P) :
  (length s1 = length s2 -> length dates = length s1 ->
   length prices = length s1 ->
   exists out, find_crossover_points dates s1 s2 prices = Ok out) /\
  (forall pts vals dirs prs,
     find_crossover_points dates s1 s2 prices = Ok (pts, vals, dirs, prs) ->
     length vals = length pts /\ length dirs = length pts /\
     length prs = length pts /\
     Forall (fun d => d = "down" \/ d = "up") dirs /\
     exists idxs : list nat,
       StronglySorted lt idxs /\
       Forall (fun i => 1 <= i)%nat idxs /\
       map Some pts = map (nth_error dates) idxs /\
       map Some prs = map (nth_error prices) idxs /\
       forall R : D -> D -> Prop, StronglySorted R dates -> StronglySorted R pts).
Proof.
  split.
  - intros H12 Hd Hp. eexists. now apply find_crossover_points_aligned.
  - intros pts vals dirs prs Hfind. unfold find_crossover_points in Hfind.
    destruct (np_subtract s1 s2) as [diff |]; [| discriminate].
    cbn [bind] in Hfind.
    destruct (for_each _ _ _) as [acc |] eqn:Hloop; [| discriminate].
    cbn [bind] in Hfind. injection Hfind as <- <- <- <-.
    unfold py_range in Hloop.
    destruct (crossover_loop_track dates s1 s2 prices diff _ _ [] _ _ Hloop)
      as (idxs & (H1 & H2 & H3 & H4 & H5) & Hs & Hb);
      [repeat split; constructor | constructor | constructor | lia |].
    assert (L1 : length (crossover_points acc) = length idxs).
    { rewrite <- (length_map Some), H1. apply length_map. }
    assert (L2 : length (crossover_prices acc) = length idxs).
    { rewrite <- (length_map Some), H2. apply length_map. }
    repeat split; try congruence.
    exists idxs. repeat split; auto.
    + eapply Forall_impl; [| exact Hb]. simpl. intros; lia.
    + intros R HR. eapply StronglySorted_pick; eauto.
Qed.

Lemma find_crossover_points_shape_witness :
  exists out,
    find_crossover_points [10; 11; 12]%Z [Fin 1; Fin 1; Fin 3]
      [Fin 2; Fin 2; Fin 2] [5; 6; 7]%Z = Ok out.
Proof.
  apply (find_crossover_points_shape [10; 11; 12]%Z [Fin 1; Fin 1; Fin 3]
           [Fin 2; Fin 2; Fin 2] [5; 6; 7]%Z); reflexivity.
Defined.

(** ** TrendScorer *)

Lemma ltb_irrefl_pair (a b : num) :
  (a <? b)%num = true -> (b <? a)%num = false.
Proof. intro H. now apply gtb_not_ltb. Qed.

(** The four sign patterns exclude one another. *)
Lemma trend_type_exclusive (quad linear : num) :
  let t := trend_type quad linear in
  (accelerating_up t = true ->
   accelerating_down t = false /\ reversal_up t = false /\ reversal_down t = false) /\
  (accelerating_down t = true ->
   accelerating_up t = false /\ reversal_up t = false /\ reversal_down t = false) /\
  (reversal_up t = true ->
   accelerating_up t = false /\ accelerating_down t = false /\ reversal_down t = false) /\
  (reversal_down t = true ->
   accelerating_up t = false /\ accelerating_down t = false /\ reversal_up t = false).
Proof.
  unfold trend_type, Num.gtb;
    cbn [accelerating_up accelerating_down reversal_up reversal_down].
  destruct (Fin 0 <? quad)%num eqn:Q1; destruct (quad <? Fin 0)%num eqn:Q2;
    try (rewrite (ltb_irrefl_pair _ _ Q1) in Q2; discriminate);
    destruct (Fin 0 <? linear)%num eqn:L1; destruct (linear <? Fin 0)%num eqn:L2;
    try (rewrite (ltb_irrefl_pair _ _ L1) in L2; discriminate);
    simpl; repeat split; intros; try reflexivity; discriminate.
Qed.

(** The flags are the classification of the design document. *)
Lemma trend_type_classify (quad linear : num) :
  let t := trend_type quad linear in
  let k := classify_trend_spec quad linear in
  (accelerating_up t = true <-> k = Some AcceleratingUp) /\
  (accelerating_down t = true <-> k = Some AcceleratingDown) /\
  (reversal_up t = true <-> k = Some ReversalUp) /\
  (reversal_down t = true <-> k = Some ReversalDown).
Proof.
  unfold trend_type, classify_trend_spec, Num.gtb;
    cbn [accelerating_up accelerating_down reversal_up reversal_down].
  destruct (Fin 0 <? quad)%num eqn:Q1; destruct (quad <? Fin 0)%num eqn:Q2;
    try (rewrite (ltb_irrefl_pair _ _ Q1) in Q2; discriminate);
    destruct (Fin 0 <? linear)%num eqn:L1; destruct (linear <? Fin 0)%num eqn:L2;
    try (rewrite (ltb_irrefl_pair _ _ L1) in L2; discriminate);
    simpl; repeat split; intros; try reflexivity; discriminate.
Qed.

(** A trend has a kind exactly when both coefficients are strictly positive
    or strictly negative. *)
Lemma classify_trend_spec_some (quad linear : num) :
  (exists k, classify_trend_spec quad linear = Some k) <->
  ((quad <? Fin 0)%num || (quad >? Fin 0)%num)
  && ((linear <? Fin 0)%num || (linear >? Fin 0)%num) = true.
Proof.
  unfold classify_trend_spec, Num.gtb.
  destruct (Fin 0 <? quad)%num eqn:Q1; destruct (quad <? Fin 0)%num eqn:Q2;
    try (rewrite (ltb_irrefl_pair _ _ Q1) in Q2; discriminate);
    destruct (Fin 0 <? linear)%num eqn:L1; destruct (linear <? Fin 0)%num eqn:L2;
    try (rewrite (ltb_irrefl_pair _ _ L1) in L2; discriminate);
    simpl; split; intro H; try reflexivity; try discriminate; eauto;
    destruct H as [k Hk]; discriminate.
Qed.

Lemma clamp_score_range (x : num) : in_0_100 (clamp_score x).
Proof.
  unfold clamp_score, Num.py_min, Num.py_max, in_0_100.
  destruct x as [q | | |]; simpl.
  - case_Qlt 0 q; simpl.
    + case_Qlt q 100; eexists; (split; [reflexivity | lra]).
    + exists 0. split; [reflexivity | lra].
  - exists 100. split; [reflexivity | lra].
  - exists 0. split; [reflexivity | lra].
  - exists 0. split; [reflexivity | lra].
Qed.

(** The code computes the documented trend score. *)
Lemma evaluate_trend_score_spec (lib : Numerics) (data : DataFrame)
    (close : list num) (quad linear r_squared : num) :
  df_col data "Close" = Ok close ->
  fst (fst (evaluate_trend_score lib data quad linear r_squared))
  = trend_score_spec lib close (df_len data) quad linear r_squared.
Proof.
  intro Hc. unfold evaluate_trend_score, trend_score_spec, trend_strengths_spec.
  rewrite Hc. cbn [bind fst].
  unfold adjusted_trend_score_spec, trend_adjustment_spec, classify_trend_spec,
    trend_type, clamp_score, Num.gtb.
  cbn [accelerating_up accelerating_down reversal_up reversal_down].
  destruct (Fin 0 <? quad)%num eqn:Q1; destruct (quad <? Fin 0)%num eqn:Q2;
    try (rewrite (ltb_irrefl_pair _ _ Q1) in Q2; discriminate);
    destruct (Fin 0 <? linear)%num eqn:L1; destruct (linear <? Fin 0)%num eqn:L2;
    try (rewrite (ltb_irrefl_pair _ _ L1) in L2; discriminate);
    cbn [andb]; try reflexivity;
    repeat match goal with
      | |- context [if ?c then _ else _] => destruct c
      end; reflexivity.
Qed.

Lemma evaluate_trend_score_range (lib : Numerics) (data : DataFrame)
    (quad linear r_squared : num) :
  in_0_100 (fst (fst (evaluate_trend_score lib data quad linear r_squared))).
Proof.
  unfold evaluate_trend_score.
  destruct (df_col data "Close") as [close |]; cbn [bind fst].
  - apply clamp_score_range.
  - exists 50. split; [reflexivity | lra].
Qed.

(** A zero quadratic coefficient puts the trend in none of the four types,
    and the neutral base 50 is then left unadjusted: the claim that every
    pair of coefficients falls in exactly one type fails. *)
Lemma trend_type_zero_quadratic_unclassified :
  trend_type (Fin 0) (Fin 0.47) = mkTrendFlags false false false false /\
  classify_trend_spec (Fin 0) (Fin 0.47) = None /\
  Num.eq (fst (fst (evaluate_trend_score Reference.numerics Reference.flat3
                      (Fin 0) (Fin 0.47) (Fin 1))))
         (Fin 50).
Proof.
  split; [reflexivity | split; [reflexivity |]].
  vm_compute. reflexivity.
Qed.

(** C9 (amended). The four trend types exclude one another and are the
    documented sign patterns; a trend has one of them exactly when both
    coefficients are strictly positive or strictly negative, and none
    otherwise.  The score is the neutral base 50, adjusted as documented for
    the type when there is one, multiplied by [0.6 + 0.4 * r_squared^2] and
    clamped to [0,100]. *)
Theorem evaluate_trend_score_classified (lib : Numerics) (data : DataFrame)
    (close : list num) (quad linear r_squared : num) :
  df_col data "Close" = Ok close ->
  let t := trend_type quad linear in
  let k := classify_trend_spec quad linear in
  let final_score := fst (fst (evaluate_trend_score lib data quad linear r_squared)) in
  ((accelerating_up t = true ->
    accelerating_down t = false /\ reversal_up t = false /\ reversal_down t = false) /\
   (accelerating_down t = true ->
    accelerating_up t = false /\ reversal_up t = false /\ reversal_down t = false) /\
   (reversal_up t = true ->
    accelerating_up t = false /\ accelerating_down t = false /\ reversal_down t = false) /\
   (reversal_down t = true ->
    accelerating_up t = false /\ accelerating_down t = false /\ reversal_up t = false)) /\
  ((accelerating_up t = true <-> k = Some AcceleratingUp) /\
   (accelerating_down t = true <-> k = Some AcceleratingDown) /\
   (reversal_up t = true <-> k = Some ReversalUp) /\
   (reversal_down t = true <-> k = Some ReversalDown)) /\
  ((exists kind, k = Some kind) <->
   ((quad <? Fin 0)%num || (quad >? Fin 0)%num)
   && ((linear <? Fin 0)%num || (linear >? Fin 0)%num) = true) /\
  final_score = trend_score_spec lib close (df_len data) quad linear r_squared /\
  in_0_100 final_score.
Proof.
  intros Hc t k final_score.
  split; [apply trend_type_exclusive |].
  split; [apply trend_type_classify |].
  split; [apply classify_trend_spec_some |].
  split; [now apply evaluate_trend_score_spec | apply evaluate_trend_score_range].
Qed.

Lemma evaluate_trend_score_classified_witness :
  classify_trend_spec (Fin (-0.1134)) (Fin 0.47) = Some ReversalDown /\
  in_0_100 (fst (fst (evaluate_trend_score Reference.numerics Reference.flat3
                        (Fin (-0.1134)) (Fin 0.47) (Fin 0.9505)))).
Proof.
  destruct (evaluate_trend_score_classified Reference.numerics Reference.flat3
              [Fin 1; Fin 1; Fin 1] (Fin (-0.1134)) (Fin 0.47) (Fin 0.9505)
              eq_refl) as (_ & (_ & _ & _ & Hk) & _ & _ & Hr).
  split; [apply Hk; reflexivity | exact Hr].
Defined.

(** ** Data frames *)

Lemma select_map_filter {A : Type} (f : A -> bool) (l : list A) :
  select (map f l) l = filter f l.
Proof.
  induction l as [| x l IH]; simpl; [reflexivity |].
  destruct (f x); now rewrite IH.
Qed.

Lemma select_length_eq {A B : Type} (mask : list bool) (l1 : list A)
    (l2 : list B) :
  length l1 = length l2 -> length (select mask l1) = length (select mask l2).
Proof.
  revert l1 l2. induction mask as [| b mask IH]; intros [| x l1] [| y l2] H;
    simpl in *; try reflexivity; try discriminate.
  injection H as H. destruct b; simpl; [f_equal |]; now apply IH.
Qed.

Lemma assoc_get_map_snd {A B : Type} (f : A -> B) (name : string)
    (l : list (string * A)) :
  assoc_get name (map (fun c => (fst c, f (snd c))) l)
  = option_map f (assoc_get name l).
Proof.
  induction l as [| [k v] l IH]; simpl; [reflexivity |].
  destruct (String.eqb k name); [reflexivity | exact IH].
Qed.

Lemma df_col_loc (mask : list bool) (df : DataFrame) (name : string)
    (values : list num) :
  df_col df name = Ok values ->
  df_col (df_loc mask df) name = Ok (select mask values).
Proof.
  unfold df_col, df_loc; simpl. rewrite assoc_get_map_snd.
  destruct (assoc_get name (columns df)); [| discriminate].
  intro H. injection H as ->. reflexivity.
Qed.

Lemma iloc_last_nonempty {A : Type} (l : list A) :
  l <> [] -> exists x, iloc_last l = Ok x.
Proof.
  intro H. unfold iloc_last. destruct (rev l) as [| x r] eqn:E; [| eauto].
  apply (f_equal (@rev A)) in E. rewrite rev_involutive in E. contradiction.
Qed.

(** ** RollingWindowAnalyzer *)

Section RollingWindowProperties.

Variable lib : Numerics.
Variable data : DataFrame.
Variables crossover_days lookback_days : Z.

(** The window the code builds has the documented dates. *)
Lemma trailing_window_index (t days : Z) (w : DataFrame) :
  trailing_window data t days = Ok w ->
  index w = trailing_window_spec (index data) t days.
Proof.
  unfold trailing_window, trailing_window_spec, history_up_to, py_index.
  cbn [df_loc index]. rewrite select_map_filter.
  destruct (filter (fun d => (d <=? t)%Z) (index data)) as [| first rest] eqn:E;
    [discriminate |].
  cbn [nth_error bind].
  destruct (t - first >? days)%Z; intro H; injection H as <-;
    cbn [df_loc index]; rewrite select_map_filter, E; [| reflexivity].
  change (select (map (fun d => (d >? t - days)%Z) (first :: rest)) (first :: rest)
          = filter (fun d => (t - days <? d)%Z) (first :: rest)).
  rewrite select_map_filter.
  apply filter_ext. intro d. apply Z.gtb_ltb.
Qed.

Lemma trailing_window_returns (t days : Z) :
  In t (index data) -> exists w, trailing_window data t days = Ok w.
Proof.
  intro Hin. unfold trailing_window, py_index.
  cbn [df_loc index]. rewrite select_map_filter.
  destruct (filter (fun d => (d <=? t)%Z) (index data)) as [| first rest] eqn:E.
  - assert (Hf : In t (filter (fun d => (d <=? t)%Z) (index data))).
    { apply filter_In. split; [exact Hin | apply Z.leb_refl]. }
    rewrite E in Hf. contradiction.
  - cbn [nth_error bind]. destruct (t - first >? days)%Z; eauto.
Qed.

Lemma trailing_window_col (t days : Z) (w : DataFrame) (close : list num) :
  df_col data "Close" = Ok close ->
  length close = length (index data) ->
  trailing_window data t days = Ok w ->
  exists close', df_col w "Close" = Ok close' /\ length close' = length (index w).
Proof.
  intros Hc Hlen. unfold trailing_window, py_index.
  set (mask1 := map (fun d => (d <=? t)%Z) (index data)).
  destruct (nth_error (index (df_loc mask1 data)) 0) as [first |]; [| discriminate].
  cbn [bind].
  pose proof (df_col_loc mask1 data "Close" close Hc) as Hc1.
  assert (Hlen1 : length (select mask1 close) = length (index (df_loc mask1 data)))
    by (cbn [df_loc index]; now apply select_length_eq).
  destruct (t - first >? days)%Z; intro H; injection H as <-.
  - eexists. split; [apply df_col_loc; exact Hc1 |].
    cbn [df_loc index]. now apply select_length_eq.
  - eauto.
Qed.

(** What one date contributes to [result_data]. *)
Lemma analyze_date_dates (acc acc' : list window_row) (t : Z) :
  analyze_date lib data crossover_days lookback_days acc t = Ok acc' ->
  map Date acc'
  = map Date acc ++
    (if (20 <=? length (trailing_window_spec (index data) t crossover_days))%nat
     then [t] else []).
Proof.
  unfold analyze_date.
  destruct (trailing_window data t lookback_days) as [r2_data |]; [| discriminate].
  cbn [bind].
  destruct (trailing_window data t crossover_days) as [period_data |] eqn:Ew;
    [| discriminate].
  cbn [bind]. apply trailing_window_index in Ew. rewrite <- Ew.
  unfold df_len.
  destruct (Nat.ltb_spec (length (index period_data)) 20) as [Hlt | Hge].
  - intro H. injection H as <-.
    destruct (Nat.leb_spec 20 (length (index period_data))); [lia |].
    now rewrite app_nil_r.
  - destruct (df_col period_data "Close") as [close |]; [| discriminate].
    cbn [bind]. destruct (iloc_last close) as [current_price |]; [| discriminate].
    cbn [bind]. intro H. injection H as <-.
    destruct (Nat.leb_spec 20 (length (index period_data))); [| lia].
    now rewrite map_app.
Qed.

Lemma analyze_date_returns (acc : list window_row) (t : Z) (close : list num) :
  df_col data "Close" = Ok close ->
  length close = length (index data) ->
  In t (index data) ->
  exists acc', analyze_date lib data crossover_days lookback_days acc t = Ok acc'.
Proof.
  intros Hc Hlen Hin. unfold analyze_date.
  destruct (trailing_window_returns t lookback_days Hin) as [r2_data ->].
  destruct (trailing_window_returns t crossover_days Hin) as [period_data Ew].
  rewrite Ew. cbn [bind].
  destruct (Nat.ltb_spec (df_len period_data) 20) as [Hlt | Hge]; [eauto |].
  destruct (trailing_window_col t crossover_days period_data close Hc Hlen Ew)
    as (close' & -> & Hlen').
  cbn [bind].
  destruct (iloc_last_nonempty close') as [current_price ->].
  - unfold df_len in Hge. destruct close'; [simpl in Hlen'; lia | discriminate].
  - cbn [bind]. eauto.
Qed.

Lemma analyze_loop_dates (dates : list Z) (acc rows : list window_row) :
  for_each (analyze_date lib data crossover_days lookback_days) dates acc = Ok rows ->
  map Date rows
  = map Date acc ++
    filter (fun t =>
              (20 <=? length (trailing_window_spec (index data) t crossover_days))%nat)
           dates.
Proof.
  revert acc. induction dates as [| t dates IH]; intros acc H; simpl in H.
  - injection H as <-. simpl. now rewrite app_nil_r.
  - destruct (analyze_date lib data crossover_days lookback_days acc t)
      as [acc1 |] eqn:E; [| discriminate].
    cbn [bind] in H. apply IH in H. rewrite H.
    rewrite (analyze_date_dates _ _ _ E). cbn [filter].
    destruct (Nat.leb 20 (length (trailing_window_spec (index data) t crossover_days))).
    + now rewrite <- app_assoc.
    + now rewrite app_nil_r.
Qed.

Lemma analyze_loop_returns (dates : list Z) (acc : list window_row)
    (close : list num) :
  df_col data "Close" = Ok close ->
  length close = length (index data) ->
  incl dates (index data) ->
  exists rows,
    for_each (analyze_date lib data crossover_days lookback_days) dates acc = Ok rows.
Proof.
  intros Hc Hlen. revert acc.
  induction dates as [| t dates IH]; intros acc Hincl; simpl; [eauto |].
  destruct (analyze_date_returns acc t close Hc Hlen) as [acc1 ->].
  - apply Hincl. now left.
  - cbn [bind]. apply IH. intros d Hd. apply Hincl. now right.
Qed.

Lemma copy_column_rows (df df' : analysis_table) (col : string) :
  copy_column data df col = Ok df' -> table_rows df' = table_rows df.
Proof.
  unfold copy_column. destruct (df_has_col data col).
  - destruct (df_col data col) as [values |]; [| discriminate]. cbn [bind].
    destruct (reindex _ _ _); [| discriminate]. cbn [bind].
    intro H. now injection H as <-.
  - intro H. now injection H as <-.
Qed.

Lemma copy_columns_rows (cols : list string) (df df' : analysis_table) :
  for_each (copy_column data) cols df = Ok df' -> table_rows df' = table_rows df.
Proof.
  revert df. induction cols as [| col cols IH]; intros df H; simpl in H.
  - now injection H as <-.
  - destruct (copy_column data df col) as [df1 |] eqn:E; [| discriminate].
    cbn [bind] in H. apply IH in H. rewrite H. now apply copy_column_rows in E.
Qed.

Lemma copy_columns_return (cols : list string) (df : analysis_table) :
  has_duplicates (index data) = false ->
  exists df', for_each (copy_column data) cols df = Ok df'.
Proof.
  intro Hnd. revert df. induction cols as [| col cols IH]; intro df; simpl;
    [eauto |].
  assert (Hc : exists df1, copy_column data df col = Ok df1).
  { unfold copy_column, df_has_col, df_col.
    destruct (assoc_get col (columns data)); [| eauto]. cbn [bind].
    unfold reindex. destruct (list_eq_dec _ _ _); cbn [bind]; [eauto |].
    rewrite Hnd. cbn [bind]. eauto. }
  destruct Hc as [df1 ->]. cbn [bind]. apply IH.
Qed.

(** The returned frame has the rows of the loop. *)
Lemma analyze_stock_data_table (table : analysis_table) :
  analyze_stock_data lib data crossover_days lookback_days = Ok table ->
  analyze_rows lib data crossover_days lookback_days = Ok (table_rows table).
Proof.
  unfold analyze_stock_data, analyze_stock_data_body.
  destruct (analyze_rows lib data crossover_days lookback_days) as [rows |];
    [| discriminate].
  cbn [bind try_except]. destruct rows as [| row rows]; [discriminate |].
  cbn [bind].
  destruct (for_each _ _ _) as [df |] eqn:E; [| discriminate].
  intro H. injection H as <-. apply copy_columns_rows in E. now rewrite E.
Qed.

End RollingWindowProperties.

Lemma trailing_window_spec_bound (dates : list Z) (t bound first : Z)
    (rest : list Z) :
  history_up_to dates t = first :: rest ->
  (t - first > bound)%Z ->
  forall d, In d (trailing_window_spec dates t bound) -> (t - bound < d <= t)%Z.
Proof.
  intros Hh Hold d. unfold trailing_window_spec. rewrite Hh.
  destruct (Z.gtb_spec (t - first) bound) as [_ | Hle]; [| lia].
  rewrite filter_In, <- Hh. unfold history_up_to. rewrite filter_In.
  intros [[_ Hd] Hb]. apply Z.leb_le in Hd. apply Z.ltb_lt in Hb. lia.
Qed.

(** C4. The rolling-window analysis has a row for date [t] exactly when the
    technical trailing window ending at [t] holds at least 20 observations;
    the window the code uses is the history up to [t], and once the first
    date of that history is more than [crossover_days] before [t] every date
    of the window lies within [crossover_days] of [t]. *)
Theorem analyze_stock_data_windows (lib : Numerics) (data : DataFrame)
    (crossover_days lookback_days : Z) :
  (forall rows,
     analyze_rows lib data crossover_days lookback_days = Ok rows ->
     map Date rows = retained_dates (index data) crossover_days) /\
  (forall table,
     analyze_stock_data lib data crossover_days lookback_days = Ok table ->
     map Date (table_rows table) = retained_dates (index data) crossover_days) /\
  (forall t,
     In t (retained_dates (index data) crossover_days) <->
     In t (index data) /\
     (20 <= length (trailing_window_spec (index data) t crossover_days))%nat) /\
  (forall t,
     In t (index data) ->
     exists w, trailing_window data t crossover_days = Ok w /\
               index w = trailing_window_spec (index data) t crossover_days) /\
  (forall t first rest,
     history_up_to (index data) t = first :: rest ->
     (t - first > crossover_days)%Z ->
     forall d, In d (trailing_window_spec (index data) t crossover_days) ->
               (t - crossover_days < d <= t)%Z) /\
  (forall close,
     df_col data "Close" = Ok close ->
     length close = length (index data) ->
     (exists rows, analyze_rows lib data crossover_days lookback_days = Ok rows) /\
     (has_duplicates (index data) = false ->
      retained_dates (index data) crossover_days <> [] ->
      exists table,
        analyze_stock_data lib data crossover_days lookback_days = Ok table)).
Proof.
  assert (Hrows : forall rows,
             analyze_rows lib data crossover_days lookback_days = Ok rows ->
             map Date rows = retained_dates (index data) crossover_days).
  { intros rows H. unfold analyze_rows in H.
    apply analyze_loop_dates in H. exact H. }
  split; [exact Hrows |].
  split; [intros table H; apply Hrows; now apply analyze_stock_data_table |].
  split.
  { intro t. unfold retained_dates. rewrite filter_In, Nat.leb_le. reflexivity. }
  split.
  { intros t Hin.
    destruct (trailing_window_returns data t crossover_days Hin) as [w Hw].
    exists w. split; [exact Hw | now apply trailing_window_index]. }
  split; [intros t first rest; apply trailing_window_spec_bound |].
  intros close Hc Hlen.
  destruct (analyze_loop_returns lib data crossover_days lookback_days
              (index data) [] close Hc Hlen (incl_refl _)) as [rows Hr].
  split; [exists rows; exact Hr |].
  intros Hnd Hne.
  unfold analyze_stock_data, analyze_stock_data_body, analyze_rows. rewrite Hr.
  cbn [bind]. pose proof (Hrows rows Hr) as Hd.
  destruct rows as [| row rows]; [simpl in Hd; congruence |].
  cbn [bind].
  destruct (copy_columns_return data
              ["Open"; "Volume"; "Dividends"; "Stock Splits"]
              {| table_rows := row :: rows; table_columns := [] |} Hnd)
    as [table ->].
  cbn [try_except]. eauto.
Qed.

Lemma analyze_stock_data_windows_witness :
  (forall d,
     In d (trailing_window_spec (index Reference.ramp25) 24 10) ->
     (24 - 10 < d <= 24)%Z) /\
  exists table,
    analyze_stock_data Reference.numerics Reference.ramp25 365 365 = Ok table /\
    map Date (table_rows table) = [19; 20; 21; 22; 23; 24]%Z.
Proof.
  pose proof (analyze_stock_data_windows Reference.numerics Reference.ramp25
                365 365) as (_ & Htable & _ & _ & _ & Hreturns).
  pose proof (analyze_stock_data_windows Reference.numerics Reference.ramp25
                10 365) as (_ & _ & _ & _ & Hbound & _).
  split.
  - apply (Hbound 24%Z 0%Z (map Z.of_nat (seq 1 24))); [reflexivity | lia].
  - destruct (Hreturns (map (fun i => Num.of_Z (100 + Z.of_nat i)) (seq 0 25))
                eq_refl eq_refl) as (_ & Hok).
    destruct Hok as [table Ht]; [reflexivity | discriminate |].
    exists table. split; [exact Ht |].
    rewrite (Htable table Ht). reflexivity.
Defined.

(** ** The composite analysis call *)

Lemma assoc_get_set_other {A : Type} (name key : string) (v : A)
    (l : list (string * A)) :
  String.eqb name key = false ->
  assoc_get key (assoc_set name v l) = assoc_get key l.
Proof.
  intro Hne. induction l as [| [k w] l IH]; simpl.
  - now rewrite Hne.
  - destruct (String.eqb k name) eqn:Ekn; simpl.
    + apply String.eqb_eq in Ekn. subst k. now rewrite Hne.
    + destruct (String.eqb k key); [reflexivity | exact IH].
Qed.

Lemma assoc_get_set_same {A : Type} (name : string) (v : A)
    (l : list (string * A)) :
  assoc_get name (assoc_set name v l) = Some v.
Proof.
  induction l as [| [k w] l IH]; simpl.
  - now rewrite String.eqb_refl.
  - destruct (String.eqb k name) eqn:E; simpl; rewrite E; [reflexivity | exact IH].
Qed.

Section ServiceProperties.

Variable lib : Numerics.
Variable get_historical_data : DataService.

Local Abbreviation analysis :=
  (perform_polynomial_regression lib get_historical_data).

(** The frame that the regression step leaves behind. *)
Lemma regression_step_frame (data : DataFrame) (future_days : Z)
    (close : list num) :
  df_col data "Close" = Ok close ->
  snd (regression_step lib data future_days)
  = df_set_col data "Log_Close" (map (np_log lib) close).
Proof.
  intro H. unfold regression_step. now rewrite H.
Qed.

Lemma regression_step_keeps_close (data : DataFrame) (future_days : Z) :
  df_col (snd (regression_step lib data future_days)) "Close"
  = df_col data "Close".
Proof.
  unfold regression_step.
  destruct (df_col data "Close") as [close |] eqn:E; cbn [snd]; [| exact E].
  unfold df_col, df_set_col in *; cbn [columns].
  now rewrite assoc_get_set_other.
Qed.

(** On a series that is not empty the call writes the column [Log_Close]
    into the caller's frame. *)
Lemma analysis_frame_after (data : DataFrame) (future_days : Z) (u : Q)
    (close : list num) :
  df_empty data = false ->
  df_col data "Close" = Ok close ->
  snd (analysis (Some data) future_days u)
  = Some (df_set_col data "Log_Close" (map (np_log lib) close)).
Proof.
  intros He Hc. unfold perform_polynomial_regression. rewrite He.
  pose proof (regression_step_frame data future_days close Hc) as Hf.
  destruct (regression_step lib data future_days) as [fitted data'].
  cbn [snd] in *. now rewrite Hf.
Qed.

(** The call returns a result exactly when it has something to fall back
    on. *)
Lemma analysis_returns_iff (data : option DataFrame) (future_days : Z) (u : Q) :
  is_ok (fst (analysis data future_days u)) = has_fallback data.
Proof.
  unfold perform_polynomial_regression, has_fallback.
  destruct data as [data |]; [| reflexivity].
  destruct (df_empty data); [reflexivity |]. cbn [orb].
  pose proof (regression_step_keeps_close data future_days) as Hk.
  assert (Hhas : df_has_col data "Close" = is_ok (df_col data "Close")).
  { unfold df_has_col, df_col. now destruct (assoc_get "Close" (columns data)). }
  rewrite Hhas. clear Hhas.
  destruct (regression_step lib data future_days) as [fitted data'] eqn:Es.
  cbn [fst snd] in *.
  assert (Hfit : df_col data "Close" = Raise KeyError -> is_ok fitted = false).
  { intro Hno. unfold regression_step in Es. rewrite Hno in Es.
    now injection Es as <- <-. }
  destruct (df_col data "Close") as [close | e] eqn:Ec; rewrite Hk; cbn [bind is_ok].
  - destruct fitted as [fit |]; [| reflexivity].
    destruct (complete_result _ _); reflexivity.
  - assert (He : e = KeyError).
    { unfold df_col in Ec. destruct (assoc_get "Close" (columns data));
        [discriminate | now injection Ec]. }
    subst e. specialize (Hfit eq_refl). destruct fitted; [discriminate |].
    reflexivity.
Qed.

(** A failure of the scoring step ends in the last-resort handler: the
    final [return] then reads a variable that was never assigned. *)
Lemma complete_result_after_failure (fit : regression_fit)
    (ar av : option num) (w : option score_weights) (raw : option num) :
  complete_result fit (scoring_failed ar av w raw) = Raise NameError.
Proof.
  unfold complete_result, scoring_failed, read_local; cbn.
  destruct raw; [| reflexivity]. destruct ar; [| reflexivity].
  destruct av; reflexivity.
Qed.

(** The ratings of a complete result. *)
Lemma rating_of_known (final_score : num) : In (rating_of final_score) known_ratings.
Proof.
  unfold rating_of, known_ratings.
  repeat match goal with
    | |- context [if ?c then _ else _] => destruct c
    end; simpl; tauto.
Qed.

Lemma complete_result_shape (data : DataFrame) (p : sp500_parameters)
    (fit : regression_fit) (u : Q) (r : regression_result) :
  complete_result fit (scoring lib data p fit u) = Ok r ->
  In (rating (total_score r)) known_ratings /\ length (coefficients r) = 3%nat.
Proof.
  unfold scoring.
  destruct (scoring_returns lib data) as [[ar av] |];
    [| now rewrite complete_result_after_failure].
  destruct (scoring_asset lib data p fit ar av) as [[[[[[ts ra] cl] rs] vs] raw] |];
    [| now rewrite complete_result_after_failure].
  destruct (scoring_benchmark lib data p) as [sp_raw |];
    [| now rewrite complete_result_after_failure].
  cbn. intro H. injection H as <-. cbn. split; [apply rating_of_known | reflexivity].
Qed.

(** Every result of the call is well formed. *)
Lemma analysis_result_shape (data : option DataFrame) (future_days : Z) (u : Q)
    (r : regression_result) :
  fst (analysis data future_days u) = Ok r ->
  In (rating (total_score r)) known_ratings /\ length (coefficients r) = 3%nat.
Proof.
  assert (Hno : In (rating (total_score no_data_result)) known_ratings
                /\ length (coefficients no_data_result) = 3%nat)
    by (cbn; tauto).
  unfold perform_polynomial_regression.
  destruct data as [data |]; [| intro H; now injection H as <-].
  destruct (df_empty data); [intro H; now injection H as <- |].
  destruct (regression_step lib data future_days) as [fitted data']. cbn [fst].
  assert (Hlast : forall r',
             (close <- df_col data' "Close" ;;
              Ok (error_occurred_result close (df_len data'))) = Ok r' ->
             In (rating (total_score r')) known_ratings
             /\ length (coefficients r') = 3%nat).
  { intros r'. destruct (df_col data' "Close"); [| discriminate].
    cbn. intro H. injection H as <-. cbn. tauto. }
  destruct fitted as [fit |].
  - destruct (complete_result fit _) as [r' |] eqn:E; cbn [try_except].
    + intro H. injection H as <-. eapply complete_result_shape; eauto.
    + apply Hlast.
  - destruct (df_col data' "Close") as [close |] eqn:E; cbn [bind try_except].
    + intro H. injection H as <-. cbn. tauto.
    + discriminate.
Qed.

(** The draw of the random source reaches the score and the rating only. *)
Lemma complete_result_draw (data : DataFrame) (p : sp500_parameters)
    (fit : regression_fit) (u1 u2 : Q) :
  match complete_result fit (scoring lib data p fit u1),
        complete_result fit (scoring lib data p fit u2) with
  | Ok r1, Ok r2 => without_perturbed_fields r1 = without_perturbed_fields r2
  | Raise e1, Raise e2 => e1 = e2
  | _, _ => False
  end.
Proof.
  unfold scoring.
  destruct (scoring_returns lib data) as [[ar av] |];
    [| now rewrite complete_result_after_failure].
  destruct (scoring_asset lib data p fit ar av) as [[[[[[ts ra] cl] rs] vs] raw] |];
    [| now rewrite complete_result_after_failure].
  destruct (scoring_benchmark lib data p) as [sp_raw |];
    [| now rewrite complete_result_after_failure].
  reflexivity.
Qed.

Lemma analysis_draw (data : option DataFrame) (future_days : Z) (u1 u2 : Q) :
  snd (analysis data future_days u1) = snd (analysis data future_days u2) /\
  match fst (analysis data future_days u1), fst (analysis data future_days u2) with
  | Ok r1, Ok r2 => without_perturbed_fields r1 = without_perturbed_fields r2
  | Raise e1, Raise e2 => e1 = e2
  | _, _ => False
  end.
Proof.
  unfold perform_polynomial_regression.
  destruct data as [data |]; [| split; reflexivity].
  destruct (df_empty data); [split; reflexivity |].
  destruct (regression_step lib data future_days) as [fitted data'].
  cbn [fst snd]. split; [reflexivity |].
  destruct fitted as [fit |].
  - pose proof (complete_result_draw data' (benchmark_parameters lib
                  get_historical_data data) fit u1 u2) as H.
    destruct (complete_result fit (scoring lib data' _ fit u1)) as [r1 | e1];
      destruct (complete_result fit (scoring lib data' _ fit u2)) as [r2 | e2];
      cbn [try_except]; try contradiction; [exact H |].
    destruct (df_col data' "Close"); cbn [bind]; reflexivity.
  - destruct (df_col data' "Close") as [close |]; reflexivity.
Qed.

End ServiceProperties.

(** *** The random perturbation *)

Lemma round_half_even_error (x : Q) :
  - (1 # 2) <= inject_Z (round_half_even x) - x <= 1 # 2.
Proof.
  pose proof (Qfloor_le x) as Hlo. pose proof (Qlt_floor x) as Hhi.
  rewrite inject_Z_plus in Hhi. change (inject_Z 1) with 1 in Hhi.
  unfold round_half_even.
  destruct (Qcompare_spec (x - inject_Z (Qfloor x)) 0.5) as [He | Hl | Hg];
    [destruct (Z.even (Qfloor x)) | |];
    rewrite ?inject_Z_plus; change (inject_Z 1) with 1; lra.
Qed.

(** For a draw in [0,1) the perturbed score stays within 2 of the capped
    score, up to the rounding to two decimals. *)
Lemma perturbed_score_within (raw_score scaling_factor : num) (u f : Q) :
  0 <= u < 1 ->
  Num.py_min (Fin 95) (raw_score * scaling_factor)%num = Fin f ->
  exists s, perturbed_score raw_score scaling_factor u = Fin s /\
            f - 2 - 0.005 <= s <= f + 2 + 0.005.
Proof.
  intros Hu Hf. unfold perturbed_score. rewrite Hf.
  unfold random_uniform. cbn [Num.sub Num.add Num.opp Num.mul py_round2].
  eexists. split; [reflexivity |].
  set (x := f + - (2) + (f + 2 + - (f + - (2))) * u).
  assert (Hx : f - 2 <= x <= f + 2) by (unfold x; nra).
  pose proof (round_half_even_error (x * 100)) as He.
  clearbody x. set (n := inject_Z (round_half_even (x * 100))) in *.
  clearbody n. qlra.
Qed.

Section ServiceClaims.

Variable lib : Numerics.
Variable get_historical_data : DataService.

Local Abbreviation analysis :=
  (perform_polynomial_regression lib get_historical_data).

(** The score of a complete result is the perturbed score of its raw score
    and scaling factor. *)
Lemma analysis_score_formula (data : option DataFrame) (future_days : Z) (u : Q)
    (r : regression_result) (sc : score_scaling) (raw : num) :
  fst (analysis data future_days u) = Ok r ->
  scaling (total_score r) = Some sc ->
  raw_score (total_score r) = Some raw ->
  score (total_score r) = perturbed_score raw (factor sc) u /\
  rating (total_score r) = rating_of (score (total_score r)).
Proof.
  unfold perform_polynomial_regression.
  destruct data as [data |]; [| intro H; injection H as <-; discriminate].
  destruct (df_empty data); [intro H; injection H as <-; discriminate |].
  destruct (regression_step lib data future_days) as [fitted data']. cbn [fst].
  assert (Hlast : forall r',
             (close <- df_col data' "Close" ;;
              Ok (error_occurred_result close (df_len data'))) = Ok r' ->
             scaling (total_score r') = Some sc -> False).
  { intros r'. destruct (df_col data' "Close"); [| discriminate].
    cbn. intro H. injection H as <-. discriminate. }
  destruct fitted as [fit |].
  - destruct (complete_result fit _) as [r' |] eqn:E; cbn [try_except].
    + intro H. injection H as <-. revert E. unfold scoring.
      destruct (scoring_returns lib data') as [[ar av] |];
        [| now rewrite complete_result_after_failure].
      destruct (scoring_asset lib data' _ fit ar av)
        as [[[[[[ts ra] cl] rs] vs] raw'] |];
        [| now rewrite complete_result_after_failure].
      destruct (scoring_benchmark lib data' _) as [sp_raw |];
        [| now rewrite complete_result_after_failure].
      cbn. intro H. injection H as <-. cbn.
      intros Hs Hr. injection Hs as <-. injection Hr as <-. split; reflexivity.
    + intros H Hs. destruct (Hlast r H Hs).
  - destruct (df_col data' "Close") as [close |]; cbn [bind try_except].
    + intro H. injection H as <-. discriminate.
    + discriminate.
Qed.

End ServiceClaims.

(** Two runs on the same three-day series, with the same benchmark data,
    that differ in the draw of the random source report different scores:
    the composite call is not a function of the series alone. *)
Lemma composite_score_not_reproducible :
  exists r1 r2,
    fst (perform_polynomial_regression Reference.numerics Reference.no_benchmark
           (Some Reference.flat3) 180 0) = Ok r1 /\
    fst (perform_polynomial_regression Reference.numerics Reference.no_benchmark
           (Some Reference.flat3) 180 0.5) = Ok r2 /\
    score (total_score r1) = Fin 42.11 /\
    score (total_score r2) = Fin 44.11 /\
    r1 <> r2.
Proof.
  destruct (fst (perform_polynomial_regression Reference.numerics
                   Reference.no_benchmark (Some Reference.flat3) 180 0))
    as [r1 |] eqn:E1; [| vm_compute in E1; discriminate].
  destruct (fst (perform_polynomial_regression Reference.numerics
                   Reference.no_benchmark (Some Reference.flat3) 180 0.5))
    as [r2 |] eqn:E2; [| vm_compute in E2; discriminate].
  assert (S1 : score (total_score r1) = Fin 42.11).
  { vm_compute in E1. injection E1 as <-. reflexivity. }
  assert (S2 : score (total_score r2) = Fin 44.11).
  { vm_compute in E2. injection E2 as <-. reflexivity. }
  exists r1, r2. repeat split; auto.
  intro Heq. rewrite Heq, S2 in S1. discriminate.
Qed.

(** C1 (amended). The composite call is a function of the series, the
    benchmark data and the draw of the random source.  Two runs that differ
    only in the draw leave the same frame behind and return results that
    agree in every field but [total_score.score] and the rating derived from
    it; the score is the capped, scaled raw score perturbed by the draw, and
    for a draw in [0,1) stays within 2 of it up to rounding. *)
Theorem perform_polynomial_regression_draw (lib : Numerics)
    (get_historical_data : DataService) (data : option DataFrame)
    (future_days : Z) (u1 u2 : Q) :
  let run := perform_polynomial_regression lib get_historical_data data future_days in
  (u1 = u2 -> run u1 = run u2) /\
  snd (run u1) = snd (run u2) /\
  match fst (run u1), fst (run u2) with
  | Ok r1, Ok r2 => without_perturbed_fields r1 = without_perturbed_fields r2
  | Raise e1, Raise e2 => e1 = e2
  | _, _ => False
  end /\
  (forall r sc raw,
     fst (run u1) = Ok r ->
     scaling (total_score r) = Some sc ->
     raw_score (total_score r) = Some raw ->
     score (total_score r) = perturbed_score raw (factor sc) u1 /\
     rating (total_score r) = rating_of (score (total_score r))) /\
  (forall raw scale f,
     0 <= u1 < 1 ->
     Num.py_min (Fin 95) (raw * scale)%num = Fin f ->
     exists s, perturbed_score raw scale u1 = Fin s /\
               f - 2 - 0.005 <= s <= f + 2 + 0.005).
Proof.
  intro run. split; [intros ->; reflexivity |].
  destruct (analysis_draw lib get_historical_data data future_days u1 u2)
    as [Hframe Hres].
  split; [exact Hframe |]. split; [exact Hres |].
  split; [intros r sc raw; apply analysis_score_formula |].
  intros raw scale f. apply perturbed_score_within.
Qed.

Lemma perform_polynomial_regression_draw_witness :
  (0 <= 0.5 < 1) /\
  exists s, perturbed_score (Fin 44) (Fin 1) 0.5 = Fin s /\
            44 - 2 - 0.005 <= s <= 44 + 2 + 0.005.
Proof.
  split; [lra |].
  destruct (perform_polynomial_regression_draw Reference.numerics
              Reference.no_benchmark (Some Reference.flat3) 180 0.5 0.5)
    as (Hsame & _ & _ & _ & Hwithin).
  pose proof (Hsame eq_refl) as _.
  apply (Hwithin (Fin 44) (Fin 1) 44); [lra | reflexivity].
Defined.

(** On a series with no observation the rolling-window analysis raises
    [KeyError] to its caller: no public operation is free of exceptions. *)
Lemma analyze_stock_data_raises_on_empty_series :
  analyze_stock_data Reference.numerics Reference.no_rows 365 365 = Raise KeyError.
Proof. reflexivity. Qed.

(** C2 (amended). The composite call never raises when the series is
    absent, empty, or has a column [Close]: every stage falls back on a
    default and the caller receives a well-formed result, with a known
    rating and three coefficients.  The rolling-window analysis has no
    fallback: its handler raises again whatever its body raised. *)
Theorem perform_polynomial_regression_never_raises (lib : Numerics)
    (get_historical_data : DataService) (data : option DataFrame)
    (future_days : Z) (u : Q) :
  has_fallback data = true ->
  (exists r,
     fst (perform_polynomial_regression lib get_historical_data data
            future_days u) = Ok r /\
     In (rating (total_score r)) known_ratings /\
     length (coefficients r) = 3%nat) /\
  (forall frame crossover_days lookback_days e,
     analyze_stock_data_body lib frame crossover_days lookback_days = Raise e ->
     analyze_stock_data lib frame crossover_days lookback_days = Raise e) /\
  (forall frame crossover_days lookback_days table,
     analyze_stock_data_body lib frame crossover_days lookback_days = Ok table ->
     analyze_stock_data lib frame crossover_days lookback_days = Ok table).
Proof.
  intro Hf. split; [| split].
  - pose proof (analysis_returns_iff lib get_historical_data data future_days u)
      as Hok.
    rewrite Hf in Hok.
    destruct (fst (perform_polynomial_regression lib get_historical_data data
                     future_days u)) as [r |] eqn:E; [| discriminate].
    exists r. split; [reflexivity |].
    now apply (analysis_result_shape lib get_historical_data data future_days u).
  - intros frame c l e H. unfold analyze_stock_data. now rewrite H.
  - intros frame c l table H. unfold analyze_stock_data. now rewrite H.
Qed.

Lemma perform_polynomial_regression_never_raises_witness :
  has_fallback (Some Reference.flat3) = true /\
  exists r,
    fst (perform_polynomial_regression Reference.numerics Reference.no_benchmark
           (Some Reference.flat3) 180 0) = Ok r /\
    In (rating (total_score r)) known_ratings /\
    length (coefficients r) = 3%nat.
Proof.
  split; [reflexivity |].
  apply (perform_polynomial_regression_never_raises Reference.numerics
           Reference.no_benchmark (Some Reference.flat3) 180 0).
  reflexivity.
Defined.

(** C3 (the code departs from the claim). On the three-day series [flat3]
    the composite call leaves the caller's frame with a new column
    [Log_Close]: the frame after the call is not the frame before it. *)
Theorem perform_polynomial_regression_writes_caller_frame (lib : Numerics)
    (get_historical_data : DataService) (future_days : Z) (u : Q) :
  snd (perform_polynomial_regression lib get_historical_data
         (Some Reference.flat3) future_days u)
  = Some {| index := [0; 1; 2]%Z;
            columns :=
              [("Close", [Fin 1; Fin 1; Fin 1]);
               ("Log_Close",
                [np_log lib (Fin 1); np_log lib (Fin 1); np_log lib (Fin 1)])] |} /\
  snd (perform_polynomial_regression lib get_historical_data
         (Some Reference.flat3) future_days u)
  <> Some Reference.flat3.
Proof.
  rewrite (analysis_frame_after lib get_historical_data Reference.flat3
             future_days u [Fin 1; Fin 1; Fin 1] eq_refl eq_refl).
  split; [reflexivity | discriminate].
Qed.

(** C5. For an absent or empty series the composite call returns, leaves
    the series as it is, and its result has the rating "Error", [r2 = 0],
    empty predictions and bands, coefficients [[0,0,0]], [max_x = 0] and the
    equation "No data available". *)
Theorem perform_polynomial_regression_no_data (lib : Numerics)
    (get_historical_data : DataService) (data : option DataFrame)
    (future_days : Z) (u : Q) :
  no_data data = true ->
  exists r,
    perform_polynomial_regression lib get_historical_data data future_days u
    = (Ok r, data) /\
    rating (total_score r) = "Error" /\
    score (total_score r) = Fin 0 /\
    r2 r = Fin 0 /\
    predictions r = [] /\ upper_band r = [] /\ lower_band r = [] /\
    coefficients r = [Fin 0; Fin 0; Fin 0] /\
    max_x r = 0%Z /\
    equation r = "No data available".
Proof.
  intro H. exists no_data_result. split; [| cbn; repeat split].
  unfold perform_polynomial_regression.
  destruct data as [data |]; [| reflexivity].
  simpl in H. now rewrite H.
Qed.

Lemma perform_polynomial_regression_no_data_witness :
  no_data (Some Reference.no_rows) = true /\
  exists r,
    perform_polynomial_regression Reference.numerics Reference.no_benchmark
      (Some Reference.no_rows) 180 0
    = (Ok r, Some Reference.no_rows) /\
    rating (total_score r) = "Error" /\
    score (total_score r) = Fin 0 /\
    r2 r = Fin 0 /\
    predictions r = [] /\ upper_band r = [] /\ lower_band r = [] /\
    coefficients r = [Fin 0; Fin 0; Fin 0] /\
    max_x r = 0%Z /\
    equation r = "No data available".
Proof.
  split; [reflexivity |].
  apply (perform_polynomial_regression_no_data Reference.numerics
           Reference.no_benchmark (Some Reference.no_rows) 180 0).
  reflexivity.
Defined.

(* ================================================================== *)
(** * Further properties of the service *)
(* ================================================================== *)

(** ** Price appreciation *)

Lemma Qdiv_unit (n d : Q) : 0 < d -> 0 <= n <= d -> 0 <= n / d <= 1.
Proof.
  intros Hd [Hn0 Hnd]. split.
  - apply Qle_shift_div_l; [exact Hd | lra].
  - apply Qle_shift_div_r; [exact Hd | lra].
Qed.

Lemma Qeq_bool_false_of_pos (d : Q) : 0 < d -> Qeq_bool d 0 = false.
Proof.
  intro H. destruct (Qeq_bool d 0) eqn:E; [| reflexivity].
  apply Qeq_bool_iff in E. lra.
Qed.

(** The position of a price in its range: 100 at the top, 0 at the bottom,
    between the two inside the range, and 0 when the range is empty. *)
Theorem price_appreciation_in_range (current high low : Q) :
  (low < high ->
   Num.eq (calculate_price_appreciation_pct (Fin high) (Fin high) (Fin low)) (Fin 100) /\
   Num.eq (calculate_price_appreciation_pct (Fin low) (Fin high) (Fin low)) (Fin 0) /\
   (low <= current <= high ->
    exists p, calculate_price_appreciation_pct (Fin current) (Fin high) (Fin low) = Fin p
              /\ 0 <= p <= 100)) /\
  (high <= low ->
   calculate_price_appreciation_pct (Fin current) (Fin high) (Fin low) = Fin 0).
Proof.
  unfold calculate_price_appreciation_pct, Num.gtb.
  cbn [Num.sub Num.add Num.opp Num.ltb]. split.
  - intro Hlt.
    assert (Hd : 0 < high + - low) by lra.
    assert (Hpos : Num.Qltb 0 (high + - low) = true) by (now apply Qltb_lt).
    rewrite Hpos. cbn [Num.div Num.mul].
    rewrite (Qeq_bool_false_of_pos _ Hd). cbn [Num.mul Num.eq].
    split; [| split].
    + field. lra.
    + field. lra.
    + intro Hc. eexists. split; [reflexivity |].
      pose proof (Qdiv_unit (current + - low) (high + - low) Hd ltac:(lra)) as Hu.
      set (r := (current + - low) / (high + - low)) in *. clearbody r. lra.
  - intro Hle.
    assert (Hneg : Num.Qltb 0 (high + - low) = false) by (apply Qltb_false; lra).
    now rewrite Hneg.
Qed.

Lemma price_appreciation_in_range_witness :
  exists p,
    calculate_price_appreciation_pct (Fin 12) (Fin 20) (Fin 10) = Fin p /\
    0 <= p <= 100.
Proof.
  destruct (price_appreciation_in_range 12 20 10) as [H _].
  destruct (H ltac:(lra)) as (_ & _ & Hin). apply Hin. lra.
Defined.

(** ** MetricScorer, further *)

Lemma score_metric_return_self (x : Q) :
  score_metric (Fin x) (Fin x) "return" = Ok 60%Z.
Proof.
  rewrite score_metric_return_spec. f_equal. unfold return_score_spec.
  assert (E : Qle_bool 0 ((x - x) * 100) = true) by (apply Qle_bool_iff; lra).
  rewrite E. transitivity (round_half_even 60); [| reflexivity].
  apply round_half_even_comp. unfold clamp.
  case_Qle (60 + (x - x) * 100 / 2) 25; [qlra |].
  case_Qle 100 (60 + (x - x) * 100 / 2); qlra.
Qed.

Lemma score_metric_volatility_self (x : Q) :
  ~ x == 0 -> score_metric (Fin x) (Fin x) "volatility" = Ok 75%Z.
Proof.
  intro Hx. rewrite score_metric_volatility_spec by exact Hx. f_equal.
  assert (Hr : x / x == 1) by (field; exact Hx).
  unfold volatility_score_spec.
  repeat match goal with
    | |- context [Qle_bool ?a ?b] => case_Qle a b; try lra
    end; reflexivity.
Qed.

(** A value scored against itself gets 60 as a return and 75 as a
    volatility: these are the benchmark's own scores. *)
Theorem score_metric_of_benchmark_itself (x : Q) :
  score_metric (Fin x) (Fin x) "return" = Ok 60%Z /\
  (~ x == 0 -> score_metric (Fin x) (Fin x) "volatility" = Ok 75%Z).
Proof.
  split; [apply score_metric_return_self | apply score_metric_volatility_self].
Qed.

Lemma score_metric_of_benchmark_itself_witness :
  score_metric (Fin 0.125) (Fin 0.125) "volatility" = Ok 75%Z.
Proof.
  apply (score_metric_of_benchmark_itself 0.125). lra.
Defined.

Lemma volatility_score_spec_antitone (r1 r2 : Q) :
  r1 <= r2 -> (volatility_score_spec r2 <= volatility_score_spec r1)%Z.
Proof.
  intro H. unfold volatility_score_spec.
  repeat match goal with
    | |- context [Qle_bool r1 ?b] => case_Qle r1 b
    end;
  repeat match goal with
    | |- context [Qle_bool r2 ?b] => case_Qle r2 b; try lra
    end; lia.
Qed.

Lemma volatility_score_spec_range (r : Q) :
  (40 <= volatility_score_spec r <= 100)%Z.
Proof.
  unfold volatility_score_spec.
  repeat match goal with
    | |- context [Qle_bool r ?b] => destruct (Qle_bool r b)
    end; lia.
Qed.

(** For a positive benchmark a higher volatility never scores better, and
    the score lies between 40 and 100. *)
Theorem score_metric_volatility_antitone (benchmark v1 v2 : Q) :
  0 < benchmark -> v1 <= v2 ->
  exists n1 n2 : Z,
    score_metric (Fin v1) (Fin benchmark) "volatility" = Ok n1 /\
    score_metric (Fin v2) (Fin benchmark) "volatility" = Ok n2 /\
    (n2 <= n1)%Z /\ (40 <= n2)%Z /\ (n1 <= 100)%Z.
Proof.
  intros Hb Hv.
  assert (Hnz : ~ benchmark == 0) by lra.
  rewrite !score_metric_volatility_spec by exact Hnz.
  eexists _, _. split; [reflexivity |]. split; [reflexivity |].
  split; [| split].
  - apply volatility_score_spec_antitone.
    apply Qmult_le_compat_r; [exact Hv |].
    apply Qlt_le_weak, Qinv_lt_0_compat, Hb.
  - apply volatility_score_spec_range.
  - apply volatility_score_spec_range.
Qed.

Lemma score_metric_volatility_antitone_witness :
  exists n1 n2 : Z,
    score_metric (Fin 0.1) (Fin 0.125) "volatility" = Ok n1 /\
    score_metric (Fin 0.3) (Fin 0.125) "volatility" = Ok n2 /\
    (n2 <= n1)%Z /\ (40 <= n2)%Z /\ (n1 <= 100)%Z.
Proof.
  apply (score_metric_volatility_antitone 0.125 0.1 0.3); lra.
Defined.

(** Values that are not numbers, and a zero benchmark.  A NaN on either
    side makes the return score raise [ValueError] (from [round]) and gives
    the volatility score 40; an infinite return is clamped; a zero benchmark
    volatility gives 40 unless the value is negative. *)
Theorem score_metric_special_values (x : num) (v : Q) :
  score_metric NaN x "return" = Raise ValueError /\
  score_metric x NaN "return" = Raise ValueError /\
  score_metric NaN x "volatility" = Ok 40%Z /\
  score_metric x NaN "volatility" = Ok 40%Z /\
  score_metric PInf (Fin v) "return" = Ok 100%Z /\
  score_metric NInf (Fin v) "return" = Ok 25%Z /\
  score_metric (Fin v) (Fin 0) "volatility"
  = Ok (if Qle_bool 0 v then 40 else 100)%Z.
Proof.
  repeat split; try reflexivity; try (destruct x; reflexivity).
  unfold score_metric. cbn [String.eqb Ascii.eqb Bool.eqb].
  unfold Num.div. destruct v as [[| p | p] d]; reflexivity.
Qed.

(** ** CrossoverDetector, further *)

(** Series of different lengths, neither of length one, are rejected. *)
Theorem find_crossover_points_shape_mismatch {D P : Type} (dates : list D)
    (s1 s2 : list num) (prices : list P) :
  length s1 <> length s2 -> length s1 <> 1%nat -> length s2 <> 1%nat ->
  find_crossover_points dates s1 s2 prices = Raise ValueError.
Proof.
  intros Hne H1 H2. unfold find_crossover_points, np_subtract.
  destruct (Nat.eqb_spec (length s1) (length s2)) as [Heq | _]; [contradiction |].
  destruct s1 as [| x [| x' s1]]; destruct s2 as [| y [| y' s2]];
    simpl in *; try contradiction; reflexivity.
Qed.

Lemma find_crossover_points_shape_mismatch_witness :
  find_crossover_points [1; 2; 3]%Z [Fin 1; Fin 2; Fin 3] [Fin 2; Fin 2] [5; 6; 7]%Z
  = Raise ValueError.
Proof.
  apply find_crossover_points_shape_mismatch; simpl; lia.
Defined.

Lemma flat_map_nil_on {A B : Type} (f : A -> list B) (l : list A) :
  (forall x, In x l -> f x = []) -> flat_map f l = [].
Proof.
  induction l as [| x l IH]; intro H; simpl; [reflexivity |].
  rewrite (H x) by now left. apply IH. intros y Hy. apply H. now right.
Qed.

Lemma ltb_pos_not_leb (d : num) :
  (Fin 0 <? d)%num = true -> (d <=? Fin 0)%num = false.
Proof.
  destruct d as [q | | |]; simpl; try reflexivity; try discriminate.
  intro H. apply Qltb_lt in H. apply Qle_bool_false. exact H.
Qed.

Lemma ltb_neg_not_geb (d : num) :
  (d <? Fin 0)%num = true -> (d >=? Fin 0)%num = false.
Proof.
  unfold Num.geb. destruct d as [q | | |]; simpl; try reflexivity; try discriminate.
  intro H. apply Qltb_lt in H. apply Qle_bool_false. exact H.
Qed.

(** Series that do not cross give no event: when the first stays strictly
    above the second, strictly below it, or equal to it (more generally,
    when no difference is strictly positive or strictly negative). *)
Theorem find_crossover_points_no_crossing {D P : Type} (dates : list D)
    (s1 s2 : list num) (prices : list P) :
  length s1 = length s2 -> length dates = length s1 ->
  length prices = length s1 ->
  let diff := map2 Num.sub s1 s2 in
  Forall (fun d => (Fin 0 <? d)%num = true) diff \/
  Forall (fun d => (d <? Fin 0)%num = true) diff \/
  Forall (fun d => (Fin 0 <? d)%num = false /\ (d <? Fin 0)%num = false) diff ->
  find_crossover_points dates s1 s2 prices = Ok ([], [], [], []).
Proof.
  intros H12 Hd Hp diff Hsign.
  rewrite find_crossover_points_aligned by assumption.
  assert (Hnone : crossover_events_spec dates s1 s2 prices = []);
    [| now rewrite Hnone].
  unfold crossover_events_spec. apply flat_map_nil_on. intros i Hi.
  unfold crossover_event_at.
  destruct (nth_error s1 (i - 1)) as [a0 |] eqn:Ea0; [| reflexivity].
  destruct (nth_error s2 (i - 1)) as [b0 |] eqn:Eb0; [| reflexivity].
  destruct (nth_error s1 i) as [a1 |] eqn:Ea1; [| reflexivity].
  destruct (nth_error s2 i) as [b1 |] eqn:Eb1; [| reflexivity].
  destruct (nth_error dates i) as [date |]; [| reflexivity].
  destruct (nth_error prices i) as [price |]; [| reflexivity].
  assert (Hprev : nth_error diff (i - 1) = Some (a0 - b0)%num)
    by (unfold diff; now rewrite nth_error_map2, Ea0, Eb0).
  assert (Hcur : nth_error diff i = Some (a1 - b1)%num)
    by (unfold diff; now rewrite nth_error_map2, Ea1, Eb1).
  apply nth_error_In in Hprev, Hcur. unfold Num.gtb.
  destruct Hsign as [Hpos | [Hneg | Hzero]];
    rewrite Forall_forall in *.
  - rewrite (ltb_pos_not_leb _ (Hpos _ Hprev)).
    rewrite (ltb_irrefl_pair _ _ (Hpos _ Hcur)), andb_false_r. reflexivity.
  - rewrite (ltb_irrefl_pair _ _ (Hneg _ Hcur)), andb_false_r.
    rewrite (ltb_neg_not_geb _ (Hneg _ Hprev)). reflexivity.
  - destruct (Hzero _ Hcur) as [-> ->]. now rewrite !andb_false_r.
Qed.

Lemma find_crossover_points_no_crossing_witness :
  find_crossover_points [1; 2; 3]%Z [Fin 5; Fin 6; Fin 7] [Fin 2; Fin 2; Fin 2]
    [5; 6; 7]%Z
  = Ok ([], [], [], []).
Proof.
  apply find_crossover_points_no_crossing; try reflexivity.
  left. repeat constructor.
Defined.

Lemma flat_map_length_le {A B : Type} (f : A -> list B) (l : list A) :
  (forall x, (length (f x) <= 1)%nat) ->
  (length (flat_map f l) <= length l)%nat.
Proof.
  intro H. induction l as [| x l IH]; simpl; [lia |].
  rewrite length_app. specialize (H x). lia.
Qed.

(** A scan of [n] aligned points reports at most [n - 1] events, and none
    when there are fewer than two points. *)
Theorem find_crossover_points_count {D P : Type} (dates : list D)
    (s1 s2 : list num) (prices : list P) :
  length s1 = length s2 -> length dates = length s1 ->
  length prices = length s1 ->
  exists pts vals dirs prs,
    find_crossover_points dates s1 s2 prices = Ok (pts, vals, dirs, prs) /\
    (length pts <= length s1 - 1)%nat /\
    ((length s1 < 2)%nat -> pts = [] /\ vals = [] /\ dirs = [] /\ prs = []).
Proof.
  intros H12 Hd Hp.
  rewrite find_crossover_points_aligned by assumption.
  unfold unzip_events. eexists _, _, _, _. split; [reflexivity |].
  assert (Hlen : (length (crossover_events_spec dates s1 s2 prices)
                  <= length s1 - 1)%nat).
  { unfold crossover_events_spec.
    etransitivity; [apply flat_map_length_le | now rewrite length_seq].
    intro i. destruct (crossover_event_at dates s1 s2 prices i); simpl; lia. }
  split; [now rewrite length_map |].
  intro Hshort.
  destruct (crossover_events_spec dates s1 s2 prices) as [| e es];
    [repeat split | simpl in Hlen; lia].
Qed.

Lemma find_crossover_points_count_witness :
  exists pts vals dirs prs,
    find_crossover_points [1%Z] [Fin 5] [Fin 2] [5%Z] = Ok (pts, vals, dirs, prs) /\
    (length pts <= 1 - 1)%nat.
Proof.
  destruct (find_crossover_points_count [1%Z] [Fin 5] [Fin 2] [5%Z]
              eq_refl eq_refl eq_refl) as (pts & vals & dirs & prs & H & Hl & _).
  exists pts, vals, dirs, prs. split; [exact H | exact Hl].
Defined.

Lemma sub_swap_leb (a b : num) : (b - a <=? Fin 0)%num = (a - b >=? Fin 0)%num.
Proof.
  unfold Num.geb. destruct a as [x | | |], b as [y | | |]; try reflexivity.
  cbn [Num.sub Num.add Num.opp Num.leb].
  case_Qle (y + - x) 0; case_Qle 0 (x + - y); try reflexivity; lra.
Qed.

Lemma sub_swap_gtb (a b : num) : (b - a >? Fin 0)%num = (a - b <? Fin 0)%num.
Proof.
  unfold Num.gtb. destruct a as [x | | |], b as [y | | |]; try reflexivity.
  cbn [Num.sub Num.add Num.opp Num.ltb].
  case_Qlt 0 (y + - x); case_Qlt (x + - y) 0; try reflexivity; lra.
Qed.

Lemma midpoint_comm (a b : num) :
  Num.eq ((a + b) / Fin 2)%num ((b + a) / Fin 2)%num.
Proof.
  destruct a as [x | | |], b as [y | | |]; try exact I.
  cbn [Num.add Num.div Num.eq]. change (Qeq_bool 2 0) with false.
  cbv iota. unfold Num.eq. qlra.
Qed.

(** The events of the swapped scan, index by index. *)
Lemma crossover_event_at_swap {D P : Type} (dates : list D) (s1 s2 : list num)
    (prices : list P) (i : nat) :
  match crossover_event_at dates s1 s2 prices i,
        crossover_event_at dates s2 s1 prices i with
  | Some (d, v, dir, p), Some (d', v', dir', p') =>
      d' = d /\ Num.eq v v' /\ dir' = swap_direction dir /\ p' = p
  | None, None => True
  | _, _ => False
  end.
Proof.
  unfold crossover_event_at.
  destruct (nth_error s1 (i - 1)) as [a0 |];
    destruct (nth_error s2 (i - 1)) as [b0 |]; try exact I.
  destruct (nth_error s1 i) as [a1 |];
    destruct (nth_error s2 i) as [b1 |]; try exact I.
  destruct (nth_error dates i) as [date |]; [| exact I].
  destruct (nth_error prices i) as [price |]; [| exact I].
  rewrite (sub_swap_leb a0 b0), (sub_swap_gtb a1 b1).
  rewrite <- (sub_swap_leb b0 a0), <- (sub_swap_gtb b1 a1).
  destruct ((a0 - b0 <=? Fin 0)%num && (a1 - b1 >? Fin 0)%num) eqn:Edown.
  - apply andb_true_iff in Edown. destruct Edown as [E1 E2].
    assert (Hn : (a1 - b1 <? Fin 0)%num = false)
      by (apply gtb_not_ltb; exact E2).
    rewrite Hn, andb_false_r.
    repeat split; [apply midpoint_comm].
  - destruct ((a0 - b0 >=? Fin 0)%num && (a1 - b1 <? Fin 0)%num) eqn:Eup.
    + repeat split; [apply midpoint_comm].
    + exact I.
Qed.

Lemma crossover_events_swap {D P : Type} (dates : list D) (s1 s2 : list num)
    (prices : list P) (items : list nat) :
  let events l1 l2 :=
    flat_map (fun i => match crossover_event_at dates l1 l2 prices i with
                       | Some e => [e]
                       | None => []
                       end) items in
  map (fun e => fst (fst (fst e))) (events s2 s1)
  = map (fun e => fst (fst (fst e))) (events s1 s2) /\
  Forall2 Num.eq (map (fun e => snd (fst (fst e))) (events s1 s2))
                 (map (fun e => snd (fst (fst e))) (events s2 s1)) /\
  map (fun e => snd (fst e)) (events s2 s1)
  = map swap_direction (map (fun e => snd (fst e)) (events s1 s2)) /\
  map (fun e => snd e) (events s2 s1) = map (fun e => snd e) (events s1 s2).
Proof.
  induction items as [| i items IH]; simpl; [repeat split; constructor |].
  destruct IH as (H1 & H2 & H3 & H4).
  pose proof (crossover_event_at_swap dates s1 s2 prices i) as Hi.
  destruct (crossover_event_at dates s1 s2 prices i) as [[[[d v] dir] p] |];
    destruct (crossover_event_at dates s2 s1 prices i) as [[[[d' v'] dir'] p'] |];
    try contradiction; simpl.
  - destruct Hi as (-> & Hv & -> & ->).
    rewrite H1, H3, H4. repeat split. now constructor.
  - repeat split; assumption.
Qed.

(** Exchanging the two series exchanges the labels "down" and "up" and
    changes nothing else: the same dates, the same prices, equal midpoints. *)
Theorem find_crossover_points_swap {D P : Type} (dates : list D)
    (s1 s2 : list num) (prices : list P) :
  length s1 = length s2 -> length dates = length s1 ->
  length prices = length s1 ->
  exists pts vals vals' dirs prs,
    find_crossover_points dates s1 s2 prices = Ok (pts, vals, dirs, prs) /\
    find_crossover_points dates s2 s1 prices
    = Ok (pts, vals', map swap_direction dirs, prs) /\
    Forall2 Num.eq vals vals'.
Proof.
  intros H12 Hd Hp.
  rewrite (find_crossover_points_aligned dates s1 s2 prices) by assumption.
  rewrite (find_crossover_points_aligned dates s2 s1 prices) by congruence.
  unfold unzip_events, crossover_events_spec. rewrite <- H12.
  destruct (crossover_events_swap dates s1 s2 prices (seq 1 (length s1 - 1)))
    as (H1 & H2 & H3 & H4).
  eexists _, _, _, _, _. split; [reflexivity |].
  split; [| exact H2]. now rewrite H1, H3, H4.
Qed.

Lemma find_crossover_points_swap_witness :
  exists pts vals vals' dirs prs,
    find_crossover_points [10; 11; 12]%Z [Fin 1; Fin 1; Fin 3]
      [Fin 2; Fin 2; Fin 2] [5; 6; 7]%Z = Ok (pts, vals, dirs, prs) /\
    find_crossover_points [10; 11; 12]%Z [Fin 2; Fin 2; Fin 2]
      [Fin 1; Fin 1; Fin 3] [5; 6; 7]%Z
    = Ok (pts, vals', map swap_direction dirs, prs) /\
    Forall2 Num.eq vals vals'.
Proof.
  apply (find_crossover_points_swap [10; 11; 12]%Z [Fin 1; Fin 1; Fin 3]
           [Fin 2; Fin 2; Fin 2] [5; 6; 7]%Z); reflexivity.
Defined.

(** ** TrendScorer, further *)

(** A strength is a number between 0 and 1, whatever the impact: an
    infinite or undefined impact counts as full strength. *)
Lemma capped_strength_unit (x : num) :
  exists s, Num.py_min (Fin 1.0) (Num.abs x) = Fin s /\ 0 <= s <= 1.
Proof.
  unfold Num.py_min. destruct x as [q | | |]; simpl;
    try (exists 1.0; split; [reflexivity | lra]).
  pose proof (Qabs_nonneg q) as Hq.
  case_Qlt (Qabs q) 1.0; eexists; (split; [reflexivity | lra]).
Qed.

Lemma capped_strength_30_unit (x : num) :
  exists s, Num.py_min (Fin 1.0) (Num.abs x / Fin 30)%num = Fin s /\ 0 <= s <= 1.
Proof.
  unfold Num.py_min. destruct x as [q | | |]; simpl;
    try (exists 1.0; split; [reflexivity | lra]).
  pose proof (Qabs_nonneg q) as Hq.
  case_Qlt (Qabs q / 30) 1.0; eexists; (split; [reflexivity | qlra]).
Qed.

Lemma trend_strengths_unit (lib : Numerics) (close : list num) (n : nat)
    (quad linear : num) :
  exists f h,
    trend_strengths_spec lib close n quad linear = (Fin f, Fin h) /\
    0 <= f <= 1 /\ 0 <= h <= 1.
Proof.
  unfold trend_strengths_spec.
  match goal with
  | |- context [Num.py_min (Fin 1.0) (Num.abs ?x / Fin 30)%num] =>
      destruct (capped_strength_30_unit x) as (f & -> & Hf)
  end.
  match goal with
  | |- context [Num.py_min (Fin 1.0) (Num.abs ?x)] =>
      destruct (capped_strength_unit x) as (h & -> & Hh)
  end.
  exists f, h. auto.
Qed.

Lemma clamp_score_mono (x y : Q) :
  x <= y ->
  exists cx cy, clamp_score (Fin x) = Fin cx /\ clamp_score (Fin y) = Fin cy /\
                cx <= cy.
Proof.
  intro H. unfold clamp_score, Num.py_min, Num.py_max. simpl.
  case_Qlt 0 x; case_Qlt 0 y; simpl;
    try case_Qlt x 100; try case_Qlt y 100; try (change (Num.Qltb 0 100) with true);
    eexists _, _; (split; [reflexivity | split; [reflexivity | lra]]).
Qed.

(** With the same fit quality, an accelerating-up trend never scores below
    a flat one (both coefficients zero), and an accelerating-down trend
    never scores above it. *)
Theorem evaluate_trend_score_direction (lib : Numerics) (data : DataFrame)
    (close : list num) (quad linear : num) (r : Q) :
  df_col data "Close" = Ok close ->
  exists s n,
    fst (fst (evaluate_trend_score lib data quad linear (Fin r))) = Fin s /\
    fst (fst (evaluate_trend_score lib data (Fin 0) (Fin 0) (Fin r))) = Fin n /\
    (accelerating_up (trend_type quad linear) = true -> n <= s) /\
    (accelerating_down (trend_type quad linear) = true -> s <= n).
Proof.
  intro Hc.
  rewrite !(evaluate_trend_score_spec lib data close) by exact Hc.
  unfold trend_score_spec.
  destruct (trend_strengths_unit lib close (df_len data) quad linear)
    as (f & h & -> & Hf & Hh).
  destruct (trend_strengths_unit lib close (df_len data) (Fin 0) (Fin 0))
    as (f0 & h0 & -> & _ & _).
  change (classify_trend_spec (Fin 0) (Fin 0)) with (@None trend_kind).
  cbn [adjusted_trend_score_spec].
  destruct (trend_type_classify quad linear) as (Hup & Hdown & _ & _).
  assert (Hm : 0 <= 0.6 + 0.4 * (r * r)) by nra.
  destruct (classify_trend_spec quad linear) as [[| | |] |] eqn:Ek;
    cbn [adjusted_trend_score_spec trend_adjustment_spec
         Num.add Num.mul Num.sub Num.opp].
  - (* accelerating up *)
    destruct (clamp_score_mono (50 * (0.6 + 0.4 * (r * r)))
                ((50 + (f * 35 + h * 25)) * (0.6 + 0.4 * (r * r))))
      as (cn & cs & -> & -> & Hle); [nra |].
    exists cs, cn. repeat split; auto.
    intro Hd. apply Hdown in Hd. discriminate.
  - (* accelerating down *)
    destruct (clamp_score_mono ((50 + - (f * 35 + h * 25)) * (0.6 + 0.4 * (r * r)))
                (50 * (0.6 + 0.4 * (r * r))))
      as (cs & cn & -> & -> & Hle); [nra |].
    exists cs, cn. repeat split; auto.
    intro Hu. apply Hup in Hu. discriminate.
  - (* reversal up *)
    destruct (clamp_score_range
                (Fin ((50 + (f * 35 + - (h * 15))) * (0.6 + 0.4 * (r * r)))))
      as (s & -> & _).
    destruct (clamp_score_range (Fin (50 * (0.6 + 0.4 * (r * r)))))
      as (n & -> & _).
    exists s, n. repeat split; auto; intro Hx;
      [apply Hup in Hx | apply Hdown in Hx]; discriminate.
  - (* reversal down *)
    match goal with
    | |- context [clamp_score ?x] =>
        destruct (clamp_score_range x) as (s & -> & _)
    end.
    destruct (clamp_score_range (Fin (50 * (0.6 + 0.4 * (r * r)))))
      as (n & -> & _).
    exists s, n. repeat split; auto; intro Hx;
      [apply Hup in Hx | apply Hdown in Hx]; discriminate.
  - (* no kind *)
    destruct (clamp_score_range (Fin (50 * (0.6 + 0.4 * (r * r)))))
      as (n & -> & _).
    exists n, n. repeat split; auto; intro Hx;
      [apply Hup in Hx | apply Hdown in Hx]; discriminate.
Qed.

Lemma evaluate_trend_score_direction_witness :
  exists s n,
    fst (fst (evaluate_trend_score Reference.numerics Reference.ramp25
                (Fin 0.2) (Fin 0.3) (Fin 0.9))) = Fin s /\
    fst (fst (evaluate_trend_score Reference.numerics Reference.ramp25
                (Fin 0) (Fin 0) (Fin 0.9))) = Fin n /\
    n <= s.
Proof.
  destruct (evaluate_trend_score_direction Reference.numerics Reference.ramp25
              (map (fun i => Num.of_Z (100 + Z.of_nat i)) (seq 0 25))
              (Fin 0.2) (Fin 0.3) 0.9 eq_refl)
    as (s & n & Hs & Hn & Hup & _).
  exists s, n. split; [exact Hs |]. split; [exact Hn |]. apply Hup. reflexivity.
Defined.

(** The credibility level depends on the fit quality alone, lies between 1
    and 5, and never decreases when the fit quality increases. *)
Theorem evaluate_trend_score_credibility (lib : Numerics) (data : DataFrame)
    (quad linear quad' linear' : num) (r1 r2 : Q) :
  r1 <= r2 ->
  let level1 := snd (evaluate_trend_score lib data quad linear (Fin r1)) in
  let level2 := snd (evaluate_trend_score lib data quad' linear' (Fin r2)) in
  (level1 <= level2)%Z /\ (1 <= level1 <= 5)%Z /\ (1 <= level2 <= 5)%Z.
Proof.
  intro H. unfold evaluate_trend_score.
  destruct (df_col data "Close") as [close |]; cbn [bind snd]; [| lia].
  unfold Num.geb, Num.leb.
  repeat match goal with
    | |- context [Qle_bool ?a r1] => case_Qle a r1
    end;
  repeat match goal with
    | |- context [Qle_bool ?a r2] => case_Qle a r2; try lra
    end; lia.
Qed.

Lemma evaluate_trend_score_credibility_witness :
  (snd (evaluate_trend_score Reference.numerics Reference.flat3
          (Fin 0.2) (Fin 0.3) (Fin 0.65))
   <= snd (evaluate_trend_score Reference.numerics Reference.flat3
             (Fin (-1)) (Fin 2) (Fin 0.95)))%Z.
Proof.
  apply (evaluate_trend_score_credibility Reference.numerics Reference.flat3
           (Fin 0.2) (Fin 0.3) (Fin (-1)) (Fin 2) 0.65 0.95).
  lra.
Defined.

(** ** BenchmarkProvider *)

Section BenchmarkProperties.

Variable lib : Numerics.
Variable get_historical_data : DataService.

(** Benchmark prices whose first and last date coincide give no
    parameters: the annualized return divides by the elapsed days. *)
Lemma sp500_parameters_of_single_date (sp : DataFrame) (d : Z) :
  py_index (index sp) 0 = Ok d -> iloc_last (index sp) = Ok d ->
  is_ok (sp500_parameters_of lib sp) = false.
Proof.
  intros Hfirst Hlast. unfold sp500_parameters_of.
  destruct (df_col sp "Close") as [close |]; [| reflexivity]. cbn [bind].
  cbn [df_set_col index]. rewrite Hfirst, Hlast. cbn [bind].
  repeat match goal with
    | |- is_ok (bind (Ok _) _) = false => cbn [bind]
    | |- is_ok (bind (py_int_truediv _ _) _) = false =>
        unfold py_int_truediv; rewrite Z.sub_diag; reflexivity
    | |- is_ok (bind ?c _) = false =>
        destruct c; cbn [bind]; [| reflexivity]
    end.
Qed.

(** The benchmark parameters are the fallback literals whenever the data
    source raises, has nothing, returns an empty frame, a frame without a
    column [Close], or prices of a single date. *)
Theorem benchmark_parameters_fallback (data : DataFrame) (start_date end_date : Z) :
  py_index (index data) 0 = Ok start_date ->
  iloc_last (index data) = Ok end_date ->
  let fetched := get_historical_data "^GSPC" start_date end_date in
  (forall e, fetched = Raise e ->
             benchmark_parameters lib get_historical_data data = sp500_fallback) /\
  (fetched = Ok None ->
   benchmark_parameters lib get_historical_data data = sp500_fallback) /\
  (forall sp, fetched = Ok (Some sp) ->
     df_empty sp = true \/ df_has_col sp "Close" = false \/
     (exists d, py_index (index sp) 0 = Ok d /\ iloc_last (index sp) = Ok d) ->
     benchmark_parameters lib get_historical_data data = sp500_fallback).
Proof.
  intros Hs He fetched. unfold benchmark_parameters. rewrite He, Hs. cbn [bind].
  fold fetched. split; [| split].
  - intros e ->. reflexivity.
  - intros ->. reflexivity.
  - intros sp -> Hcase. cbn [bind].
    destruct (df_empty sp) eqn:Eempty; [reflexivity |]. cbn [negb].
    destruct Hcase as [Hc | [Hc | (d & Hf & Hl)]]; [discriminate | |].
    + unfold sp500_parameters_of, df_col. unfold df_has_col in Hc.
      destruct (assoc_get "Close" (columns sp)); [discriminate | reflexivity].
    + pose proof (sp500_parameters_of_single_date sp d Hf Hl) as Hno.
      destruct (sp500_parameters_of lib sp); [discriminate | reflexivity].
Qed.

End BenchmarkProperties.

Lemma benchmark_parameters_fallback_witness :
  benchmark_parameters Reference.numerics Reference.no_benchmark Reference.flat3
  = sp500_fallback.
Proof.
  destruct (benchmark_parameters_fallback Reference.numerics
              Reference.no_benchmark Reference.flat3 0 2 eq_refl eq_refl)
    as (_ & H & _).
  apply H. reflexivity.
Defined.

(** ** CompositeScorer *)

(** The benchmark's own raw score.  With a finite benchmark return and a
    finite, non-zero benchmark volatility it is [0.3] times a trend score
    plus [60 * 0.6 + 75 * 0.1], hence between 43.5 and 73.5, and the scaling
    factor [75 / raw] is a finite number greater than 1. *)
Theorem scoring_benchmark_bounds (lib : Numerics) (data : DataFrame)
    (p : sp500_parameters) (ar av : Q) :
  param_annual_return p = Fin ar ->
  param_annual_volatility p = Fin av ->
  ~ av == 0 ->
  exists raw k,
    scoring_benchmark lib data p = Ok (Fin raw) /\
    43.5 <= raw <= 73.5 /\
    (Fin 75 / Fin raw)%num = Fin k /\ 1 < k /\ k * raw == 75.
Proof.
  intros Har Hav Hnz. unfold scoring_benchmark.
  pose proof (evaluate_trend_score_range lib data (param_quad_coef p)
                (param_linear_coef p) (param_r_squared p)) as (t & Ht & Hrange).
  destruct (evaluate_trend_score lib data (param_quad_coef p)
              (param_linear_coef p) (param_r_squared p)) as [[ts ratio] level].
  cbn [fst] in Ht. subst ts.
  rewrite Har, Hav, score_metric_return_self,
    (score_metric_volatility_self av Hnz).
  cbn [bind]. unfold weighted, the_weights, Num.of_Z.
  cbn [weight_trend weight_return weight_volatility Num.mul Num.add].
  set (raw := t * 0.3 + inject_Z 60 * 0.6 + inject_Z 75 * 0.10).
  assert (Hraw : 43.5 <= raw <= 73.5).
  { unfold raw. change (inject_Z 60) with 60. change (inject_Z 75) with 75. lra. }
  clearbody raw.
  exists raw, (75 / raw). split; [reflexivity |]. split; [exact Hraw |].
  split; [apply div_finite; lra |]. split.
  - apply Qlt_shift_div_l; lra.
  - field. lra.
Qed.

Lemma scoring_benchmark_bounds_witness :
  exists raw k,
    scoring_benchmark Reference.numerics Reference.flat3 sp500_fallback
    = Ok (Fin raw) /\
    43.5 <= raw <= 73.5 /\
    (Fin 75 / Fin raw)%num = Fin k /\ 1 < k /\ k * raw == 75.
Proof.
  apply (scoring_benchmark_bounds Reference.numerics Reference.flat3
           sp500_fallback 0.2384 0.125); [reflexivity | reflexivity | lra].
Defined.

Lemma py_min_95_cases (x : num) :
  (exists f, Num.py_min (Fin 95) x = Fin f /\ f <= 95) \/
  (x = NInf /\ Num.py_min (Fin 95) x = NInf).
Proof.
  unfold Num.py_min. destruct x as [q | | |]; simpl.
  - left. case_Qlt q 95; eexists; (split; [reflexivity | lra]).
  - left. exists 95. split; [reflexivity | lra].
  - right. split; reflexivity.
  - left. exists 95. split; [reflexivity | lra].
Qed.

(** The reported score can exceed the cap of 95 by the perturbation, but
    never 97: for a draw in [0,1) it is a number not above 97, or NaN when
    the scaled raw score is minus infinity. *)
Theorem perturbed_score_cap (raw_score scaling_factor : num) (u : Q) :
  0 <= u < 1 ->
  (exists s, perturbed_score raw_score scaling_factor u = Fin s /\ s <= 97) \/
  ((raw_score * scaling_factor)%num = NInf /\
   perturbed_score raw_score scaling_factor u = NaN).
Proof.
  intro Hu. unfold perturbed_score.
  destruct (py_min_95_cases (raw_score * scaling_factor)%num)
    as [(f & -> & Hf) | (Hx & ->)].
  - left. unfold random_uniform.
    cbn [Num.sub Num.add Num.opp Num.mul py_round2].
    eexists. split; [reflexivity |].
    set (x := f + - (2) + (f + 2 + - (f + - (2))) * u).
    assert (Hx : x * 100 <= 9700) by (unfold x; nra).
    apply round_half_even_mono in Hx.
    change (round_half_even 9700) with 9700%Z in Hx.
    assert (Hn : inject_Z (round_half_even (x * 100)) <= 9700).
    { change 9700 with (inject_Z 9700). now rewrite <- Zle_Qle. }
    clearbody x. set (n := inject_Z (round_half_even (x * 100))) in *.
    clearbody n. qlra.
  - right. split; [exact Hx | reflexivity].
Qed.

Lemma perturbed_score_cap_witness :
  exists s, perturbed_score (Fin 200) (Fin 1) 0.9 = Fin s /\ s <= 97.
Proof.
  destruct (perturbed_score_cap (Fin 200) (Fin 1) 0.9 ltac:(lra))
    as [H | [Hx _]]; [exact H | discriminate Hx].
Defined.

(** ** The composite analysis call, further *)

Lemma assoc_set_idem {A : Type} (name : string) (v : A) (l : list (string * A)) :
  assoc_set name v (assoc_set name v l) = assoc_set name v l.
Proof.
  induction l as [| [k w] l IH]; simpl.
  - now rewrite String.eqb_refl.
  - destruct (String.eqb k name) eqn:E; simpl; rewrite E; [reflexivity |].
    now rewrite IH.
Qed.

Lemma assoc_set_nonempty {A : Type} (name : string) (v : A)
    (l : list (string * A)) :
  assoc_set name v l <> [].
Proof.
  destruct l as [| [k w] l]; simpl; [discriminate |].
  destruct (String.eqb k name); discriminate.
Qed.

Lemma rating_of_not_error (final_score : num) : rating_of final_score <> "Error".
Proof.
  unfold rating_of.
  repeat match goal with
    | |- context [if ?c then _ else _] => destruct c
    end; discriminate.
Qed.

Section ServiceFurther.

Variable lib : Numerics.
Variable get_historical_data : DataService.

Local Abbreviation analysis :=
  (perform_polynomial_regression lib get_historical_data).

Lemma regression_fit_of_lengths (data : DataFrame) (future_days : Z)
    (fit : regression_fit) :
  regression_fit_of lib data future_days = Ok fit ->
  length (fit_y_pred_upper fit) = length (fit_y_pred fit) /\
  length (fit_y_pred_lower fit) = length (fit_y_pred fit).
Proof.
  unfold regression_fit_of.
  repeat match goal with
    | |- bind ?c _ = Ok _ -> _ => destruct c; cbn [bind]; [| discriminate]
    end.
  intro H. injection H as <-. cbn. now rewrite !length_map.
Qed.

(** The shapes of the results of the last two handlers. *)
Lemma fallback_results_shape (close : list num) (n : nat) (r : regression_result) :
  r = regression_failed_result close n \/ r = error_occurred_result close n ->
  predictions r = close /\ upper_band r = close /\ lower_band r = close /\
  rating (total_score r) = "Error" /\ score (total_score r) = Fin 0 /\
  r2 r = Fin 0 /\ coefficients r = [Fin 0; Fin 0; Fin 0] /\
  scaling (total_score r) = None /\
  (equation r = "Regression failed" \/ equation r = "Error occurred").
Proof.
  intros [-> | ->]; cbn; repeat split; auto.
Qed.

(** Every result of the call is of one of three kinds: the result for no
    data, a fallback result built from the [Close] column, or a complete
    result of a fit whose scoring went through. *)
Lemma analysis_result_kinds (data : option DataFrame) (future_days : Z) (u : Q)
    (r : regression_result) :
  fst (analysis data future_days u) = Ok r ->
  r = no_data_result \/
  (exists df close,
     data = Some df /\ df_col df "Close" = Ok close /\
     (r = regression_failed_result close (df_len df) \/
      r = error_occurred_result close (df_len df))) \/
  (exists fit sc,
     scaling (total_score r) = Some sc /\
     rating (total_score r) = rating_of (score (total_score r)) /\
     predictions r = fit_y_pred fit /\ upper_band r = fit_y_pred_upper fit /\
     lower_band r = fit_y_pred_lower fit /\
     length (fit_y_pred_upper fit) = length (fit_y_pred fit) /\
     length (fit_y_pred_lower fit) = length (fit_y_pred fit)).
Proof.
  unfold perform_polynomial_regression.
  destruct data as [data |]; [| intro H; injection H as <-; now left].
  destruct (df_empty data); [intro H; injection H as <-; now left |].
  pose proof (regression_step_keeps_close lib data future_days) as Hk.
  assert (Hlen : df_len (snd (regression_step lib data future_days)) = df_len data).
  { unfold regression_step. destruct (df_col data "Close"); reflexivity. }
  assert (Hfit : forall fit,
             fst (regression_step lib data future_days) = Ok fit ->
             length (fit_y_pred_upper fit) = length (fit_y_pred fit) /\
             length (fit_y_pred_lower fit) = length (fit_y_pred fit)).
  { intro fit. unfold regression_step.
    destruct (df_col data "Close"); cbn [fst]; [| discriminate].
    apply regression_fit_of_lengths. }
  destruct (regression_step lib data future_days) as [fitted data'].
  cbn [fst snd] in *. rewrite Hk, Hlen.
  destruct fitted as [fit |].
  - destruct (complete_result fit _) as [r' |] eqn:E; cbn [try_except].
    + intro H. injection H as <-. right. right. revert E. unfold scoring.
      destruct (scoring_returns lib data') as [[ar av] |];
        [| now rewrite complete_result_after_failure].
      destruct (scoring_asset lib data' _ fit ar av)
        as [[[[[[ts ra] cl] rs] vs] raw] |];
        [| now rewrite complete_result_after_failure].
      destruct (scoring_benchmark lib data' _) as [sp_raw |];
        [| now rewrite complete_result_after_failure].
      cbn. intro H. injection H as <-. cbn.
      destruct (Hfit fit eq_refl) as [Hu Hl].
      exists fit. eexists. repeat split; auto.
    + destruct (df_col data "Close") as [close |] eqn:Ec; cbn [bind];
        [| discriminate].
      intro H. injection H as <-. right. left. exists data, close.
      split; [reflexivity | split; [exact Ec | now right]].
  - destruct (df_col data "Close") as [close |] eqn:Ec; cbn [bind try_except];
      [| discriminate].
    intro H. injection H as <-. right. left. exists data, close.
    split; [reflexivity | split; [exact Ec | now left]].
Qed.

End ServiceFurther.

(** In every result the predictions and the two bands have the same
    length. *)
Theorem analysis_bands_aligned (lib : Numerics)
    (get_historical_data : DataService) (data : option DataFrame)
    (future_days : Z) (u : Q) (r : regression_result) :
  fst (perform_polynomial_regression lib get_historical_data data future_days u)
  = Ok r ->
  length (upper_band r) = length (predictions r) /\
  length (lower_band r) = length (predictions r).
Proof.
  intro H. apply analysis_result_kinds in H.
  destruct H as [-> | [(df & close & _ & _ & Hr) | (fit & sc & _ & _ & Hp & Hu & Hl & H1 & H2)]].
  - split; reflexivity.
  - destruct (fallback_results_shape close (df_len df) r Hr) as (-> & -> & -> & _).
    split; reflexivity.
  - rewrite Hp, Hu, Hl. split; assumption.
Qed.

Lemma analysis_bands_aligned_witness :
  exists r,
    fst (perform_polynomial_regression Reference.numerics Reference.no_benchmark
           (Some Reference.flat3) 5 0) = Ok r /\
    length (upper_band r) = length (predictions r) /\
    length (lower_band r) = length (predictions r).
Proof.
  destruct (fst (perform_polynomial_regression Reference.numerics
                   Reference.no_benchmark (Some Reference.flat3) 5 0))
    as [r |] eqn:E; [| vm_compute in E; discriminate].
  exists r. split; [reflexivity |].
  now apply (analysis_bands_aligned Reference.numerics Reference.no_benchmark
               (Some Reference.flat3) 5 0).
Defined.

(** A result rated "Error" is never a complete one: it has score 0, no
    fit ([r2 = 0], zero coefficients) and no scaling, and a result with a
    scaling is rated by its score.  The zeroed scores that the handler of the
    scoring step prepares never reach the caller. *)
Theorem analysis_error_is_never_complete (lib : Numerics)
    (get_historical_data : DataService) (data : option DataFrame)
    (future_days : Z) (u : Q) (r : regression_result) :
  fst (perform_polynomial_regression lib get_historical_data data future_days u)
  = Ok r ->
  (rating (total_score r) = "Error" <-> scaling (total_score r) = None) /\
  (rating (total_score r) = "Error" ->
   score (total_score r) = Fin 0 /\ r2 r = Fin 0 /\
   coefficients r = [Fin 0; Fin 0; Fin 0]).
Proof.
  intro H. apply analysis_result_kinds in H.
  destruct H as [-> | [(df & close & _ & _ & Hr) | (fit & sc & Hs & Hrate & _)]].
  - cbn. repeat split; auto.
  - destruct (fallback_results_shape close (df_len df) r Hr)
      as (_ & _ & _ & -> & -> & -> & -> & -> & _).
    repeat split; auto.
  - rewrite Hs, Hrate. split; [split |]; intro Hx;
      try discriminate; now apply rating_of_not_error in Hx.
Qed.

Lemma analysis_error_is_never_complete_witness :
  exists r,
    fst (perform_polynomial_regression Reference.numerics Reference.no_benchmark
           (Some Reference.flat3) 5 0) = Ok r /\
    (rating (total_score r) = "Error" <-> scaling (total_score r) = None).
Proof.
  destruct (fst (perform_polynomial_regression Reference.numerics
                   Reference.no_benchmark (Some Reference.flat3) 5 0))
    as [r |] eqn:E; [| vm_compute in E; discriminate].
  exists r. split; [reflexivity |].
  now apply (analysis_error_is_never_complete Reference.numerics
               Reference.no_benchmark (Some Reference.flat3) 5 0).
Defined.

Section FrameEffect.

Variable lib : Numerics.
Variable get_historical_data : DataService.

Local Abbreviation analysis :=
  (perform_polynomial_regression lib get_historical_data).

(** The frame after the call, in all cases. *)
Lemma analysis_frame_cases (data : DataFrame) (future_days : Z) (u : Q) :
  snd (analysis (Some data) future_days u) = Some data \/
  exists close,
    df_empty data = false /\ df_col data "Close" = Ok close /\
    snd (analysis (Some data) future_days u)
    = Some (df_set_col data "Log_Close" (map (np_log lib) close)).
Proof.
  unfold perform_polynomial_regression.
  destruct (df_empty data) eqn:Ee; [now left |].
  unfold regression_step.
  destruct (df_col data "Close") as [close |] eqn:Ec; cbn [snd]; [| now left].
  right. exists close. auto.
Qed.

(** The frame after the call does not depend on the horizon or the draw. *)
Lemma analysis_frame_independent (data : DataFrame) (future_days future_days' : Z)
    (u u' : Q) :
  snd (analysis (Some data) future_days u)
  = snd (analysis (Some data) future_days' u').
Proof.
  unfold perform_polynomial_regression.
  destruct (df_empty data); [reflexivity |].
  unfold regression_step. destruct (df_col data "Close"); reflexivity.
Qed.

Lemma df_set_col_log_close (data : DataFrame) (values : list num) :
  let data' := df_set_col data "Log_Close" values in
  index data' = index data /\
  (forall name, name <> "Log_Close" -> df_col data' name = df_col data name) /\
  df_col data' "Log_Close" = Ok values /\
  df_set_col data' "Log_Close" values = data'.
Proof.
  unfold df_set_col, df_col; cbn [index columns]. repeat split.
  - intros name Hne. rewrite assoc_get_set_other; [reflexivity |].
    apply String.eqb_neq. congruence.
  - now rewrite assoc_get_set_same.
  - now rewrite assoc_set_idem.
Qed.

End FrameEffect.

(** What the call does to the caller's frame: the index and every column
    other than [Log_Close] are as before, and a second call leaves the frame
    as the first one left it. *)
Theorem analysis_frame_effect (lib : Numerics)
    (get_historical_data : DataService) (data : DataFrame)
    (future_days future_days' : Z) (u u' : Q) :
  exists data',
    snd (perform_polynomial_regression lib get_historical_data (Some data)
           future_days u) = Some data' /\
    index data' = index data /\
    (forall name, name <> "Log_Close" -> df_col data' name = df_col data name) /\
    snd (perform_polynomial_regression lib get_historical_data (Some data')
           future_days' u') = Some data'.
Proof.
  destruct (analysis_frame_cases lib get_historical_data data future_days u)
    as [Hsame | (close & He & Hc & Hset)].
  - exists data. split; [exact Hsame |]. split; [reflexivity |].
    split; [reflexivity |].
    now rewrite (analysis_frame_independent lib get_historical_data data
                   future_days' future_days u' u).
  - destruct (df_set_col_log_close data (map (np_log lib) close))
      as (Hidx & Hcols & _ & Hidem).
    exists (df_set_col data "Log_Close" (map (np_log lib) close)).
    split; [exact Hset |]. split; [exact Hidx |]. split; [exact Hcols |].
    rewrite (analysis_frame_after lib get_historical_data _ future_days' u' close).
    + now rewrite Hidem.
    + unfold df_empty in *. cbn [df_set_col index columns].
      destruct (index data); [discriminate |].
      destruct (assoc_set "Log_Close" (map (np_log lib) close) (columns data))
        eqn:E; [now apply assoc_set_nonempty in E | reflexivity].
    + rewrite Hcols; [exact Hc | discriminate].
Qed.

Lemma scoring_returns_single_date (lib : Numerics) (data : DataFrame) (d : Z) :
  py_index (index data) 0 = Ok d -> iloc_last (index data) = Ok d ->
  is_ok (scoring_returns lib data) = false.
Proof.
  intros Hfirst Hlast. unfold scoring_returns. rewrite Hfirst, Hlast.
  repeat match goal with
    | |- is_ok (bind (Ok _) _) = false => cbn [bind]
    | |- is_ok (bind (py_int_truediv _ _) _) = false =>
        unfold py_int_truediv; rewrite Z.sub_diag; reflexivity
    | |- is_ok (bind ?c _) = false =>
        destruct c; cbn [bind]; [| reflexivity]
    end.
Qed.

(** A series whose first and last date coincide (a single observation, for
    instance) cannot be annualized: whatever the fit does, the call returns
    a fallback result rated "Error" whose predictions are the closing
    prices. *)
Theorem analysis_single_date (lib : Numerics)
    (get_historical_data : DataService) (data : DataFrame) (d : Z)
    (close : list num) (future_days : Z) (u : Q) :
  df_empty data = false ->
  df_col data "Close" = Ok close ->
  py_index (index data) 0 = Ok d ->
  iloc_last (index data) = Ok d ->
  exists r,
    fst (perform_polynomial_regression lib get_historical_data (Some data)
           future_days u) = Ok r /\
    rating (total_score r) = "Error" /\
    score (total_score r) = Fin 0 /\
    predictions r = close /\ upper_band r = close /\ lower_band r = close /\
    max_x r = Z.of_nat (df_len data) /\
    (equation r = "Regression failed" \/ equation r = "Error occurred").
Proof.
  intros He Hc Hfirst Hlast. unfold perform_polynomial_regression.
  rewrite He. unfold regression_step. rewrite Hc.
  set (data' := df_set_col data "Log_Close" (map (np_log lib) close)).
  assert (Hc' : df_col data' "Close" = Ok close).
  { unfold data', df_col, df_set_col in *. cbn [columns].
    now rewrite assoc_get_set_other. }
  assert (Hs : is_ok (scoring_returns lib data') = false)
    by (apply (scoring_returns_single_date lib data' d); assumption).
  cbn [fst]. rewrite Hc'. cbn [bind].
  destruct (regression_fit_of lib data' future_days) as [fit |].
  - unfold scoring.
    destruct (scoring_returns lib data') as [[ar av] |]; [discriminate |].
    rewrite complete_result_after_failure. cbn [try_except].
    eexists. split; [reflexivity |]. cbn. repeat split; auto.
  - cbn [try_except]. eexists. split; [reflexivity |]. cbn. repeat split; auto.
Qed.

Lemma analysis_single_date_witness :
  exists r,
    fst (perform_polynomial_regression Reference.numerics Reference.no_benchmark
           (Some {| index := [7%Z]; columns := [("Close", [Fin 3])] |}) 180 0)
    = Ok r /\
    rating (total_score r) = "Error" /\ predictions r = [Fin 3].
Proof.
  destruct (analysis_single_date Reference.numerics Reference.no_benchmark
              {| index := [7%Z]; columns := [("Close", [Fin 3])] |} 7 [Fin 3]
              180 0 eq_refl eq_refl eq_refl eq_refl)
    as (r & Hr & Hrating & _ & Hp & _).
  exists r. auto.
Defined.

(** ** RollingWindowAnalyzer, further *)

Lemma dropna_finite (l : list num) : all_finite l -> dropna l = l.
Proof.
  unfold all_finite, dropna. induction 1 as [| x l Hx _ IH]; simpl;
    [reflexivity |].
  destruct x; try discriminate. simpl. now rewrite IH.
Qed.

Lemma select_Forall {A : Type} (P : A -> Prop) (mask : list bool) (l : list A) :
  Forall P l -> Forall P (select mask l).
Proof.
  intro H. revert mask. induction H as [| x l Hx _ IH]; intros [| b mask];
    simpl; try constructor.
  destruct b; [constructor; [exact Hx | apply IH] | apply IH].
Qed.

Lemma fold_max_finite (rest : list num) (x0 : Q) :
  all_finite rest ->
  exists M,
    fold_left (fun m y => if (m <? y)%num then y else m) rest (Fin x0) = Fin M /\
    x0 <= M /\ Forall (fun y => exists q, y = Fin q /\ q <= M) rest.
Proof.
  unfold all_finite. intro H. revert x0.
  induction H as [| y rest Hy _ IH]; intro x0; simpl.
  - exists x0. split; [reflexivity |]. split; [lra | constructor].
  - destruct y as [q | | |]; try discriminate. simpl.
    case_Qlt x0 q.
    + destruct (IH q) as (M & -> & Hq & Hall). exists M.
      split; [reflexivity |]. split; [lra |]. constructor; [eauto | exact Hall].
    + destruct (IH x0) as (M & -> & Hq & Hall). exists M.
      split; [reflexivity |]. split; [lra |].
      constructor; [exists q; split; [reflexivity | lra] | exact Hall].
Qed.

Lemma fold_min_finite (rest : list num) (x0 : Q) :
  all_finite rest ->
  exists m,
    fold_left (fun m y => if (y <? m)%num then y else m) rest (Fin x0) = Fin m /\
    m <= x0 /\ Forall (fun y => exists q, y = Fin q /\ m <= q) rest.
Proof.
  unfold all_finite. intro H. revert x0.
  induction H as [| y rest Hy _ IH]; intro x0; simpl.
  - exists x0. split; [reflexivity |]. split; [lra | constructor].
  - destruct y as [q | | |]; try discriminate. simpl.
    case_Qlt q x0.
    + destruct (IH q) as (m & -> & Hq & Hall). exists m.
      split; [reflexivity |]. split; [lra |]. constructor; [eauto | exact Hall].
    + destruct (IH x0) as (m & -> & Hq & Hall). exists m.
      split; [reflexivity |]. split; [lra |].
      constructor; [exists q; split; [reflexivity | lra] | exact Hall].
Qed.

(** On finite values the extremes of a series bound each of its values. *)
Lemma series_extremes_finite (l : list num) (x : num) :
  all_finite l -> In x l ->
  exists lo c hi,
    series_min l = Fin lo /\ x = Fin c /\ series_max l = Fin hi /\
    lo <= c <= hi.
Proof.
  intros Hfin Hin. unfold series_max, series_min.
  rewrite (dropna_finite l Hfin).
  destruct l as [| y rest]; [contradiction |].
  unfold all_finite in Hfin. inversion Hfin as [| ? ? Hy Hrest]; subst.
  destruct y as [q | | |]; try discriminate.
  destruct (fold_max_finite rest q Hrest) as (hi & -> & Hqhi & Hhi).
  destruct (fold_min_finite rest q Hrest) as (lo & -> & Hqlo & Hlo).
  destruct Hin as [<- | Hin].
  - exists lo, q, hi. repeat split; auto.
  - rewrite Forall_forall in Hhi, Hlo.
    destruct (Hhi x Hin) as (c & -> & Hc1). destruct (Hlo _ Hin) as (c' & Hc' & Hc2).
    injection Hc' as <-. exists lo, c, hi. repeat split; auto.
Qed.

Lemma iloc_last_In {A : Type} (l : list A) (x : A) :
  iloc_last l = Ok x -> In x l.
Proof.
  unfold iloc_last. destruct (rev l) as [| y r] eqn:E; [discriminate |].
  intro H. injection H as ->. apply in_rev. rewrite E. now left.
Qed.

(** The two percentages as both analyses compute them. *)
Lemma technical_metrics_consistent (c hi lo : Q) :
  lo <= c <= hi ->
  row_consistent (Fin c) (Fin hi) (Fin lo)
    (if (Fin hi - Fin lo >? Fin 0)%num
     then ((Fin hi - Fin c) / (Fin hi - Fin lo) * Fin 100)%num
     else Fin 0)
    (calculate_price_appreciation_pct (Fin c) (Fin hi) (Fin lo)).
Proof.
  intro Hc. unfold calculate_price_appreciation_pct, Num.gtb.
  cbn [Num.sub Num.add Num.opp Num.ltb].
  case_Qlt 0 (hi + - lo).
  - cbn [Num.div Num.mul]. rewrite (Qeq_bool_false_of_pos _ E). cbn [Num.mul].
    pose proof (Qdiv_unit (hi + - c) (hi + - lo) E ltac:(lra)) as Hr.
    pose proof (Qdiv_unit (c + - lo) (hi + - lo) E ltac:(lra)) as Hp.
    assert (Hsum : (hi + - c) / (hi + - lo) * 100 + (c + - lo) / (hi + - lo) * 100
                   == 100) by (field; lra).
    set (r := (hi + - c) / (hi + - lo)) in *.
    set (p := (c + - lo) / (hi + - lo)) in *. clearbody r p.
    exists c, hi, lo, (r * 100), (p * 100).
    repeat split; try reflexivity; try lra.
  - exists c, hi, lo, 0, 0. repeat split; try reflexivity; try lra.
Qed.

Section RowProperties.

Variable lib : Numerics.
Variable data : DataFrame.
Variable close : list num.
Hypothesis close_column : df_col data "Close" = Ok close.
Hypothesis close_finite : all_finite close.

Lemma trailing_window_finite (t days : Z) (w : DataFrame) :
  trailing_window data t days = Ok w ->
  exists close', df_col w "Close" = Ok close' /\ all_finite close'.
Proof.
  unfold trailing_window, py_index.
  set (mask1 := map (fun d => (d <=? t)%Z) (index data)).
  destruct (nth_error (index (df_loc mask1 data)) 0) as [first |]; [| discriminate].
  cbn [bind].
  pose proof (df_col_loc mask1 data "Close" close close_column) as Hc1.
  assert (Hf1 : all_finite (select mask1 close))
    by (apply select_Forall; exact close_finite).
  destruct (t - first >? days)%Z; intro H; injection H as <-.
  - eexists. split; [apply df_col_loc; exact Hc1 |].
    apply select_Forall. exact Hf1.
  - eauto.
Qed.

(** The technical columns computed from one window. *)
Lemma window_metrics_consistent (w : DataFrame) (close' : list num)
    (current_price : num) :
  all_finite close' -> iloc_last close' = Ok current_price ->
  row_consistent current_price (series_max close') (series_min close')
    (if (series_max close' - series_min close' >? Fin 0)%num
     then ((series_max close' - current_price)
           / (series_max close' - series_min close') * Fin 100)%num
     else Fin 0)
    (calculate_price_appreciation_pct current_price (series_max close')
       (series_min close')).
Proof.
  intros Hfin Hlast. apply iloc_last_In in Hlast.
  destruct (series_extremes_finite close' current_price Hfin Hlast)
    as (lo & c & hi & -> & -> & -> & Hc).
  now apply technical_metrics_consistent.
Qed.

Lemma analyze_date_consistent (crossover_days lookback_days : Z)
    (acc acc' : list window_row) (t : Z) :
  analyze_date lib data crossover_days lookback_days acc t = Ok acc' ->
  Forall (fun r => row_consistent (Close r) (High r) (Low r)
                     (Retracement_Ratio_Pct r) (Price_Position_Pct r)) acc ->
  Forall (fun r => row_consistent (Close r) (High r) (Low r)
                     (Retracement_Ratio_Pct r) (Price_Position_Pct r)) acc'.
Proof.
  unfold analyze_date. intros H Hacc.
  destruct (trailing_window data t lookback_days) as [r2_data |]; [| discriminate].
  cbn [bind] in H.
  destruct (trailing_window data t crossover_days) as [period_data |] eqn:Ew;
    [| discriminate].
  cbn [bind] in H.
  destruct (df_len period_data <? 20)%nat; [now injection H as <- |].
  destruct (trailing_window_finite t crossover_days period_data Ew)
    as (close' & Hc' & Hfin).
  rewrite Hc' in H. cbn [bind] in H.
  destruct (iloc_last close') as [current_price |] eqn:El; [| discriminate].
  cbn [bind] in H. injection H as <-.
  apply Forall_app. split; [exact Hacc |]. constructor; [| constructor].
  cbn. now apply (window_metrics_consistent period_data).
Qed.

Lemma analyze_date_old_consistent (crossover_days : Z)
    (acc acc' : list old_row) (t : Z) :
  analyze_date_old data crossover_days acc t = Ok acc' ->
  Forall (fun r => row_consistent (old_Price r) (old_High r) (old_Low r)
                     (old_Retracement_Ratio_Pct r) (old_Price_Position_Pct r)) acc ->
  Forall (fun r => row_consistent (old_Price r) (old_High r) (old_Low r)
                     (old_Retracement_Ratio_Pct r) (old_Price_Position_Pct r)) acc'.
Proof.
  unfold analyze_date_old. intros H Hacc.
  destruct (trailing_window data t crossover_days) as [period_data |] eqn:Ew;
    [| discriminate].
  cbn [bind] in H.
  destruct (df_len period_data <? 2)%nat; [now injection H as <- |].
  destruct (trailing_window_finite t crossover_days period_data Ew)
    as (close' & Hc' & Hfin).
  rewrite Hc' in H. cbn [bind] in H.
  destruct (iloc_last close') as [current_price |] eqn:El; [| discriminate].
  cbn [bind] in H. injection H as <-.
  apply Forall_app. split; [exact Hacc |]. constructor; [| constructor].
  cbn. now apply (window_metrics_consistent period_data).
Qed.

Lemma for_each_invariant {S I : Type} (body : S -> I -> res S) (P : S -> Prop)
    (items : list I) :
  (forall s i s', body s i = Ok s' -> P s -> P s') ->
  forall s s', for_each body items s = Ok s' -> P s -> P s'.
Proof.
  intro Hstep. induction items as [| i items IH]; intros s s' H Hs; simpl in H.
  - now injection H as <-.
  - destruct (body s i) as [s1 |] eqn:E; [| discriminate].
    cbn [bind] in H. eapply IH; eauto.
Qed.

End RowProperties.

(** With finite closing prices, every row of both rolling analyses is
    consistent: the close lies between the low and the high of its window,
    the retracement ratio and the price position lie between 0 and 100, add
    up to 100 when the window has a range and are both 0 when it has none. *)
Theorem analysis_rows_consistent (lib : Numerics) (data : DataFrame)
    (close : list num) (crossover_days lookback_days : Z) :
  df_col data "Close" = Ok close ->
  all_finite close ->
  (forall rows,
     analyze_rows lib data crossover_days lookback_days = Ok rows ->
     Forall (fun r => row_consistent (Close r) (High r) (Low r)
                        (Retracement_Ratio_Pct r) (Price_Position_Pct r)) rows) /\
  (forall rows,
     analyze_stock_data_old data crossover_days = Ok rows ->
     Forall (fun r => row_consistent (old_Price r) (old_High r) (old_Low r)
                        (old_Retracement_Ratio_Pct r) (old_Price_Position_Pct r))
            rows).
Proof.
  intros Hc Hfin. split; intros rows H.
  - unfold analyze_rows in H.
    eapply (for_each_invariant _ _ _
              (fun s i s' => analyze_date_consistent lib data close Hc Hfin
                               crossover_days lookback_days s s' i)); eauto.
  - unfold analyze_stock_data_old in H.
    eapply (for_each_invariant _ _ _
              (fun s i s' => analyze_date_old_consistent data close Hc Hfin
                               crossover_days s s' i)); eauto.
Qed.

Lemma analysis_rows_consistent_witness :
  exists rows,
    analyze_stock_data_old Reference.ramp25 365 = Ok rows /\
    Forall (fun r => row_consistent (old_Price r) (old_High r) (old_Low r)
                       (old_Retracement_Ratio_Pct r) (old_Price_Position_Pct r))
           rows.
Proof.
  destruct (analyze_stock_data_old Reference.ramp25 365) as [rows |] eqn:E;
    [| vm_compute in E; discriminate].
  exists rows. split; [reflexivity |].
  apply (analysis_rows_consistent Reference.numerics Reference.ramp25
           (map (fun i => Num.of_Z (100 + Z.of_nat i)) (seq 0 25)) 365 365
           eq_refl); [repeat constructor | exact E].
Defined.

(** ** Rolling fit quality *)

Lemma combine_fst_snd {A B : Type} (l : list (A * B)) :
  combine (map fst l) (map snd l) = l.
Proof.
  induction l as [| [a b] l IH]; simpl; [reflexivity | now rewrite IH].
Qed.

Section RollingR2Properties.

Variable lib : Numerics.
Variable data : DataFrame.
Variable lookback_days : Z.

(** The two functions compute the fit quality of a window in the same way. *)
Lemma window_r2_pct_rolling (w : DataFrame) :
  window_r2_pct lib w
  = if (20 <=? df_len w)%nat
    then match rolling_r2_of lib w with
         | Ok r2_pct => Some r2_pct
         | Raise _ => None
         end
    else None.
Proof.
  unfold window_r2_pct, rolling_r2_of.
  destruct (20 <=? df_len w)%nat; [| reflexivity].
  destruct (df_col w "Close") as [close |]; cbn [bind]; [| reflexivity].
  destruct (py_index _ 0) as [first_date |]; cbn [bind]; [| reflexivity].
  destruct (df_col _ "Log_Close") as [y |]; cbn [bind]; [| reflexivity].
  destruct (np_max _) as [max_X |]; cbn [bind]; [| reflexivity].
  rewrite Z.mul_1_r.
  destruct (fit_quadratic lib _ y) as [model |]; cbn [bind]; [| reflexivity].
  destruct (predict lib model _) as [y_fit |]; cbn [bind]; [| reflexivity].
  destruct (r2_score lib y y_fit) as [r2 |]; reflexivity.
Qed.

(** The pairs [(date, value)] that the loop of [calculate_rolling_r2]
    collects from the given dates. *)
Local Abbreviation collected items :=
  (flat_map (fun t => match lookback_r2 lib data lookback_days t with
                      | Some v => [(t, v)]
                      | None => []
                      end) items).

Lemma rolling_r2_step_spec (acc : list Z * list num) (t : Z) :
  In t (index data) ->
  rolling_r2_step lib data lookback_days acc t
  = Ok (match lookback_r2 lib data lookback_days t with
        | Some v => (fst acc ++ [t], snd acc ++ [v])
        | None => acc
        end).
Proof.
  intro Hin. unfold rolling_r2_step, lookback_r2.
  destruct (trailing_window_returns data t lookback_days Hin) as [w ->].
  cbn [bind]. rewrite window_r2_pct_rolling.
  destruct (Nat.ltb_spec (df_len w) 20) as [Hlt | Hge].
  - destruct (Nat.leb_spec 20 (df_len w)); [lia | reflexivity].
  - destruct (Nat.leb_spec 20 (df_len w)); [| lia].
    destruct (rolling_r2_of lib w); reflexivity.
Qed.

Lemma rolling_r2_loop_spec (items : list Z) (acc : list Z * list num) :
  incl items (index data) ->
  for_each (rolling_r2_step lib data lookback_days) items acc
  = Ok (fst acc ++ map fst (collected items), snd acc ++ map snd (collected items)).
Proof.
  revert acc. induction items as [| t items IH]; intros acc Hincl; simpl.
  - rewrite !app_nil_r. now destruct acc.
  - rewrite rolling_r2_step_spec by (apply Hincl; now left). cbn [bind].
    rewrite IH by (intros d Hd; apply Hincl; now right).
    destruct (lookback_r2 lib data lookback_days t); simpl;
      [now rewrite <- !app_assoc | reflexivity].
Qed.

Lemma lookback_r2_some (t : Z) (v : num) :
  lookback_r2 lib data lookback_days t = Some v ->
  (20 <= length (trailing_window_spec (index data) t lookback_days))%nat.
Proof.
  unfold lookback_r2.
  destruct (trailing_window data t lookback_days) as [w |] eqn:Ew; [| discriminate].
  rewrite window_r2_pct_rolling. apply trailing_window_index in Ew.
  rewrite <- Ew. unfold df_len.
  destruct (Nat.leb_spec 20 (length (index w))); [auto | discriminate].
Qed.

Lemma collected_In (items : list Z) (t : Z) (v : num) :
  In (t, v) (collected items) <->
  In t items /\ lookback_r2 lib data lookback_days t = Some v.
Proof.
  rewrite in_flat_map. split.
  - intros (t' & Hin & Hv).
    destruct (lookback_r2 lib data lookback_days t') as [v' |] eqn:E;
      [| contradiction].
    destruct Hv as [Hv | []]. injection Hv as -> ->. auto.
  - intros [Hin Hv]. exists t. split; [exact Hin |]. rewrite Hv. now left.
Qed.

(** The fit quality recorded in the rows of [analyze_stock_data]. *)
Lemma analyze_date_r2 (crossover_days : Z) (acc acc' : list window_row) (t : Z) :
  analyze_date lib data crossover_days lookback_days acc t = Ok acc' ->
  Forall (fun r => R2_Pct r = lookback_r2 lib data lookback_days (Date r)) acc ->
  Forall (fun r => R2_Pct r = lookback_r2 lib data lookback_days (Date r)) acc'.
Proof.
  unfold analyze_date, lookback_r2. intros H Hacc.
  destruct (trailing_window data t lookback_days) as [r2_data |] eqn:Er;
    [| discriminate].
  cbn [bind] in H.
  destruct (trailing_window data t crossover_days) as [period_data |];
    [| discriminate].
  cbn [bind] in H.
  destruct (df_len period_data <? 20)%nat; [now injection H as <- |].
  destruct (df_col period_data "Close") as [close |]; [| discriminate].
  cbn [bind] in H. destruct (iloc_last close) as [cp |]; [| discriminate].
  cbn [bind] in H. injection H as <-.
  apply Forall_app. split; [exact Hacc |]. constructor; [| constructor].
  cbn. now rewrite Er.
Qed.

End RollingR2Properties.

(** [calculate_rolling_r2] never raises, whatever the frame holds: it
    returns as many values as dates, each date is a date of the series whose
    lookback window has at least 20 observations, and a series of fewer than
    20 observations gives two empty lists. *)
Theorem calculate_rolling_r2_returns (lib : Numerics) (data : DataFrame)
    (lookback_days : Z) :
  exists dates values,
    calculate_rolling_r2 lib data lookback_days = Ok (dates, values) /\
    length dates = length values /\
    (forall t, In t dates ->
       In t (index data) /\
       (20 <= length (trailing_window_spec (index data) t lookback_days))%nat) /\
    ((length (index data) < 20)%nat -> dates = [] /\ values = []).
Proof.
  unfold calculate_rolling_r2.
  rewrite (rolling_r2_loop_spec lib data lookback_days (index data) ([], []))
    by apply incl_refl.
  cbn [fst snd app]. eexists _, _. split; [reflexivity |].
  assert (Hin : forall t,
             In t (map fst
                     (flat_map
                        (fun t => match lookback_r2 lib data lookback_days t with
                                  | Some v => [(t, v)]
                                  | None => []
                                  end) (index data))) ->
             In t (index data) /\
             (20 <= length (trailing_window_spec (index data) t lookback_days))%nat).
  { intros t Ht. apply in_map_iff in Ht. destruct Ht as ([t' v] & <- & Hp).
    apply collected_In in Hp. destruct Hp as [Hi Hv]. split; [exact Hi |].
    eapply lookback_r2_some; eauto. }
  split; [now rewrite !length_map |]. split; [exact Hin |].
  intro Hshort.
  destruct (flat_map _ (index data)) as [| [t v] rest] eqn:E; [split; reflexivity |].
  exfalso. destruct (Hin t) as [_ Hlen]; [now left |].
  assert (Hle : (length (trailing_window_spec (index data) t lookback_days)
                 <= length (index data))%nat).
  { unfold trailing_window_spec, history_up_to.
    pose proof (filter_length_le (fun d => (d <=? t)%Z) (index data)) as H1.
    destruct (filter (fun d => (d <=? t)%Z) (index data)) as [| first rest'] eqn:Ef;
      [simpl; lia |].
    destruct (t - first >? lookback_days)%Z; [| exact H1].
    pose proof (filter_length_le (fun d => (t - lookback_days <? d)%Z)
                  (first :: rest')) as H2. lia. }
  lia.
Qed.

(** The column [R2_Pct] of the rolling analysis agrees with
    [calculate_rolling_r2] on the same lookback: a row with a value has its
    date and value among the pairs that [calculate_rolling_r2] returns, and
    a row without one has a date that [calculate_rolling_r2] skips. *)
Theorem analyze_rows_r2_agrees (lib : Numerics) (data : DataFrame)
    (crossover_days lookback_days : Z) (rows : list window_row)
    (dates : list Z) (values : list num) :
  analyze_rows lib data crossover_days lookback_days = Ok rows ->
  calculate_rolling_r2 lib data lookback_days = Ok (dates, values) ->
  forall row, In row rows ->
    match R2_Pct row with
    | Some v => In (Date row, v) (combine dates values)
    | None => ~ In (Date row) dates
    end.
Proof.
  intros Hrows Hroll row Hrow.
  unfold calculate_rolling_r2 in Hroll.
  rewrite (rolling_r2_loop_spec lib data lookback_days (index data) ([], []))
    in Hroll by apply incl_refl.
  cbn [fst snd app] in Hroll. injection Hroll as <- <-.
  rewrite combine_fst_snd.
  assert (Hdate : In (Date row) (index data)).
  { pose proof (analyze_loop_dates lib data crossover_days lookback_days
                  (index data) [] rows Hrows) as Hd.
    assert (Hi : In (Date row) (map Date rows)) by now apply in_map.
    rewrite Hd in Hi. simpl in Hi. apply filter_In in Hi. tauto. }
  assert (Hr2 : R2_Pct row = lookback_r2 lib data lookback_days (Date row)).
  { unfold analyze_rows in Hrows.
    pose proof (for_each_invariant _
                  (Forall (fun r => R2_Pct r
                                    = lookback_r2 lib data lookback_days (Date r)))
                  (index data)
                  (fun s i s' => analyze_date_r2 lib data lookback_days
                                   crossover_days s s' i)
                  [] rows Hrows (Forall_nil _)) as Hall.
    rewrite Forall_forall in Hall. now apply Hall. }
  rewrite Hr2.
  destruct (lookback_r2 lib data lookback_days (Date row)) as [v |] eqn:E.
  - apply collected_In. auto.
  - intro Hin. apply in_map_iff in Hin. destruct Hin as ([t v] & Ht & Hp).
    simpl in Ht. subst t. apply collected_In in Hp. destruct Hp as [_ Hv].
    congruence.
Qed.

Lemma analyze_rows_r2_agrees_witness :
  exists rows dates values,
    analyze_rows Reference.numerics Reference.ramp25 365 365 = Ok rows /\
    calculate_rolling_r2 Reference.numerics Reference.ramp25 365
    = Ok (dates, values) /\
    forall row, In row rows ->
      match R2_Pct row with
      | Some v => In (Date row, v) (combine dates values)
      | None => ~ In (Date row) dates
      end.
Proof.
  destruct (analyze_loop_returns Reference.numerics Reference.ramp25 365 365
              (index Reference.ramp25) []
              (map (fun i => Num.of_Z (100 + Z.of_nat i)) (seq 0 25))
              eq_refl eq_refl (incl_refl _)) as [rows Hrows].
  pose proof (rolling_r2_loop_spec Reference.numerics Reference.ramp25 365
                (index Reference.ramp25) ([], []) (incl_refl _)) as Hroll.
  unfold fst at 1, snd at 1 in Hroll. rewrite !app_nil_l in Hroll.
  eexists rows, _, _. split; [exact Hrows |]. split; [exact Hroll |].
  exact (analyze_rows_r2_agrees Reference.numerics Reference.ramp25 365 365
           rows _ _ Hrows Hroll).
Defined.

(** ** The earlier rolling analysis *)

Section OldAnalysisProperties.

Variable lib : Numerics.
Variable data : DataFrame.
Variables crossover_days lookback_days : Z.

Local Abbreviation window_size t :=
  (length (trailing_window_spec (index data) t crossover_days)).

Lemma analyze_date_old_dates (acc acc' : list old_row) (t : Z) :
  analyze_date_old data crossover_days acc t = Ok acc' ->
  map old_Date acc'
  = map old_Date acc ++ (if (2 <=? window_size t)%nat then [t] else []).
Proof.
  unfold analyze_date_old.
  destruct (trailing_window data t crossover_days) as [w |] eqn:Ew; [| discriminate].
  cbn [bind]. apply trailing_window_index in Ew. rewrite <- Ew. unfold df_len.
  destruct (Nat.ltb_spec (length (index w)) 2) as [Hlt | Hge].
  - intro H. injection H as <-.
    destruct (Nat.leb_spec 2 (length (index w))); [lia |]. now rewrite app_nil_r.
  - destruct (df_col w "Close") as [close |]; [| discriminate]. cbn [bind].
    destruct (iloc_last close) as [cp |]; [| discriminate]. cbn [bind].
    intro H. injection H as <-.
    destruct (Nat.leb_spec 2 (length (index w))); [| lia]. now rewrite map_app.
Qed.

Lemma analyze_old_loop_dates (items : list Z) (acc rows : list old_row) :
  for_each (analyze_date_old data crossover_days) items acc = Ok rows ->
  map old_Date rows
  = map old_Date acc ++ filter (fun t => (2 <=? window_size t)%nat) items.
Proof.
  revert acc. induction items as [| t items IH]; intros acc H; simpl in H.
  - injection H as <-. simpl. now rewrite app_nil_r.
  - destruct (analyze_date_old data crossover_days acc t) as [acc1 |] eqn:E;
      [| discriminate].
    cbn [bind] in H. apply IH in H. rewrite H.
    rewrite (analyze_date_old_dates _ _ _ E). cbn [filter].
    destruct (2 <=? window_size t)%nat.
    + now rewrite <- app_assoc.
    + now rewrite app_nil_r.
Qed.

Lemma analyze_old_loop_returns (items : list Z) (acc : list old_row)
    (close : list num) :
  df_col data "Close" = Ok close ->
  length close = length (index data) ->
  incl items (index data) ->
  exists rows, for_each (analyze_date_old data crossover_days) items acc = Ok rows.
Proof.
  intros Hc Hlen. revert acc.
  induction items as [| t items IH]; intros acc Hincl; simpl; [eauto |].
  assert (Hstep : exists acc1, analyze_date_old data crossover_days acc t = Ok acc1).
  { unfold analyze_date_old.
    destruct (trailing_window_returns data t crossover_days) as [w Ew];
      [apply Hincl; now left |].
    rewrite Ew. cbn [bind].
    destruct (Nat.ltb_spec (df_len w) 2) as [Hlt | Hge]; [eauto |].
    destruct (trailing_window_col data t crossover_days w close Hc Hlen Ew)
      as (close' & -> & Hlen').
    cbn [bind]. destruct (iloc_last_nonempty close') as [cp ->].
    - unfold df_len in Hge. destruct close'; [simpl in Hlen'; lia | discriminate].
    - cbn [bind]. eauto. }
  destruct Hstep as [acc1 ->]. cbn [bind].
  apply IH. intros d Hd. apply Hincl. now right.
Qed.

(** One date in the two analyses: the later one keeps the row of the
    earlier one when the window has at least 20 observations. *)
Lemma analyze_date_both (acc acc' : list window_row) (oacc oacc' : list old_row)
    (t : Z) :
  analyze_date lib data crossover_days lookback_days acc t = Ok acc' ->
  analyze_date_old data crossover_days oacc t = Ok oacc' ->
  map old_row_of acc
  = filter (fun r => (20 <=? window_size (old_Date r))%nat) oacc ->
  map old_row_of acc'
  = filter (fun r => (20 <=? window_size (old_Date r))%nat) oacc'.
Proof.
  unfold analyze_date, analyze_date_old. intros Hnew Hold Hacc.
  destruct (trailing_window data t lookback_days) as [r2_data |]; [| discriminate].
  cbn [bind] in Hnew.
  destruct (trailing_window data t crossover_days) as [w |] eqn:Ew; [| discriminate].
  cbn [bind] in Hnew, Hold. apply trailing_window_index in Ew.
  unfold df_len in *.
  destruct (Nat.ltb_spec (length (index w)) 2) as [Hlt2 | Hge2].
  - injection Hold as <-.
    destruct (Nat.ltb_spec (length (index w)) 20); [| lia].
    injection Hnew as <-. exact Hacc.
  - destruct (df_col w "Close") as [close |]; [| discriminate].
    cbn [bind] in Hold, Hnew.
    destruct (iloc_last close) as [cp |]; [| discriminate].
    cbn [bind] in Hold. injection Hold as <-.
    rewrite filter_app. cbn [filter old_Date]. rewrite <- Ew.
    destruct (Nat.ltb_spec (length (index w)) 20) as [Hlt | Hge].
    + injection Hnew as <-.
      destruct (Nat.leb_spec 20 (length (index w))); [lia |].
      now rewrite app_nil_r.
    + cbn [bind] in Hnew. injection Hnew as <-.
      destruct (Nat.leb_spec 20 (length (index w))); [| lia].
      now rewrite map_app, Hacc.
Qed.

Lemma analyze_loops_both (items : list Z) (acc rows : list window_row)
    (oacc old : list old_row) :
  for_each (analyze_date lib data crossover_days lookback_days) items acc = Ok rows ->
  for_each (analyze_date_old data crossover_days) items oacc = Ok old ->
  map old_row_of acc
  = filter (fun r => (20 <=? window_size (old_Date r))%nat) oacc ->
  map old_row_of rows
  = filter (fun r => (20 <=? window_size (old_Date r))%nat) old.
Proof.
  revert acc oacc. induction items as [| t items IH]; intros acc oacc Hn Ho Hacc;
    simpl in Hn, Ho.
  - injection Hn as <-. injection Ho as <-. exact Hacc.
  - destruct (analyze_date lib data crossover_days lookback_days acc t)
      as [acc1 |] eqn:En; [| discriminate].
    destruct (analyze_date_old data crossover_days oacc t) as [oacc1 |] eqn:Eo;
      [| discriminate].
    cbn [bind] in Hn, Ho.
    apply (IH acc1 oacc1 Hn Ho). eapply analyze_date_both; eauto.
Qed.

End OldAnalysisProperties.

(** [analyze_stock_data_old] returns a table for every frame whose [Close]
    column is as long as its index, an empty one when no window has two
    observations; its rows are the dates whose window has at least two
    observations, and the rows of the later analysis are those of its rows
    whose window has at least 20, with the same values. *)
Theorem analyze_stock_data_old_rows (lib : Numerics) (data : DataFrame)
    (close : list num) (crossover_days lookback_days : Z) :
  df_col data "Close" = Ok close ->
  length close = length (index data) ->
  exists old,
    analyze_stock_data_old data crossover_days = Ok old /\
    map old_Date old
    = filter (fun t =>
                (2 <=? length (trailing_window_spec (index data) t crossover_days))%nat)
             (index data) /\
    forall rows,
      analyze_rows lib data crossover_days lookback_days = Ok rows ->
      map old_row_of rows
      = filter (fun r =>
                  (20 <=? length (trailing_window_spec (index data) (old_Date r)
                                    crossover_days))%nat)
               old.
Proof.
  intros Hc Hlen.
  destruct (analyze_old_loop_returns data crossover_days (index data) [] close
              Hc Hlen (incl_refl _)) as [old Hold].
  exists old. split; [exact Hold |]. split.
  - apply analyze_old_loop_dates in Hold. exact Hold.
  - intros rows Hrows.
    apply (analyze_loops_both lib data crossover_days lookback_days
             (index data) [] rows [] old Hrows Hold). reflexivity.
Qed.

Lemma analyze_stock_data_old_rows_witness :
  analyze_stock_data_old Reference.no_rows 365 = Ok [] /\
  exists old,
    analyze_stock_data_old Reference.flat3 365 = Ok old /\
    map old_Date old = [1; 2]%Z.
Proof.
  split; [reflexivity |].
  destruct (analyze_stock_data_old_rows Reference.numerics Reference.flat3
              [Fin 1; Fin 1; Fin 1] 365 365 eq_refl eq_refl)
    as (old & Hold & Hdates & _).
  exists old. split; [exact Hold | exact Hdates].
Defined.

(** ** Growth rates *)

Lemma assoc_set_fresh {A : Type} (name : string) (v : A) (l : list (string * A)) :
  ~ In name (map fst l) -> assoc_set name v l = l ++ [(name, v)].
Proof.
  induction l as [| [k w] l IH]; intro Hn; simpl; [reflexivity |].
  destruct (String.eqb_spec k name) as [-> | Hne].
  - exfalso. apply Hn. now left.
  - rewrite IH; [reflexivity |]. intro Hin. apply Hn. now right.
Qed.

Lemma assoc_get_NoDup {A : Type} (name : string) (v : A) (l : list (string * A)) :
  NoDup (map fst l) -> In (name, v) l -> assoc_get name l = Some v.
Proof.
  induction l as [| [k w] l IH]; intros Hnd Hin; [contradiction |].
  simpl in *. inversion Hnd as [| ? ? Hk Hnd']; subst.
  destruct Hin as [Heq | Hin].
  - injection Heq as -> ->. now rewrite String.eqb_refl.
  - destruct (String.eqb_spec k name) as [-> | Hne]; [| now apply IH].
    exfalso. apply Hk. apply in_map_iff. exists (name, v). auto.
Qed.

(** The inner loop computes the growth of each period over the one
    before. *)
Lemma growth_loop (values : list num) (done : list num) (prev : num)
    (rest : list num) (rates : list (option num)) :
  values = done ++ prev :: rest ->
  for_each (growth_step values) (seq (S (length done)) (length rest)) rates
  = Ok (rates ++ growth_of (prev :: rest)).
Proof.
  revert done prev rates. induction rest as [| cur rest IH];
    intros done prev rates Hv; simpl.
  - now rewrite app_nil_r.
  - unfold growth_step at 1, py_index.
    replace (S (length done) - 1)%nat with (length done) by lia.
    assert (Hp : nth_error values (length done) = Some prev).
    { subst values. now rewrite nth_error_app2, Nat.sub_diag by lia. }
    assert (Hc : nth_error values (S (length done)) = Some cur).
    { subst values. rewrite nth_error_app2 by lia.
      replace (S (length done) - length done)%nat with 1%nat by lia.
      reflexivity. }
    rewrite Hp, Hc. cbn [bind].
    specialize (IH (done ++ [prev]) cur).
    rewrite length_app in IH. simpl in IH.
    replace (length done + 1)%nat with (S (length done)) in IH by lia.
    unfold growth_of in *. cbn [tl map2].
    destruct (Num.neb prev (Fin 0)); cbn [bind];
      rewrite IH by (subst values; now rewrite <- app_assoc);
      now rewrite <- app_assoc.
Qed.

Lemma growth_loop_all (values : list num) :
  (1 < length values)%nat ->
  for_each (growth_step values) (py_range 1 (length values)) []
  = Ok (growth_of values).
Proof.
  intro Hlen. destruct values as [| prev rest]; [simpl in Hlen; lia |].
  unfold py_range. simpl length.
  replace (S (length rest) - 1)%nat with (length rest) by lia.
  apply (growth_loop (prev :: rest) [] prev rest []). reflexivity.
Qed.

Lemma growth_of_length (values : list num) :
  length (growth_of values) = (length values - 1)%nat.
Proof.
  unfold growth_of. destruct values as [| x rest]; [reflexivity |].
  simpl tl. replace (length (x :: rest) - 1)%nat with (length rest)
    by (simpl; lia).
  revert x. induction rest as [| y rest IH]; intro x; simpl; [reflexivity |].
  f_equal. apply IH.
Qed.

Lemma growth_rates_spec_keys (df : metrics_table) (name : string) :
  In name (map fst (growth_rates_spec df)) -> In name (map fst df).
Proof.
  unfold growth_rates_spec. induction df as [| [k row] df IH]; simpl; [auto |].
  destruct (1 <? length (removelast row))%nat; simpl; intuition.
Qed.

Lemma growth_rates_spec_app (df1 df2 : metrics_table) :
  growth_rates_spec (df1 ++ df2) = growth_rates_spec df1 ++ growth_rates_spec df2.
Proof. unfold growth_rates_spec. apply flat_map_app. Qed.

(** The outer loop, from any point on. *)
Lemma growth_rates_loop (df done rest : metrics_table) :
  df = done ++ rest -> NoDup (map fst df) ->
  for_each
    (fun growth_rates metric =>
       row <- match assoc_get metric df with
              | Some row => Ok row
              | None => Raise KeyError
              end ;;
       let values := removelast row in
       if (1 <? length values)%nat then
         rates <- for_each (growth_step values) (py_range 1 (length values)) [] ;;
         Ok (assoc_set metric rates growth_rates)
       else Ok growth_rates)
    (map fst rest) (growth_rates_spec done)
  = Ok (growth_rates_spec df).
Proof.
  intros Hdf Hnd. revert done Hdf.
  induction rest as [| [metric row] rest IH]; intros done Hdf; simpl.
  - subst df. now rewrite app_nil_r.
  - rewrite (assoc_get_NoDup metric row df Hnd)
      by (subst df; apply in_or_app; right; now left).
    cbn [bind].
    assert (Hnext : df = (done ++ [(metric, row)]) ++ rest)
      by (subst df; now rewrite <- app_assoc).
    specialize (IH (done ++ [(metric, row)]) Hnext).
    rewrite growth_rates_spec_app in IH. unfold growth_rates_spec at 2 in IH.
    cbn [flat_map fst snd] in IH. rewrite app_nil_r in IH.
    destruct (Nat.ltb_spec 1 (length (removelast row))) as [Hlong | Hshort].
    + rewrite growth_loop_all by exact Hlong. cbn [bind].
      rewrite assoc_set_fresh; [exact IH |].
      intro Hin. apply growth_rates_spec_keys in Hin.
      subst df. rewrite map_app in Hnd. simpl in Hnd.
      apply NoDup_remove_2 in Hnd. apply Hnd. apply in_or_app. now left.
    + rewrite app_nil_r in IH. exact IH.
Qed.

(** For a table with distinct metric names [calculate_growth_rates] never
    raises.  It keeps, in order, the metrics that have at least two periods
    besides the CAGR column; each gets one rate per pair of consecutive
    periods, which is [None] exactly when the earlier period is zero and
    [(curr / prev - 1) * 100] otherwise. *)
Theorem calculate_growth_rates_spec (df : metrics_table) :
  NoDup (map fst df) ->
  calculate_growth_rates df = Ok (growth_rates_spec df) /\
  (forall metric rates,
     In (metric, rates) (growth_rates_spec df) ->
     exists row,
       In (metric, row) df /\ (3 <= length row)%nat /\
       length rates = (length row - 2)%nat /\
       forall i prev_val curr_val,
         nth_error row i = Some prev_val ->
         nth_error row (S i) = Some curr_val ->
         (S i < length row - 1)%nat ->
         nth_error rates i
         = Some (if Num.neb prev_val (Fin 0)
                 then Some ((curr_val / prev_val - Fin 1) * Fin 100)%num
                 else None)).
Proof.
  intro Hnd. split.
  - unfold calculate_growth_rates.
    apply (growth_rates_loop df [] df eq_refl Hnd).
  - intros metric rates Hin. unfold growth_rates_spec in Hin.
    apply in_flat_map in Hin. destruct Hin as ([m row] & Hrow & Hin).
    cbn [fst snd] in Hin.
    destruct (Nat.ltb_spec 1 (length (removelast row))) as [Hlong | Hshort];
      [| contradiction].
    destruct Hin as [Heq | []]. injection Heq as -> <-.
    exists row. split; [exact Hrow |].
    assert (Hrl : length (removelast row) = (length row - 1)%nat).
    { destruct row as [| x row]; [reflexivity |].
      rewrite (app_removelast_last x (l := x :: row)) at 2 by discriminate.
      rewrite length_app. simpl. lia. }
    split; [lia |]. split; [rewrite growth_of_length; lia |].
    intros i prev_val curr_val Hp Hc Hi.
    assert (Hp' : nth_error (removelast row) i = Some prev_val).
    { rewrite <- Hp. destruct row as [| x row]; [reflexivity |].
      rewrite (app_removelast_last x (l := x :: row)) at 2 by discriminate.
      rewrite nth_error_app1 by lia. reflexivity. }
    assert (Hc' : nth_error (removelast row) (S i) = Some curr_val).
    { rewrite <- Hc. destruct row as [| x row]; [reflexivity |].
      rewrite (app_removelast_last x (l := x :: row)) at 2 by discriminate.
      rewrite nth_error_app1 by lia. reflexivity. }
    unfold growth_of. rewrite nth_error_map2, Hp'.
    destruct (removelast row) as [| v0 vs]; [discriminate |].
    simpl tl. simpl in Hc'. now rewrite Hc'.
Qed.

Lemma calculate_growth_rates_spec_witness :
  calculate_growth_rates
    [("Revenue", [Fin 100; Fin 110; Fin 0; Fin 50; Fin 0.1]);
     ("Margin", [Fin 3; Fin 0.1])]
  = Ok [("Revenue", [Some (Fin ((110 / 100 - 1) * 100));
                     Some (Fin ((0 / 110 - 1) * 100));
                     None])].
Proof.
  apply (calculate_growth_rates_spec
           [("Revenue", [Fin 100; Fin 110; Fin 0; Fin 50; Fin 0.1]);
            ("Margin", [Fin 3; Fin 0.1])]).
  repeat constructor; simpl; intuition discriminate.
Defined.

(** ** The equation text *)

Lemma prefix_append (a b : string) : String.prefix a (a ++ b)%string = true.
Proof.
  induction a as [| c a IH]; simpl; [now destruct b |].
  destruct (ascii_dec c c) as [_ | Hne]; [exact IH | now destruct Hne].
Qed.

Lemma neb_of_signed (x : num) :
  (x <? Fin 0)%num = true \/ (x >? Fin 0)%num = true ->
  Num.neb x (Fin 0) = true.
Proof.
  unfold Num.gtb, Num.neb. destruct x as [q | | |]; simpl;
    intros [H | H]; try discriminate; try reflexivity;
    apply Qltb_lt in H; apply negb_true_iff;
    (destruct (Qeq_bool q 0) eqn:E; [apply Qeq_bool_iff in E; lra | reflexivity]).
Qed.

(** The equation text always starts with "Ln(y) = ".  Zero terms are left
    out, so that a fit with no non-zero term is rendered with an empty
    right-hand side; and a lone positive intercept is rendered with an
    explicit plus sign, a lone negative one without. *)
Theorem format_regression_equation_terms (lib : Numerics)
    (coefficients : fitted_model) (intercept : num) (max_x : Z) :
  let text := format_regression_equation lib coefficients intercept max_x in
  String.prefix "Ln(y) = " text = true /\
  (Num.neb (coef2 coefficients) (Fin 0) = false ->
   Num.neb (coef1 coefficients) (Fin 0) = false ->
   (Num.neb intercept (Fin 0) = false -> text = "Ln(y) = ") /\
   ((intercept >? Fin 0)%num = true ->
    text = ("Ln(y) = +" ++ format_4f lib intercept)%string) /\
   ((intercept <? Fin 0)%num = true ->
    text = ("Ln(y) = " ++ format_4f lib intercept)%string)).
Proof.
  intro text. split; [apply prefix_append |].
  intros H2 H1. unfold text, format_regression_equation. rewrite H2, H1.
  split; [| split]; intro H.
  - now rewrite H.
  - rewrite (neb_of_signed intercept (or_intror H)), H. reflexivity.
  - rewrite (neb_of_signed intercept (or_introl H)). unfold Num.gtb.
    rewrite (ltb_irrefl_pair _ _ H). reflexivity.
Qed.

Lemma format_regression_equation_terms_witness :
  format_regression_equation Reference.numerics
    {| coef0 := Fin 0; coef1 := Fin 0; coef2 := Fin 0; intercept_ := Fin 1.5 |}
    (Fin 1.5) 10
  = "Ln(y) = +1.5000".
Proof.
  destruct (format_regression_equation_terms Reference.numerics
              {| coef0 := Fin 0; coef1 := Fin 0; coef2 := Fin 0;
                 intercept_ := Fin 1.5 |} (Fin 1.5) 10) as (_ & H).
  destruct (H eq_refl eq_refl) as (_ & Hpos & _).
  rewrite (Hpos eq_refl). reflexivity.
Defined.
